(** * InsightX synthetic transaction generator: a shallow embedding

    Embedding of [src/utils/data_generator.py] (class [MockDataGenerator]).

    Conventions of the embedding.
    - Python [float] values are idealised as exact rationals ([Q]); the
      decimal constants of the source ([0.35], [25000.0], ...) are the
      rationals they denote.
    - Everything the generator reads from outside is collected in a [World]:
      the stream of variates of the seeded [random] module, the stream of
      the seeded [np.random] module, the successive readings of the wall
      clock ([datetime.now()]) and the successive results of the operating
      system's entropy source ([os.urandom], read by [uuid.uuid4]).  The
      first two are fixed by the seed; the last two are not.  Each stream
      has one entry per call made to its source, and its position counts
      those calls: how many words of the Mersenne Twister a call takes
      inside the library is not modelled.
    - Python exceptions are values of [exn]; a computation is a function
      from the world to either a raised exception or a result and the next
      world.
    - The command [generate_and_save_dataset] runs in a [Process]: the
      world, the lines printed and the tables written. *)

From Stdlib Require Import String Ascii DecimalString.
From Stdlib Require Import ZArith QArith Qround Qminmax Lia Bool List Permutation.
Import ListNotations.

Local Open Scope string_scope.
Local Open Scope Z_scope.

(** ** Exceptions and the state-and-exception monad *)

Inductive exn : Type :=
| KeyError (key : string)
| ValueError (msg : string)
| IndexError (msg : string).

Inductive result (A : Type) : Type :=
| Ok (a : A)
| Raise (e : exn).
Arguments Ok {A} a.
Arguments Raise {A} e.

Record World : Type := mkWorld {
  mt : nat -> Z;                      (* variates of the seeded [random] module *)
  mt_pos : nat;                       (* calls made to [random] so far *)
  np_mt : nat -> positive * positive; (* e^z, z the normal variates of seeded [np.random] *)
  np_pos : nat;
  clock : nat -> Z;                   (* readings of datetime.now(), microseconds *)
  clock_pos : nat;
  urandom : nat -> Z;                 (* results of os.urandom(16), as integers *)
  urandom_pos : nat
}.

(** Consuming one entry of a stream. *)
Definition tick_mt (w : World) : World :=
  mkWorld (mt w) (S (mt_pos w)) (np_mt w) (np_pos w)
          (clock w) (clock_pos w) (urandom w) (urandom_pos w).
Definition tick_np (w : World) : World :=
  mkWorld (mt w) (mt_pos w) (np_mt w) (S (np_pos w))
          (clock w) (clock_pos w) (urandom w) (urandom_pos w).
Definition tick_clock (w : World) : World :=
  mkWorld (mt w) (mt_pos w) (np_mt w) (np_pos w)
          (clock w) (S (clock_pos w)) (urandom w) (urandom_pos w).
Definition tick_urandom (w : World) : World :=
  mkWorld (mt w) (mt_pos w) (np_mt w) (np_pos w)
          (clock w) (clock_pos w) (urandom w) (S (urandom_pos w)).

Definition M (A : Type) : Type := World -> result (A * World).

Definition ret {A} (a : A) : M A := fun w => Ok (a, w).

Definition bind {A B} (m : M A) (k : A -> M B) : M B :=
  fun w => match m w with
           | Ok (a, w') => k a w'
           | Raise e => Raise e
           end.

Definition raise {A} (e : exn) : M A := fun _ => Raise e.

Notation "x <- m ;; k" := (bind m (fun x => k))
  (at level 61, m at next level, right associativity).

(** A computation that runs to completion from [w]. *)
Definition returns {A} (m : M A) (w : World) (a : A) (w' : World) : Prop :=
  m w = Ok (a, w').

(** ** Small Python built-ins *)

Definition Qltb (x y : Q) : bool := negb (Qle_bool y x).

(** [seq[i]] for a non-negative index; [IndexError] out of range. *)
Definition getitem {A} (seq : list A) (i : nat) : result A :=
  match nth_error seq i with
  | Some a => Ok a
  | None => Raise (IndexError "list index out of range")
  end.

Definition lift {A} (r : result A) : M A :=
  fun w => match r with Ok a => Ok (a, w) | Raise e => Raise e end.

(** [seq[-1]]. *)
Definition getitem_last {A} (seq : list A) : result A :=
  getitem seq (length seq - 1)%nat.

(** [str(n)] for a non-negative integer. *)
Definition str (n : nat) : string := NilZero.string_of_uint (Nat.to_uint n).

(** [s.upper()] on ASCII text. *)
Definition upper_ascii (c : ascii) : ascii :=
  let n := nat_of_ascii c in
  if ((97 <=? n) && (n <=? 122))%nat then ascii_of_nat (n - 32) else c.

Fixpoint upper (s : string) : string :=
  match s with
  | EmptyString => EmptyString
  | String c s' => String (upper_ascii c) (upper s')
  end.

(** [s[:n]]. *)
Fixpoint prefix_slice (n : nat) (s : string) : string :=
  match n, s with
  | S n', String c s' => String c (prefix_slice n' s')
  | _, _ => EmptyString
  end.

(** [round(x, 2)]: to the nearest hundredth, ties to the even one. *)
Definition round_half_even (x : Q) : Z :=
  let f := Qfloor x in
  let r := (x - inject_Z f)%Q in
  if Qltb r (1 # 2) then f
  else if Qltb (1 # 2) r then f + 1
  else if Z.even f then f else f + 1.

Definition round2 (x : Q) : Q := Qmake (round_half_even (x * 100)) 100.

(** ** The [random] module

    The seeded Mersenne Twister is the tape [mt]; each call below consumes
    one entry and maps it into the range the library documents, so that
    every run of the library is the run of some tape.  An entry stands for
    what the generator yields to one call, whatever the number of 32-bit
    words the library takes for it: two for [random()], and for
    [_randbelow] as many as its rejection loop draws before one falls
    below the bound. *)
Module random.

Definition next_raw : M Z :=
  fun w => Ok (mt w (mt_pos w), tick_mt w).

(** The float in [0.0, 1.0) made of the 53 bits of a variate. *)
Definition uniform (r : Z) : Q :=
  Qmake (r mod 9007199254740992) 9007199254740992.

(** [random.random()]. *)
Definition random : M Q :=
  r <- next_raw ;; ret (uniform r).

(** [Random._randbelow(n)], n > 0: an integer in [0, n), the outcome of the
    library's rejection loop. *)
Definition _randbelow (n : Z) : M Z :=
  r <- next_raw ;; ret (r mod n).

(** [random.randint(a, b)] = [randrange(a, b + 1)]. *)
Definition randint (a b : Z) : M Z :=
  let width := b + 1 - a in
  if 0 <? width then r <- _randbelow width ;; ret (a + r)
  else raise (ValueError "empty range for randrange()").

(** [random.choice(seq)]. *)
Definition choice {A} (seq : list A) : M A :=
  match seq with
  | [] => raise (IndexError "Cannot choose from an empty sequence")
  | _ => i <- _randbelow (Z.of_nat (length seq)) ;; lift (getitem seq (Z.to_nat i))
  end.

(** [itertools.accumulate(weights)]. *)
Fixpoint accumulate_from (acc : Q) (l : list Q) : list Q :=
  match l with
  | [] => []
  | x :: l' => let s := (acc + x)%Q in s :: accumulate_from s l'
  end.

Definition accumulate (l : list Q) : list Q :=
  match l with
  | [] => []
  | x :: l' => x :: accumulate_from x l'
  end.

(** [bisect.bisect_right(a, x, lo, hi)]: the loop, with one unit of fuel
    per element of the searched slice. *)
Fixpoint bisect_loop (fuel : nat) (a : list Q) (x : Q) (lo hi : nat) : nat :=
  match fuel with
  | O => lo
  | S fuel' =>
      if (lo <? hi)%nat then
        let mid := ((lo + hi) / 2)%nat in
        if Qltb x (nth mid a 0%Q) then bisect_loop fuel' a x lo mid
        else bisect_loop fuel' a x (S mid) hi
      else lo
  end.

Definition bisect (a : list Q) (x : Q) (lo hi : nat) : nat :=
  bisect_loop (hi - lo) a x lo hi.

(** The list comprehension of [choices]: [k] draws. *)
Fixpoint choices_draws {A} (population : list A) (cum_weights : list Q)
         (total : Q) (hi : nat) (k : nat) : M (list A) :=
  match k with
  | O => ret []
  | S k' =>
      u <- random ;;
      x <- lift (getitem population (bisect cum_weights (u * total)%Q 0 hi)) ;;
      xs <- choices_draws population cum_weights total hi k' ;;
      ret (x :: xs)
  end.

(** [random.choices(population, weights=weights, k=k)].  The running sums
    of the weights and the product [u * total] are exact here; the library
    computes them in double precision, which can change the option chosen
    only for a variate within rounding distance of the common end of two
    intervals. *)
Definition choices {A} (population : list A) (weights : list Q) (k : nat)
  : M (list A) :=
  let n := length population in
  let cum_weights := accumulate weights in
  if negb (length cum_weights =? n)%nat then
    raise (ValueError "The number of weights does not match the population")
  else
    total <- lift (getitem_last cum_weights) ;;
    if Qle_bool total 0 then
      raise (ValueError "Total of weights must be greater than zero")
    else choices_draws population cum_weights total (n - 1)%nat k.

End random.

(** ** numpy *)
Module np.

Definition next_variate : M Q :=
  fun w => let '(n, d) := np_mt w (np_pos w) in
           Ok (Qmake (Zpos n) d, tick_np w).

(** [np.random.lognormal(np.log(s), 1.0)]: e^(ln s + z) = s * e^z for the
    next normal variate z of the seeded stream. *)
Definition lognormal_of_log (s : Q) : M Q :=
  ez <- next_variate ;; ret (s * ez)%Q.

(** [np.clip(a, a_min, a_max)] = minimum(maximum(a, a_min), a_max). *)
Definition clip (a a_min a_max : Q) : Q := Qmin (Qmax a a_min) a_max.

End np.

(** ** datetime

    A naive [datetime] is its number of microseconds since
    1970-01-01T00:00:00 (a Thursday); a [timedelta] is a number of
    microseconds. *)
Module datetime.

Definition datetime : Type := Z.
Definition timedelta : Type := Z.

Definition now : M datetime :=
  fun w => Ok (clock w (clock_pos w), tick_clock w).

Definition timedelta_days (d : Z) : timedelta := d * 86400000000.
Definition timedelta_seconds (s : Z) : timedelta := s * 1000000.

Definition total_seconds (td : timedelta) : Q := Qmake td 1000000.

(** [int(x)] on a float: truncation towards zero. *)
Definition int_of_float (x : Q) : Z := Z.quot (Qnum x) (Zpos (Qden x)).

Definition hour (t : datetime) : Z := (t / 3600000000) mod 24.

(** [t.weekday()]: Monday is 0, Sunday is 6. *)
Definition weekday (t : datetime) : Z := (t / 86400000000 + 3) mod 7.

Definition day_names : list string :=
  ["Monday"; "Tuesday"; "Wednesday"; "Thursday"; "Friday"; "Saturday"; "Sunday"].

(** [t.strftime('%A')]. *)
Definition strftime_A (t : datetime) : string :=
  nth (Z.to_nat (weekday t)) day_names "".

End datetime.

(** ** uuid *)
Module uuid.

Definition hex_digit (d : Z) : ascii :=
  nth (Z.to_nat d)
      (list_ascii_of_string "0123456789abcdef") "0"%char.

(** The [n] lowest hexadecimal digits of [v], most significant first. *)
Fixpoint hex_digits (n : nat) (v : Z) : string :=
  match n with
  | O => EmptyString
  | S n' => hex_digits n' (v / 16) ++ String (hex_digit (v mod 16)) EmptyString
  end.

Definition next_entropy : M Z :=
  fun w => Ok (urandom w (urandom_pos w), tick_urandom w).

(** [uuid.uuid4()]: 16 bytes of OS entropy with the variant and version
    bits overwritten; the result is the 128-bit integer of the UUID. *)
Definition uuid_of_entropy (e : Z) : Z :=
  let i := e mod 2 ^ 128 in
  let i := Z.ldiff i (Z.shiftl 49152 48) in
  let i := Z.lor i (Z.shiftl 32768 48) in
  let i := Z.ldiff i (Z.shiftl 61440 64) in
  let i := Z.lor i (Z.shiftl 4 76) in
  i.

Definition uuid4 : M Z :=
  e <- next_entropy ;; ret (uuid_of_entropy e).

(** [u.hex]: 32 lower-case hexadecimal digits. *)
Definition hex (u : Z) : string := hex_digits 32 u.

End uuid.

(** ** The transaction record and the table *)

Record Transaction : Type := mkTransaction {
  transaction_id : string;
  timestamp : datetime.datetime;
  transaction_type : string;
  merchant_category : option string;
  amount_inr : Q;
  transaction_status : string;
  sender_age_group : string;
  receiver_age_group : option string;
  sender_state : string;
  sender_bank : string;
  receiver_bank : string;
  device_type : string;
  network_type : string;
  fraud_flag : Z;
  hour_of_day : Z;
  day_of_week : string;
  is_weekend : Z
}.

(** The keys of the dictionary built by [generate_single_transaction], in
    insertion order. *)
Definition COLUMNS : list string :=
  ["transaction_id"; "timestamp"; "transaction_type"; "merchant_category";
   "amount_inr"; "transaction_status"; "sender_age_group"; "receiver_age_group";
   "sender_state"; "sender_bank"; "receiver_bank"; "device_type"; "network_type";
   "fraud_flag"; "hour_of_day"; "day_of_week"; "is_weekend"].

(** ** pandas *)
Module pd.

Record DataFrame : Type := mkDataFrame {
  columns : list string;
  rows : list Transaction
}.

(** [pd.DataFrame(records)] for a list of dictionaries: the columns are
    the keys met in the records, so an empty list gives a frame without
    any column. *)
Definition DataFrame_of_records (records : list Transaction) : DataFrame :=
  match records with
  | [] => mkDataFrame [] []
  | _ => mkDataFrame COLUMNS records
  end.

(** [df[name]]: the column must exist. *)
Definition require_column (df : DataFrame) (name : string) : result unit :=
  if existsb (String.eqb name) (columns df) then Ok tt
  else Raise (KeyError name).

(** [df.groupby(key)[name]]: the column selected from the groups must
    exist; its KeyError carries a message of its own. *)
Definition require_group_column (df : DataFrame) (name : string) : result unit :=
  if existsb (String.eqb name) (columns df) then Ok tt
  else Raise (KeyError ("Column not found: " ++ name)).

Fixpoint insert_by_timestamp (r : Transaction) (l : list Transaction)
  : list Transaction :=
  match l with
  | [] => [r]
  | x :: l' =>
      if timestamp r <? timestamp x then r :: l
      else x :: insert_by_timestamp r l'
  end.

Fixpoint sort_by_timestamp (l : list Transaction) : list Transaction :=
  match l with
  | [] => []
  | x :: l' => insert_by_timestamp x (sort_by_timestamp l')
  end.

(** [df.sort_values('timestamp').reset_index(drop=True)]: rows in
    ascending order of timestamp (the relative order of rows with equal
    timestamps is not fixed by pandas; no statement below relies on it). *)
Definition sort_values_timestamp (df : DataFrame) : result DataFrame :=
  match require_column df "timestamp" with
  | Raise e => Raise e
  | Ok _ => Ok (mkDataFrame (columns df) (sort_by_timestamp (rows df)))
  end.

End pd.

(** A table with the columns of the schema. *)
Definition table (rows : list Transaction) : pd.DataFrame :=
  pd.mkDataFrame COLUMNS rows.

(** [d.get(key, default)] on a dictionary written as its list of items. *)
Fixpoint dict_get {V} (d : list (string * V)) (key : string) (default : V) : V :=
  match d with
  | [] => default
  | (k, v) :: d' => if String.eqb key k then v else dict_get d' key default
  end.

Definition rbind {A B} (r : result A) (k : A -> result B) : result B :=
  match r with
  | Ok a => k a
  | Raise e => Raise e
  end.

Notation "x <-? r ;; k" := (rbind r (fun x => k))
  (at level 61, r at next level, right associativity).

(** [series.isna()] and [series.notna()] on one cell. *)
Definition isna {A} (c : option A) : bool :=
  match c with None => true | Some _ => false end.
Definition notna {A} (c : option A) : bool := negb (isna c).

(** A float statistic of the summary: a number, NaN (the mean of an empty
    series) or Python's [None]. *)
Inductive stat : Type :=
| Value (q : Q)
| NaN
| PyNone.

Definition Qsum (l : list Q) : Q := fold_right Qplus 0%Q l.

(** [series.mean()]. *)
Definition mean (l : list Q) : stat :=
  match l with
  | [] => NaN
  | _ => Value (Qsum l / inject_Z (Z.of_nat (length l)))%Q
  end.

Definition Q_of_bool (b : bool) : Q := if b then 1%Q else 0%Q.

(** [series.value_counts().to_dict()] and the groups of a group-by, as
    dictionaries keyed by the distinct values (the order of the items of a
    dictionary is not modelled). *)
Definition distinct (l : list string) : list string := nodup string_dec l.

Definition value_counts (l : list string) : list (string * nat) :=
  map (fun v => (v, count_occ string_dec l v)) (distinct l).

(** ** The generator *)
Module MockDataGenerator.

Definition TRANSACTION_TYPES : list string :=
  ["P2P"; "P2M"; "Bill Payment"; "Recharge"].
Definition TRANSACTION_TYPE_WEIGHTS : list Q := [0.35; 0.35; 0.20; 0.10]%Q.

Definition MERCHANT_CATEGORIES : list string :=
  ["Food"; "Grocery"; "Fuel"; "Entertainment"; "Utilities"].
Definition MERCHANT_CATEGORY_BY_TYPE : list (string * list string) :=
  [("P2M", ["Food"; "Grocery"; "Fuel"; "Entertainment"]);
   ("Bill Payment", ["Utilities"]);
   ("Recharge", ["Utilities"])].

Definition AGE_GROUPS : list string := ["18-25"; "26-35"; "36-45"; "46-55"; "56+"].
Definition AGE_GROUP_WEIGHTS : list Q := [0.25; 0.35; 0.20; 0.12; 0.08]%Q.

Definition INDIAN_STATES : list string :=
  ["Maharashtra"; "Karnataka"; "Tamil Nadu"; "Delhi"; "Gujarat";
   "Rajasthan"; "Uttar Pradesh"; "West Bengal"; "Telangana"; "Kerala"].
Definition STATE_WEIGHTS : list Q :=
  [0.18; 0.15; 0.12; 0.12; 0.10; 0.08; 0.08; 0.07; 0.06; 0.04]%Q.

Definition BANKS : list string := ["SBI"; "HDFC"; "ICICI"; "Axis"; "Yes Bank"].
Definition BANK_WEIGHTS : list Q := [0.30; 0.25; 0.20; 0.15; 0.10]%Q.

Definition DEVICE_TYPES : list string := ["Android"; "iOS"; "Web"].
Definition DEVICE_WEIGHTS : list Q := [0.60; 0.30; 0.10]%Q.

Definition NETWORK_TYPES : list string := ["4G"; "5G"; "WiFi"].
Definition NETWORK_WEIGHTS : list Q := [0.50; 0.30; 0.20]%Q.

Definition AMOUNT_RANGES : list (string * (Q * Q)) :=
  [("Android", (10.0, 25000.0)%Q);
   ("iOS", (50.0, 45000.0)%Q);
   ("Web", (100.0, 75000.0)%Q)].

Definition BASE_FAILURE_RATE : Q := 0.05.
Definition WEEKEND_BILLPAY_FAILURE_RATE : Q := 0.20.
Definition BASE_FRAUD_RATE : Q := 0.02.
Definition HIGH_VALUE_FRAUD_RATE : Q := 0.10.
Definition HIGH_VALUE_THRESHOLD : Q := 50000.0.

Definition _generate_transaction_id : M string :=
  u <- uuid.uuid4 ;;
  ret ("TXN" ++ upper (prefix_slice 12 (uuid.hex u))).

Definition _generate_timestamp (days_back : Z) : M datetime.datetime :=
  end_date <- datetime.now ;;
  let start_date := end_date - datetime.timedelta_days days_back in
  let time_delta := end_date - start_date in
  random_seconds <-
    random.randint 0 (datetime.int_of_float (datetime.total_seconds time_delta)) ;;
  ret (start_date + datetime.timedelta_seconds random_seconds).

(** The [(min_amt, max_amt)] pair that [_generate_amount] holds when it
    draws: the device's range, adjusted by the transaction type. *)
Definition amount_bounds (device_type transaction_type : string) : Q * Q :=
  let '(min_amt, max_amt) := dict_get AMOUNT_RANGES device_type (10.0, 25000.0)%Q in
  if (transaction_type =? "Recharge")%string then (10.0%Q, Qmin max_amt 2000.0)
  else if (transaction_type =? "Bill Payment")%string then (100.0%Q, Qmin max_amt 50000.0)
  else if (transaction_type =? "P2P")%string then (min_amt, max_amt)
  else if (transaction_type =? "P2M")%string then (20.0%Q, Qmin max_amt 30000.0)
  else (min_amt, max_amt).

Definition _generate_amount (device_type transaction_type : string) : M Q :=
  let '(min_amt, max_amt) := amount_bounds device_type transaction_type in
  amount <- np.lognormal_of_log ((min_amt + max_amt) / 4)%Q ;;
  let amount := np.clip amount min_amt max_amt in
  ret (round2 amount).

(** The [failure_rate] that [_determine_failure_status] compares its draw
    with. *)
Definition failure_rate (transaction_type : string) (is_weekend : bool) : Q :=
  if (transaction_type =? "Bill Payment")%string && is_weekend
  then WEEKEND_BILLPAY_FAILURE_RATE
  else BASE_FAILURE_RATE.

Definition _determine_failure_status (transaction_type : string)
           (is_weekend : bool) : M string :=
  u <- random.random ;;
  ret (if Qltb u (failure_rate transaction_type is_weekend)
       then "FAILED" else "SUCCESS").

Definition _determine_fraud_flag (amount : Q) : M Z :=
  let fraud_rate :=
    if Qltb HIGH_VALUE_THRESHOLD amount then HIGH_VALUE_FRAUD_RATE
    else BASE_FRAUD_RATE in
  u <- random.random ;;
  ret (if Qltb u fraud_rate then 1 else 0).

Definition _weighted_choice {A} (options : list A) (weights : list Q) : M A :=
  l <- random.choices options weights 1 ;;
  lift (getitem l 0).

Definition _get_merchant_category (transaction_type : string)
  : M (option string) :=
  if (transaction_type =? "P2P")%string then ret None
  else
    let categories :=
      dict_get MERCHANT_CATEGORY_BY_TYPE transaction_type MERCHANT_CATEGORIES in
    c <- random.choice categories ;;
    ret (Some c).

Definition _get_receiver_age_group (transaction_type : string)
  : M (option string) :=
  if (transaction_type =? "P2P")%string then
    a <- _weighted_choice AGE_GROUPS AGE_GROUP_WEIGHTS ;;
    ret (Some a)
  else ret None.

Record Derived : Type := mkDerived {
  d_hour_of_day : Z;
  d_day_of_week : string;
  d_is_weekend : Z
}.

Definition _calculate_derived_fields (timestamp : datetime.datetime) : Derived :=
  {| d_hour_of_day := datetime.hour timestamp;
     d_day_of_week := datetime.strftime_A timestamp;
     d_is_weekend := if 5 <=? datetime.weekday timestamp then 1 else 0 |}.

Definition generate_single_transaction : M Transaction :=
  timestamp <- _generate_timestamp 30 ;;
  transaction_type <- _weighted_choice TRANSACTION_TYPES TRANSACTION_TYPE_WEIGHTS ;;
  device_type <- _weighted_choice DEVICE_TYPES DEVICE_WEIGHTS ;;
  let derived := _calculate_derived_fields timestamp in
  let is_weekend := d_is_weekend derived =? 1 in
  amount <- _generate_amount device_type transaction_type ;;
  transaction_id <- _generate_transaction_id ;;
  merchant_category <- _get_merchant_category transaction_type ;;
  transaction_status <- _determine_failure_status transaction_type is_weekend ;;
  sender_age_group <- _weighted_choice AGE_GROUPS AGE_GROUP_WEIGHTS ;;
  receiver_age_group <- _get_receiver_age_group transaction_type ;;
  sender_state <- _weighted_choice INDIAN_STATES STATE_WEIGHTS ;;
  sender_bank <- _weighted_choice BANKS BANK_WEIGHTS ;;
  receiver_bank <- _weighted_choice BANKS BANK_WEIGHTS ;;
  network_type <- _weighted_choice NETWORK_TYPES NETWORK_WEIGHTS ;;
  fraud_flag <- _determine_fraud_flag amount ;;
  ret {| transaction_id := transaction_id;
         timestamp := timestamp;
         transaction_type := transaction_type;
         merchant_category := merchant_category;
         amount_inr := amount;
         transaction_status := transaction_status;
         sender_age_group := sender_age_group;
         receiver_age_group := receiver_age_group;
         sender_state := sender_state;
         sender_bank := sender_bank;
         receiver_bank := receiver_bank;
         device_type := device_type;
         network_type := network_type;
         fraud_flag := fraud_flag;
         hour_of_day := d_hour_of_day derived;
         day_of_week := d_day_of_week derived;
         is_weekend := d_is_weekend derived |}.

(** [[generate_single_transaction() for _ in range(n)]]. *)
Fixpoint generate_records (n : nat) : M (list Transaction) :=
  match n with
  | O => ret []
  | S n' =>
      t <- generate_single_transaction ;;
      ts <- generate_records n' ;;
      ret (t :: ts)
  end.

(** [generate_data(num_rows)].  The conversions after the sort
    ([pd.to_datetime], [astype]) leave the values of the model as they
    are. *)
Definition generate_data (num_rows : Z) : M pd.DataFrame :=
  transactions <- generate_records (Z.to_nat num_rows) ;;
  let df := pd.DataFrame_of_records transactions in
  lift (pd.sort_values_timestamp df).

Record Summary : Type := mkSummary {
  total_records : nat;
  (* [date_range]: the earliest and latest instants, [None] standing for
     NaT; their ISO-8601 text is not modelled *)
  date_range : option datetime.datetime * option datetime.datetime;
  transaction_type_distribution : list (string * nat);
  overall_failure_rate : stat;
  fraud_flag_rate : stat;
  avg_amount_by_device : list (string * stat);
  weekend_billpay_failure_rate : stat;
  high_value_fraud_rate : stat;
  p2p_null_merchant_check : bool;
  non_p2p_null_receiver_age_check : bool
}.

Definition series_min (l : list Z) : option Z :=
  match l with
  | [] => None
  | x :: l' => Some (fold_left Z.min l' x)
  end.

Definition series_max (l : list Z) : option Z :=
  match l with
  | [] => None
  | x :: l' => Some (fold_left Z.max l' x)
  end.

Definition is_failed (r : Transaction) : bool :=
  (transaction_status r =? "FAILED")%string.

Definition get_data_summary (df : pd.DataFrame) : result Summary :=
  let rs := pd.rows df in
  _ <-? pd.require_column df "timestamp" ;;
  _ <-? pd.require_column df "transaction_type" ;;
  _ <-? pd.require_column df "transaction_status" ;;
  _ <-? pd.require_column df "fraud_flag" ;;
  _ <-? pd.require_column df "device_type" ;;
  _ <-? pd.require_group_column df "amount_inr" ;;
  _ <-? pd.require_column df "is_weekend" ;;
  _ <-? pd.require_column df "merchant_category" ;;
  _ <-? pd.require_column df "receiver_age_group" ;;
  let weekend_billpay :=
    filter (fun r => (transaction_type r =? "Bill Payment")%string
                     && (is_weekend r =? 1)) rs in
  let high_value :=
    filter (fun r => Qltb HIGH_VALUE_THRESHOLD (amount_inr r)) rs in
  let p2p_records :=
    filter (fun r => (transaction_type r =? "P2P")%string) rs in
  let non_p2p_records :=
    filter (fun r => negb (transaction_type r =? "P2P")%string) rs in
  Ok {| total_records := length rs;
        date_range := (series_min (map timestamp rs), series_max (map timestamp rs));
        transaction_type_distribution := value_counts (map transaction_type rs);
        overall_failure_rate := mean (map (fun r => Q_of_bool (is_failed r)) rs);
        fraud_flag_rate := mean (map (fun r => inject_Z (fraud_flag r)) rs);
        avg_amount_by_device :=
          map (fun d => (d, mean (map amount_inr
                                      (filter (fun r => (device_type r =? d)%string) rs))))
              (distinct (map device_type rs));
        weekend_billpay_failure_rate :=
          if (0 <? length weekend_billpay)%nat
          then mean (map (fun r => Q_of_bool (is_failed r)) weekend_billpay)
          else PyNone;
        high_value_fraud_rate :=
          if (0 <? length high_value)%nat
          then mean (map (fun r => inject_Z (fraud_flag r)) high_value)
          else PyNone;
        p2p_null_merchant_check :=
          forallb (fun r => isna (merchant_category r)) p2p_records;
        non_p2p_null_receiver_age_check :=
          forallb (fun r => isna (receiver_age_group r)) non_p2p_records |}.

Definition non_p2p_types : list string := ["P2M"; "Bill Payment"; "Recharge"].

Definition isin (v : string) (values : list string) : bool :=
  existsb (String.eqb v) values.

(** The four selections of [validate_data]. *)
Definition p2p_with_merchant (rs : list Transaction) : list Transaction :=
  filter (fun r => (transaction_type r =? "P2P")%string
                   && notna (merchant_category r)) rs.

Definition p2p_without_receiver (rs : list Transaction) : list Transaction :=
  filter (fun r => (transaction_type r =? "P2P")%string
                   && isna (receiver_age_group r)) rs.

Definition non_p2p_with_receiver (rs : list Transaction) : list Transaction :=
  filter (fun r => isin (transaction_type r) non_p2p_types
                   && notna (receiver_age_group r)) rs.

Definition non_p2p_without_merchant (rs : list Transaction) : list Transaction :=
  filter (fun r => isin (transaction_type r) non_p2p_types
                   && isna (merchant_category r)) rs.

(** The four messages, each a function of the number of offending rows. *)
Definition msg_p2p_with_merchant (n : nat) : string :=
  "Rule A violated: " ++ str n ++ " P2P transactions "
    ++ "have non-null merchant_category".

Definition msg_p2p_without_receiver (n : nat) : string :=
  "Rule A violated: " ++ str n ++ " P2P transactions "
    ++ "have null receiver_age_group".

Definition msg_non_p2p_with_receiver (n : nat) : string :=
  "Rule B violated: " ++ str n ++ " non-P2P transactions "
    ++ "have non-null receiver_age_group".

Definition msg_non_p2p_without_merchant (n : nat) : string :=
  "Rule B violated: " ++ str n ++ " non-P2P transactions "
    ++ "have null merchant_category".

(** [if len(selection) > 0: errors.append(message)]. *)
Definition append_if_any (errors : list string) (selection : list Transaction)
           (message : nat -> string) : list string :=
  if (0 <? length selection)%nat
  then errors ++ [message (length selection)]
  else errors.

Definition validate_data (df : pd.DataFrame) : result (list string) :=
  let rs := pd.rows df in
  let errors := [] in
  _ <-? pd.require_column df "transaction_type" ;;
  _ <-? pd.require_column df "merchant_category" ;;
  let errors := append_if_any errors (p2p_with_merchant rs) msg_p2p_with_merchant in
  _ <-? pd.require_column df "receiver_age_group" ;;
  let errors :=
    append_if_any errors (p2p_without_receiver rs) msg_p2p_without_receiver in
  let errors :=
    append_if_any errors (non_p2p_with_receiver rs) msg_non_p2p_with_receiver in
  let errors :=
    append_if_any errors (non_p2p_without_merchant rs)
                  msg_non_p2p_without_merchant in
  Ok errors.

End MockDataGenerator.

Import MockDataGenerator.

(** ** What a generated record is, in terms of the world it was drawn from *)

(** Two worlds that read the same four streams (at any positions). *)
Definition same_tapes (w w' : World) : Prop :=
  mt w' = mt w /\ np_mt w' = np_mt w /\ clock w' = clock w /\ urandom w' = urandom w.

(** The record [t] that [generate_single_transaction] builds from [w]. *)
Record generated (w : World) (t : Transaction) : Prop := {
  gen_timestamp :
    timestamp t =
      clock w (clock_pos w) - datetime.timedelta_days 30
      + datetime.timedelta_seconds (mt w (mt_pos w) mod 2592001);
  gen_type : In (transaction_type t) TRANSACTION_TYPES;
  gen_device : In (device_type t) DEVICE_TYPES;
  gen_amount :
    (fst (amount_bounds (device_type t) (transaction_type t)) <= amount_inr t
     /\ amount_inr t <= snd (amount_bounds (device_type t) (transaction_type t)))%Q;
  gen_id :
    transaction_id t =
      "TXN" ++ upper (prefix_slice 12
                        (uuid.hex (uuid.uuid_of_entropy (urandom w (urandom_pos w)))));
  gen_merchant :
    if (transaction_type t =? "P2P")%string then merchant_category t = None
    else exists c, merchant_category t = Some c
                   /\ In c (dict_get MERCHANT_CATEGORY_BY_TYPE (transaction_type t)
                                     MERCHANT_CATEGORIES);
  gen_status :
    transaction_status t =
      let offset := if (transaction_type t =? "P2P")%string then 3%nat else 4%nat in
      let u := random.uniform (mt w (offset + mt_pos w)%nat) in
      if Qltb u (failure_rate (transaction_type t) (is_weekend t =? 1))
      then "FAILED" else "SUCCESS";
  gen_receiver :
    if (transaction_type t =? "P2P")%string
    then exists a, receiver_age_group t = Some a /\ In a AGE_GROUPS
    else receiver_age_group t = None;
  gen_hour : hour_of_day t = d_hour_of_day (_calculate_derived_fields (timestamp t));
  gen_day : day_of_week t = d_day_of_week (_calculate_derived_fields (timestamp t));
  gen_weekend : is_weekend t = d_is_weekend (_calculate_derived_fields (timestamp t))
}.

(** A property of every row of every table that [generate_data] returns;
    the call returns a table exactly when [num_rows] is positive. *)
Definition every_generated_row (P : Transaction -> Prop) : Prop :=
  forall (num_rows : Z) (w : World),
    match generate_data num_rows w with
    | Ok (df, _) => 0 < num_rows /\ Forall P (pd.rows df)
    | Raise _ => num_rows <= 0
    end.

(** ** The draws behind a record

    A row of a generated table is one of the records drawn; what a field
    of it was decided by is stated on the call that decided it. *)

(** [t] is one of the first [n] records drawn from [w]: the record that
    [generate_single_transaction] builds in [wi], the world left by the
    records drawn before it, and after which the world is [w']. *)
Definition drawn_in (w : World) (n : nat) (wi : World) (t : Transaction)
           (w' : World) : Prop :=
  exists i earlier,
    (i < n)%nat
    /\ generate_records i w = Ok (earlier, wi)
    /\ generate_single_transaction wi = Ok (t, w').

(** The calls of [generate_single_transaction] that come before the one
    that decides the status, with what they return. *)
Definition drawn_before_status
  : M (datetime.datetime * string * string * Q * string * option string) :=
  timestamp <- _generate_timestamp 30 ;;
  transaction_type <- _weighted_choice TRANSACTION_TYPES TRANSACTION_TYPE_WEIGHTS ;;
  device_type <- _weighted_choice DEVICE_TYPES DEVICE_WEIGHTS ;;
  amount <- _generate_amount device_type transaction_type ;;
  transaction_id <- _generate_transaction_id ;;
  merchant_category <- _get_merchant_category transaction_type ;;
  ret (timestamp, transaction_type, device_type, amount, transaction_id,
       merchant_category).

(** ** The statements of the specification, in its own words *)

(** Nullability duality (testable property 1). *)
Definition nullability_duality (t : Transaction) : Prop :=
  (transaction_type t = "P2P" <-> merchant_category t = None)
  /\ (transaction_type t = "P2P" <-> receiver_age_group t <> None).

(** The bounds the specification gives for an iOS row (testable property 8):
    a floor of 50, and the ceiling of the transaction type. *)
Definition spec_ios_ceiling (transaction_type : string) : Q :=
  if (transaction_type =? "Recharge")%string then 2000
  else if (transaction_type =? "P2M")%string then 30000
  else 45000.

Definition spec_ios_bounds (t : Transaction) : Prop :=
  device_type t = "iOS" ->
  (50 <= amount_inr t /\ amount_inr t <= spec_ios_ceiling (transaction_type t))%Q.

(** The floor that the code uses for an iOS row. *)
Definition ios_floor (transaction_type : string) : Q :=
  if (transaction_type =? "Recharge")%string then 10
  else if (transaction_type =? "Bill Payment")%string then 100
  else if (transaction_type =? "P2M")%string then 20
  else 50.

Definition ios_bounds (t : Transaction) : Prop :=
  device_type t = "iOS" ->
  (ios_floor (transaction_type t) <= amount_inr t
   /\ amount_inr t <= spec_ios_ceiling (transaction_type t))%Q.

(** The range of the specification (section 4.1): the bounds of the device,
    narrowed by the transaction type. *)
Definition spec_device_bounds (device_type : string) : Q * Q :=
  if (device_type =? "Android")%string then (10, 25000)%Q
  else if (device_type =? "iOS")%string then (50, 45000)%Q
  else (100, 75000)%Q.

Definition spec_range (device_type transaction_type : string) : Q * Q :=
  let '(lo, hi) := spec_device_bounds device_type in
  if (transaction_type =? "Recharge")%string then (lo, Qmin hi 2000)
  else if (transaction_type =? "Bill Payment")%string then (Qmax lo 100, Qmin hi 50000)
  else if (transaction_type =? "P2M")%string then (Qmax lo 20, Qmin hi 30000)
  else (lo, hi).

Definition within (range : Q * Q) (x : Q) : Prop :=
  (fst range <= x /\ x <= snd range)%Q.

Definition spec_range_containment (t : Transaction) : Prop :=
  within (spec_range (device_type t) (transaction_type t)) (amount_inr t).

(** The range the code clips to: the type sets the floor (10 for Recharge,
    100 for Bill Payment, 20 for P2M) in place of the device's, and caps
    the device's ceiling; P2P keeps the bounds of the device. *)
Definition clipped_range (device_type transaction_type : string) : Q * Q :=
  let '(lo, hi) := spec_device_bounds device_type in
  if (transaction_type =? "Recharge")%string then (10, Qmin hi 2000)%Q
  else if (transaction_type =? "Bill Payment")%string then (100, Qmin hi 50000)%Q
  else if (transaction_type =? "P2M")%string then (20, Qmin hi 30000)%Q
  else (lo, hi).

Definition clipped_range_containment (t : Transaction) : Prop :=
  within (clipped_range (device_type t) (transaction_type t)) (amount_inr t).

(** Recomputing the derived fields from a timestamp (testable property 3). *)
Definition on_weekend (ts : datetime.datetime) : bool :=
  (datetime.strftime_A ts =? "Saturday")%string
  || (datetime.strftime_A ts =? "Sunday")%string.

Definition derived_fields_consistent (t : Transaction) : Prop :=
  hour_of_day t = datetime.hour (timestamp t)
  /\ day_of_week t = datetime.strftime_A (timestamp t)
  /\ is_weekend t = (if on_weekend (timestamp t) then 1 else 0).

(** The failure probability of the specification (section 4.1). *)
Definition spec_failure_probability (t : Transaction) : Q :=
  if (transaction_type t =? "Bill Payment")%string && on_weekend (timestamp t)
  then 20 # 100 else 5 # 100.

(** The outcome of a Bernoulli draw of probability [p] made from the
    uniform variate [u]. *)
Definition bernoulli_status (u p : Q) (status : string) : Prop :=
  (status = "FAILED" /\ (u < p)%Q) \/ (status = "SUCCESS" /\ (p <= u)%Q).

(** The status of a row [t] of the table of [n] records drawn from [w] is
    the outcome of one draw: [t] is the record drawn in some world [wi];
    the calls of that record that precede the status lead from [wi] to the
    world [ws]; [u] is the variate that [random.random()] returns there;
    and the status is FAILED exactly when [u] is below the failure
    probability of the specification. *)
Definition status_sampled (w : World) (n : nat) (t : Transaction) : Prop :=
  exists wi w' ws u,
    drawn_in w n wi t w'
    /\ drawn_before_status wi
       = Ok ((timestamp t, transaction_type t, device_type t, amount_inr t,
              transaction_id t, merchant_category t), ws)
    /\ random.random ws = Ok (u, tick_mt ws)
    /\ bernoulli_status u (spec_failure_probability t) (transaction_status t).

(** The four nullability rules of the validator (section 4.3), with
    "non-P2P" read as any type other than P2P. *)
Definition rule_p2p_merchant_null (rs : list Transaction) : Prop :=
  forall r, In r rs -> transaction_type r = "P2P" -> merchant_category r = None.
Definition rule_p2p_receiver_present (rs : list Transaction) : Prop :=
  forall r, In r rs -> transaction_type r = "P2P" -> receiver_age_group r <> None.
Definition rule_non_p2p_receiver_null (rs : list Transaction) : Prop :=
  forall r, In r rs -> transaction_type r <> "P2P" -> receiver_age_group r = None.
Definition rule_non_p2p_merchant_present (rs : list Transaction) : Prop :=
  forall r, In r rs -> transaction_type r <> "P2P" -> merchant_category r <> None.

Definition satisfies_nullability_rules (rs : list Transaction) : Prop :=
  rule_p2p_merchant_null rs /\ rule_p2p_receiver_present rs
  /\ rule_non_p2p_receiver_null rs /\ rule_non_p2p_merchant_present rs.

(** A table of the schema: the transaction type of every row is one of
    the four of the enumeration. *)
Definition schema_types (rs : list Transaction) : Prop :=
  Forall (fun r => In (transaction_type r) TRANSACTION_TYPES) rs.

(** The two converse rules as the validator checks them: on the rows whose
    type is one of P2M, Bill Payment and Recharge. *)
Definition listed_non_p2p (r : Transaction) : Prop :=
  transaction_type r = "P2M" \/ transaction_type r = "Bill Payment"
  \/ transaction_type r = "Recharge".

Definition rule_listed_receiver_null (rs : list Transaction) : Prop :=
  forall r, In r rs -> listed_non_p2p r -> receiver_age_group r = None.
Definition rule_listed_merchant_present (rs : list Transaction) : Prop :=
  forall r, In r rs -> listed_non_p2p r -> merchant_category r <> None.

(** What one rule contributes to the result, given its number of
    offending rows. *)
Definition report (message : nat -> string) (n : nat) : list string :=
  match n with
  | O => []
  | S _ => [message n]
  end.

(** The merchant categories of the implicit restriction. *)
Definition merchant_restriction (t : Transaction) : Prop :=
  (transaction_type t = "Bill Payment" \/ transaction_type t = "Recharge" ->
   merchant_category t = Some "Utilities")
  /\ (transaction_type t = "P2M" ->
      exists c, merchant_category t = Some c
                /\ In c ["Food"; "Grocery"; "Fuel"; "Entertainment"]
                /\ c <> "Utilities").

(** The boundary N = 0 (testable property 7). *)
Definition rate_undefined (s : stat) : Prop := s = NaN \/ s = PyNone.

Definition all_rates_undefined (s : Summary) : Prop :=
  rate_undefined (overall_failure_rate s) /\ rate_undefined (fraud_flag_rate s)
  /\ rate_undefined (weekend_billpay_failure_rate s)
  /\ rate_undefined (high_value_fraud_rate s).

Definition empty_table_with_undefined_rates (num_rows : Z) (w : World) : Prop :=
  exists df w' s,
    generate_data num_rows w = Ok (df, w') /\ pd.rows df = []
    /\ get_data_summary df = Ok s /\ all_rates_undefined s.

(** ** Two runs with the same seed *)

(** Two worlds that agree on what the seed fixes: the two seeded streams
    and the positions reached in them. *)
Definition seed_eq (w1 w2 : World) : Prop :=
  mt w1 = mt w2 /\ mt_pos w1 = mt_pos w2
  /\ np_mt w1 = np_mt w2 /\ np_pos w1 = np_pos w2.

(** Two computations that, from worlds agreeing on the seed, both return,
    with results related by [R] and in worlds that still agree on the seed,
    or both raise the same exception. *)
Definition related {A B} (R : A -> B -> Prop) (m1 : M A) (m2 : M B) : Prop :=
  forall w1 w2, seed_eq w1 w2 ->
    match m1 w1, m2 w2 with
    | Ok (a1, w1'), Ok (a2, w2') => R a1 a2 /\ seed_eq w1' w2'
    | Raise e1, Raise e2 => e1 = e2
    | _, _ => False
    end.

Definition unrelated {A B} : A -> B -> Prop := fun _ _ => True.

(** The fields of a record that do not depend on the clock or on the
    entropy of the operating system. *)
Definition seed_fields_eq (t1 t2 : Transaction) : Prop :=
  transaction_type t1 = transaction_type t2
  /\ merchant_category t1 = merchant_category t2
  /\ amount_inr t1 = amount_inr t2
  /\ sender_age_group t1 = sender_age_group t2
  /\ receiver_age_group t1 = receiver_age_group t2
  /\ sender_state t1 = sender_state t2
  /\ sender_bank t1 = sender_bank t2
  /\ receiver_bank t1 = receiver_bank t2
  /\ device_type t1 = device_type t2
  /\ network_type t1 = network_type t2
  /\ fraud_flag t1 = fraud_flag t2.

(** ** Concrete worlds *)

(** A stream of the [random] module: the first record is a Recharge. *)
Definition recharge_stream (device_variate : Z) (i : nat) : Z :=
  match i with
  | 0%nat => 777600
  | 1%nat => 8556839291003943
  | 2%nat => device_variate
  | 4%nat => 2702159776422298
  | _ => 4503599627370496
  end.

(** The device variate 6305039478318694 (0.7) selects iOS; the log-normal
    variate is 0.06. *)
Definition ios_recharge_world : World :=
  mkWorld (recharge_stream 6305039478318694) 0
          (fun _ => (3, 50)%positive) 0
          (fun _ => 1762000000000000) 0
          (fun _ => 190188081314515644627836686569786975555) 0.

(** The device variate 8556839291003943 (0.95) selects Web; the log-normal
    variate is 0.1. *)
Definition web_recharge_world : World :=
  mkWorld (recharge_stream 8556839291003943) 0
          (fun _ => (1, 10)%positive) 0
          (fun _ => 1762000000000000) 0
          (fun _ => 190188081314515644627836686569786975555) 0.

(** A second run with the same seed: the same two seeded streams, with the
    clock read seven seconds later and other bytes from the operating
    system. *)
Definition rerun_world : World :=
  mkWorld (recharge_stream 6305039478318694) 0
          (fun _ => (3, 50)%positive) 0
          (fun _ => 1762000007000000) 0
          (fun _ => 16955237001963240173058271559858726497) 0.

(** The world left by the generation of one record: eleven calls to
    [random], one to [np.random], one reading of the clock and one read of
    the entropy source. *)
Definition after_one_record (w : World) : World :=
  mkWorld (mt w) (11 + mt_pos w) (np_mt w) (1 + np_pos w)
          (clock w) (1 + clock_pos w) (urandom w) (1 + urandom_pos w).

Definition recharge_row (id : string) (ts : Z) (device : string) (amount : Q)
  : Transaction :=
  {| transaction_id := id;
     timestamp := ts;
     transaction_type := "Recharge";
     merchant_category := Some "Utilities";
     amount_inr := amount;
     transaction_status := "SUCCESS";
     sender_age_group := "26-35";
     receiver_age_group := None;
     sender_state := "Delhi";
     sender_bank := "HDFC";
     receiver_bank := "HDFC";
     device_type := device;
     network_type := "5G";
     fraud_flag := 0;
     hour_of_day := 12;
     day_of_week := "Saturday";
     is_weekend := 1 |}.

Definition ios_recharge_row : Transaction :=
  recharge_row "TXN8F14E45FCEEA" 1760185600000000 "iOS" 30.15.

Definition web_recharge_row : Transaction :=
  recharge_row "TXN8F14E45FCEEA" 1760185600000000 "Web" 50.25.

Definition rerun_row : Transaction :=
  recharge_row "TXN0CC175B9C0F1" 1760185607000000 "iOS" 30.15.

(** A table with one row of a type outside the four of the generator. *)
Definition refund_row : Transaction :=
  {| transaction_id := "TXN000000000001";
     timestamp := 1760185600000000;
     transaction_type := "Refund";
     merchant_category := None;
     amount_inr := 250;
     transaction_status := "SUCCESS";
     sender_age_group := "26-35";
     receiver_age_group := Some "18-25";
     sender_state := "Delhi";
     sender_bank := "HDFC";
     receiver_bank := "SBI";
     device_type := "Android";
     network_type := "4G";
     fraud_flag := 0;
     hour_of_day := 12;
     day_of_week := "Saturday";
     is_weekend := 1 |}.

(** A P2P row that carries a merchant category and no receiver age group. *)
Definition p2p_bad_row : Transaction :=
  {| transaction_id := "TXN000000000002";
     timestamp := 1760185600000000;
     transaction_type := "P2P";
     merchant_category := Some "Food";
     amount_inr := 250;
     transaction_status := "SUCCESS";
     sender_age_group := "26-35";
     receiver_age_group := None;
     sender_state := "Delhi";
     sender_bank := "HDFC";
     receiver_bank := "SBI";
     device_type := "Android";
     network_type := "4G";
     fraud_flag := 0;
     hour_of_day := 12;
     day_of_week := "Saturday";
     is_weekend := 1 |}.

(** A row with another status, and with another fraud flag. *)
Definition with_status (status : string) (t : Transaction) : Transaction :=
  mkTransaction (transaction_id t) (timestamp t) (transaction_type t)
                (merchant_category t) (amount_inr t) status (sender_age_group t)
                (receiver_age_group t) (sender_state t) (sender_bank t)
                (receiver_bank t) (device_type t) (network_type t)
                (fraud_flag t) (hour_of_day t) (day_of_week t) (is_weekend t).

Definition with_fraud_flag (flag : Z) (t : Transaction) : Transaction :=
  mkTransaction (transaction_id t) (timestamp t) (transaction_type t)
                (merchant_category t) (amount_inr t) (transaction_status t)
                (sender_age_group t) (receiver_age_group t) (sender_state t)
                (sender_bank t) (receiver_bank t) (device_type t)
                (network_type t) flag (hour_of_day t) (day_of_week t)
                (is_weekend t).

(** ** Further statements about generated tables *)

(** A property of every row of every generated table that may mention the
    world the table was generated from. *)
Definition every_generated_row_of (P : World -> Transaction -> Prop) : Prop :=
  forall (num_rows : Z) (w : World),
    match generate_data num_rows w with
    | Ok (df, _) => 0 < num_rows /\ Forall (P w) (pd.rows df)
    | Raise _ => num_rows <= 0
    end.

(** What [generate_single_transaction] builds from [w], for the fields that
    [generated] leaves out. *)
Record generated_more (w : World) (t : Transaction) : Prop := {
  gm_sender_age : In (sender_age_group t) AGE_GROUPS;
  gm_state : In (sender_state t) INDIAN_STATES;
  gm_sender_bank : In (sender_bank t) BANKS;
  gm_receiver_bank : In (receiver_bank t) BANKS;
  gm_network : In (network_type t) NETWORK_TYPES;
  gm_amount_grid : exists k : Z, amount_inr t = Qmake k 100;
  gm_fraud :
    fraud_flag t =
      let u := random.uniform (mt w (10 + mt_pos w)%nat) in
      let fraud_rate :=
        if Qltb HIGH_VALUE_THRESHOLD (amount_inr t) then HIGH_VALUE_FRAUD_RATE
        else BASE_FRAUD_RATE in
      if Qltb u fraud_rate then 1 else 0
}.

Definition fully_generated (w : World) (t : Transaction) : Prop :=
  exists ws, same_tapes w ws /\ generated ws t /\ generated_more ws t.

(** The world left by the generation of [n] records. *)
Definition after_records (n : nat) (w : World) : World :=
  mkWorld (mt w) (11 * n + mt_pos w) (np_mt w) (n + np_pos w)
          (clock w) (n + clock_pos w) (urandom w) (n + urandom_pos w).

(** Rows in ascending order of timestamp. *)
Fixpoint ascending (l : list Transaction) : Prop :=
  match l with
  | [] => True
  | x :: l' => Forall (fun y => timestamp x <= timestamp y) l' /\ ascending l'
  end.

(** The values that each field of a record can take. *)
Definition field_domains (t : Transaction) : Prop :=
  In (transaction_type t) ["P2P"; "P2M"; "Bill Payment"; "Recharge"]
  /\ In (device_type t) ["Android"; "iOS"; "Web"]
  /\ In (network_type t) ["4G"; "5G"; "WiFi"]
  /\ In (sender_age_group t) ["18-25"; "26-35"; "36-45"; "46-55"; "56+"]
  /\ In (sender_bank t) ["SBI"; "HDFC"; "ICICI"; "Axis"; "Yes Bank"]
  /\ In (receiver_bank t) ["SBI"; "HDFC"; "ICICI"; "Axis"; "Yes Bank"]
  /\ In (sender_state t)
        ["Maharashtra"; "Karnataka"; "Tamil Nadu"; "Delhi"; "Gujarat";
         "Rajasthan"; "Uttar Pradesh"; "West Bengal"; "Telangana"; "Kerala"]
  /\ In (transaction_status t) ["SUCCESS"; "FAILED"]
  /\ In (fraud_flag t) [0; 1]
  /\ In (is_weekend t) [0; 1]
  /\ 0 <= hour_of_day t <= 23
  /\ In (day_of_week t)
        ["Monday"; "Tuesday"; "Wednesday"; "Thursday"; "Friday"; "Saturday";
         "Sunday"]
  /\ (is_weekend t = 1 <-> day_of_week t = "Saturday" \/ day_of_week t = "Sunday").

(** The window of a timestamp: a whole number of seconds, at most thirty
    days, before a reading of the clock. *)
Definition within_thirty_days_of (w : World) (t : Transaction) : Prop :=
  exists k s,
    0 <= s <= 2592000
    /\ timestamp t = clock w k - 2592000000000 + s * 1000000
    /\ clock w k - 2592000000000 <= timestamp t <= clock w k.

(** A flag drawn from the uniform variate [u] with probability [p]. *)
Definition bernoulli_flag (u p : Q) (flag : Z) : Prop :=
  (flag = 1 /\ (u < p)%Q) \/ (flag = 0 /\ (p <= u)%Q).

Definition fraud_probability (t : Transaction) : Q :=
  if Qltb 50000 (amount_inr t) then 10 # 100 else 2 # 100.

(** The fraud flag of a row [t] of the table of [n] records drawn from [w]
    is the outcome of one draw: [t] is the record drawn in some world [wi],
    which it leaves as [w']; [u] is the variate returned by the last call
    of that record, the [random.random()] that leads to [w']; and the flag
    is 1 exactly when [u] is below the fraud probability. *)
Definition fraud_flag_sampled (w : World) (n : nat) (t : Transaction) : Prop :=
  exists wi w' ws u,
    drawn_in w n wi t w'
    /\ random.random ws = Ok (u, w')
    /\ bernoulli_flag u (fraud_probability t) (fraud_flag t).

(** Amounts: a whole number of hundredths between 10 and 75,000, above
    50,000 only for a P2P row on the Web. *)
Definition amount_shape (t : Transaction) : Prop :=
  (10 <= amount_inr t /\ amount_inr t <= 75000)%Q
  /\ (exists k : Z, amount_inr t == k # 100)%Q
  /\ ((50000 < amount_inr t)%Q ->
      device_type t = "Web" /\ transaction_type t = "P2P").

(** The selections of [get_data_summary], as statements about the rows. *)
Definition weekend_bill_payment (r : Transaction) : Prop :=
  transaction_type r = "Bill Payment" /\ is_weekend r = 1.

Definition high_value (r : Transaction) : Prop := (50000 < amount_inr r)%Q.

Definition unit_interval (q : Q) : Prop := (0 <= q /\ q <= 1)%Q.

(** A statistic that is a number of the unit interval. *)
Definition is_rate (s : stat) : Prop := exists q, s = Value q /\ unit_interval q.

(** The first of [names] that is not a column of the frame, if any. *)
Definition first_missing (df : pd.DataFrame) (names : list string)
  : option string :=
  find (fun c => negb (existsb (String.eqb c) (pd.columns df))) names.

(** The KeyError that [get_data_summary] raises for a missing column:
    the name of the column, except for amount_inr, which is selected from
    the groups of a group-by. *)
Definition summary_key_error (column : string) : exn :=
  if (column =? "amount_inr")%string
  then KeyError "Column not found: amount_inr"
  else KeyError column.

(** The columns read by [validate_data] and by [get_data_summary], in the
    order of their first use. *)
Definition validate_columns : list string :=
  ["transaction_type"; "merchant_category"; "receiver_age_group"].

Definition summary_columns : list string :=
  ["timestamp"; "transaction_type"; "transaction_status"; "fraud_flag";
   "device_type"; "amount_inr"; "is_weekend"; "merchant_category";
   "receiver_age_group"].

(** ** Weighted choice *)

Fixpoint nondecreasing (a : list Q) : bool :=
  match a with
  | x :: ((y :: _) as rest) => Qle_bool x y && nondecreasing rest
  | _ => true
  end.

Definition all_positive (weights : list Q) : bool :=
  forallb (fun x => Qltb 0 x) weights.

(** The cumulative weight just before position [i]. *)
Definition weight_before (cum_weights : list Q) (i : nat) : Q :=
  match i with
  | O => 0%Q
  | S j => nth j cum_weights 0%Q
  end.

(** The choice made from the uniform variate [u] among [options] with
    [weights]: option [i] when [u] scaled by the total weight falls between
    the cumulative weight before [i] and the cumulative weight at [i]. *)
Definition chosen_by_weight {A} (options : list A) (weights : list Q) (u : Q)
           (x : A) : Prop :=
  let cum_weights := random.accumulate weights in
  let total := nth (length options - 1) cum_weights 0%Q in
  exists i,
    (i < length options)%nat /\ nth_error options i = Some x
    /\ (weight_before cum_weights i <= u * total)%Q
    /\ (u * total < nth i cum_weights 0)%Q.



(** The intervals of the transaction types and of the device types. *)
Definition transaction_type_of_variate (u : Q) (ty : string) : Prop :=
  ((u < 35 # 100)%Q /\ ty = "P2P")
  \/ ((35 # 100 <= u)%Q /\ (u < 70 # 100)%Q /\ ty = "P2M")
  \/ ((70 # 100 <= u)%Q /\ (u < 90 # 100)%Q /\ ty = "Bill Payment")
  \/ ((90 # 100 <= u)%Q /\ ty = "Recharge").

Definition device_type_of_variate (u : Q) (dev : string) : Prop :=
  ((u < 60 # 100)%Q /\ dev = "Android")
  \/ ((60 # 100 <= u)%Q /\ (u < 90 # 100)%Q /\ dev = "iOS")
  \/ ((90 # 100 <= u)%Q /\ dev = "Web").

(** ** Transaction identifiers *)

Definition is_upper_hex (c : ascii) : bool :=
  existsb (Ascii.eqb c) (list_ascii_of_string "0123456789ABCDEF").

Fixpoint string_forall (p : ascii -> bool) (s : string) : bool :=
  match s with
  | EmptyString => true
  | String c s' => p c && string_forall p s'
  end.

(** "TXN" followed by twelve upper-case hexadecimal digits. *)
Definition well_formed_id (t : Transaction) : Prop :=
  exists body,
    transaction_id t = "TXN" ++ body
    /\ String.length body = 12%nat
    /\ string_forall is_upper_hex body = true
    /\ String.length (transaction_id t) = 15%nat.

(** The identifier made of the 48 highest bits of a 16-byte read. *)
Definition id_of_high_bits (e : Z) : string :=
  "TXN" ++ upper (uuid.hex_digits 12 ((e mod 2 ^ 128) / 2 ^ 80)).


(** ** The command: generate, validate, report, save

    [generate_and_save_dataset] prints a report and writes a file.  A
    [Process] adds to the world what the command leaves behind: the lines
    printed and the tables written by [to_csv], each with its path (the
    text of the file is not modelled).  An exception leaves the process as
    it was when it was raised. *)

Record Process : Type := mkProcess {
  world : World;
  stdout : list string;
  csv_files : list (string * pd.DataFrame)
}.

Inductive error : Type :=
| Exn (e : exn)
| TypeError (msg : string).

Inductive outcome (A : Type) : Type :=
| Returned (a : A)
| Raised (e : error).
Arguments Returned {A} a.
Arguments Raised {A} e.

Definition IO (A : Type) : Type := Process -> outcome A * Process.

Definition io_ret {A} (a : A) : IO A := fun p => (Returned a, p).

Definition io_bind {A B} (m : IO A) (k : A -> IO B) : IO B :=
  fun p => match m p with
           | (Returned a, p') => k a p'
           | (Raised e, p') => (Raised e, p')
           end.

Notation "x <~ m ;; k" := (io_bind m (fun x => k))
  (at level 61, m at next level, right associativity).

(** A computation of the generator, run on the world of the process. *)
Definition run {A} (m : M A) : IO A :=
  fun p => match m (world p) with
           | Ok (a, w') => (Returned a, mkProcess w' (stdout p) (csv_files p))
           | Raise e => (Raised (Exn e), p)
           end.

Definition of_result {A} (r : result A) : IO A :=
  fun p => match r with
           | Ok a => (Returned a, p)
           | Raise e => (Raised (Exn e), p)
           end.

(** [print(line)]. *)
Definition print (line : string) : IO unit :=
  fun p => (Returned tt, mkProcess (world p) (stdout p ++ [line]) (csv_files p)).

Fixpoint print_each (lines : list string) : IO unit :=
  match lines with
  | [] => io_ret tt
  | l :: rest => _ <~ print l ;; print_each rest
  end.

(** [df.to_csv(path, index=False)], on a file system that accepts the
    write. *)
Definition to_csv (df : pd.DataFrame) (path : string) : IO unit :=
  fun p => (Returned tt,
            mkProcess (world p) (stdout p) (csv_files p ++ [(path, df)])).

(** The newline that starts three of the printed texts. *)
Definition newline : string := String (ascii_of_nat 10) EmptyString.

(** [n] written with at least [width] digits. *)
Definition zero_padded (width : nat) (n : Z) : string :=
  let digits := str (Z.to_nat n) in
  string_of_list_ascii (repeat "0"%char (width - String.length digits)) ++ digits.

(** The digits of an integer part with a comma before every group of three,
    on the reversed list of digits. *)
Fixpoint commas_rev (digits_rev : list ascii) (k : nat) : list ascii :=
  match digits_rev with
  | [] => []
  | c :: rest =>
      match k with
      | 3%nat => ","%char :: c :: commas_rev rest 1
      | _ => c :: commas_rev rest (S k)
      end
  end.

Definition with_commas (digits : string) : string :=
  string_of_list_ascii (rev (commas_rev (rev (list_ascii_of_string digits)) 0)).

(** [format(x, '.<digits>f')] and [format(x, ',.<digits>f')] on a number. *)
Definition format_fixed (digits : nat) (commas : bool) (x : Q) : string :=
  let unit := 10 ^ Z.of_nat digits in
  let scaled := Z.abs (round_half_even (x * inject_Z unit)) in
  let whole := str (Z.to_nat (scaled / unit)) in
  (if Qltb x 0 then "-" else "")
    ++ (if commas then with_commas whole else whole)
    ++ (match digits with
        | O => ""
        | _ => "." ++ zero_padded digits (scaled mod unit)
        end).

(** [f"{x:.1%}"]: None has no such format. *)
Definition format_percent (x : stat) : IO string :=
  match x with
  | Value q => io_ret (format_fixed 1 false (q * 100) ++ "%")
  | NaN => io_ret "nan%"
  | PyNone =>
      fun p => (Raised (TypeError
                  "unsupported format string passed to NoneType.__format__"), p)
  end.

(** [f"{x:,.2f}"]. *)
Definition format_amount (x : stat) : IO string :=
  match x with
  | Value q => io_ret (format_fixed 2 true q)
  | NaN => io_ret "nan"
  | PyNone =>
      fun p => (Raised (TypeError
                  "unsupported format string passed to NoneType.__format__"), p)
  end.

(** The date of an instant: year, month and day of the proleptic Gregorian
    calendar. *)
Definition civil_from_days (days : Z) : Z * Z * Z :=
  let z := days + 719468 in
  let era := z / 146097 in
  let doe := z - era * 146097 in
  let yoe := (doe - doe / 1460 + doe / 36524 - doe / 146096) / 365 in
  let doy := doe - (365 * yoe + yoe / 4 - yoe / 100) in
  let mp := (5 * doy + 2) / 153 in
  let d := doy - (153 * mp + 2) / 5 + 1 in
  let m := if mp <? 10 then mp + 3 else mp - 9 in
  let y := yoe + era * 400 + (if m <=? 2 then 1 else 0) in
  (y, m, d).

(** [t.isoformat()[:10]], and ['NaT'[:10]] for the extremum of no row. *)
Definition isoformat_date (t : option datetime.datetime) : string :=
  match t with
  | None => "NaT"
  | Some ts =>
      let '(y, m, d) := civil_from_days (ts / 86400000000) in
      zero_padded 4 y ++ "-" ++ zero_padded 2 m ++ "-" ++ zero_padded 2 d
  end.

(** The items of [avg_amount_by_device] in the order of their keys, which
    is the order of the groups of a group-by. *)
Fixpoint insert_by_key {V} (item : string * V) (l : list (string * V))
  : list (string * V) :=
  match l with
  | [] => [item]
  | x :: l' =>
      if String.leb (fst item) (fst x) then item :: l
      else x :: insert_by_key item l'
  end.

Definition sorted_by_key {V} (l : list (string * V)) : list (string * V) :=
  fold_right insert_by_key [] l.

Fixpoint print_averages (items : list (string * stat)) : IO unit :=
  match items with
  | [] => io_ret tt
  | (device, avg) :: rest =>
      s <~ format_amount avg ;;
      _ <~ print ("    " ++ device ++ ": INR " ++ s) ;;
      print_averages rest
  end.

(** The seeds that [np.random.seed] accepts. *)
Definition valid_np_seed (seed : Z) : bool :=
  (0 <=? seed) && (seed <=? 4294967295).

(** [random.seed(seed)] and [np.random.seed(seed)]: both seeded streams
    start again, from the streams of the seed. *)
Definition reseeded (stream : nat -> Z) (np_stream : nat -> positive * positive)
           (w : World) : World :=
  mkWorld stream 0 np_stream 0
          (clock w) (clock_pos w) (urandom w) (urandom_pos w).

Section Seeding.

(** The streams that [random.seed] and [np.random.seed] start from a
    seed. *)
Variable mersenne : Z -> nat -> Z.
Variable np_mersenne : Z -> nat -> positive * positive.

(** The process once a generator has been built with [seed]. *)
Definition seeded (seed : Z) (p : Process) : Process :=
  mkProcess (reseeded (mersenne seed) (np_mersenne seed) (world p))
            (stdout p) (csv_files p).

(** [random.seed(seed)]: any integer is a seed. *)
Definition random_seed (seed : Z) : IO unit :=
  fun p =>
    let w := world p in
    (Returned tt,
     mkProcess (mkWorld (mersenne seed) 0 (np_mt w) (np_pos w)
                        (clock w) (clock_pos w) (urandom w) (urandom_pos w))
               (stdout p) (csv_files p)).

(** [np.random.seed(seed)]: the seed must lie between 0 and 2**32 - 1. *)
Definition np_random_seed (seed : Z) : IO unit :=
  fun p =>
    let w := world p in
    if valid_np_seed seed then
      (Returned tt,
       mkProcess (mkWorld (mt w) (mt_pos w) (np_mersenne seed) 0
                          (clock w) (clock_pos w) (urandom w) (urandom_pos w))
                 (stdout p) (csv_files p))
    else (Raised (Exn (ValueError "Seed must be between 0 and 2**32 - 1")), p).

(** [MockDataGenerator(seed=seed)]: [random] and then [np.random] are
    seeded when a seed is given (the optional Faker instance feeds no field
    of a record and is left out). *)
Definition __init__ (seed : option Z) : IO unit :=
  match seed with
  | Some s => _ <~ random_seed s ;; np_random_seed s
  | None => io_ret tt
  end.

Definition generate_and_save_dataset (output_path : string) (num_rows : Z)
           (seed : Z) : IO pd.DataFrame :=
  _ <~ __init__ (Some seed) ;;
  df <~ run (generate_data num_rows) ;;
  errors <~ of_result (validate_data df) ;;
  _ <~ (match errors with
        | [] => print "Data validation passed!"
        | _ => _ <~ print "Validation errors found:" ;;
               print_each (map (fun e => "  - " ++ e) errors)
        end) ;;
  summary <~ of_result (get_data_summary df) ;;
  _ <~ print (newline ++ "Dataset Summary:") ;;
  _ <~ print ("  Total records: " ++ str (total_records summary)) ;;
  _ <~ print ("  Date range: " ++ isoformat_date (fst (date_range summary))
                ++ " to " ++ isoformat_date (snd (date_range summary))) ;;
  s <~ format_percent (overall_failure_rate summary) ;;
  _ <~ print ("  Overall failure rate: " ++ s) ;;
  s <~ format_percent (fraud_flag_rate summary) ;;
  _ <~ print ("  Overall fraud flag rate: " ++ s) ;;
  s <~ format_percent (weekend_billpay_failure_rate summary) ;;
  _ <~ print ("  Weekend Bill Payment failure rate: " ++ s) ;;
  s <~ format_percent (high_value_fraud_rate summary) ;;
  _ <~ print ("  High-value (>50k) fraud rate: " ++ s) ;;
  _ <~ print (newline ++ "  Avg Amount by Device:") ;;
  _ <~ print_averages (sorted_by_key (avg_amount_by_device summary)) ;;
  _ <~ to_csv df output_path ;;
  _ <~ print (newline ++ "Dataset saved to: " ++ output_path) ;;
  io_ret df.

End Seeding.

(** Whether the table has a row of each of the two slices whose rate the
    report formats. *)
Definition has_weekend_bill_payment (df : pd.DataFrame) : bool :=
  existsb (fun r => (transaction_type r =? "Bill Payment")%string
                    && (is_weekend r =? 1)) (pd.rows df).

Definition has_high_value (df : pd.DataFrame) : bool :=
  existsb (fun r => Qltb HIGH_VALUE_THRESHOLD (amount_inr r)) (pd.rows df).

(** What the command leaves behind when it is run from [p] with [seed]:
    its outcome and the process after it. *)
Definition command_outcome (mersenne : Z -> nat -> Z)
           (np_mersenne : Z -> nat -> positive * positive)
           (output_path : string) (num_rows seed : Z) (p : Process) : Prop :=
  let start := seeded mersenne np_mersenne seed p in
  let result :=
    generate_and_save_dataset mersenne np_mersenne output_path num_rows seed p in
  if valid_np_seed seed then
    match generate_data num_rows (world start) with
    | Raise e =>
        num_rows <= 0 /\ result = (Raised (Exn (KeyError "timestamp")), start)
    | Ok (df, w') =>
        0 < num_rows
        /\ world (snd result) = w'
        /\ (exists rest,
               stdout (snd result)
               = (stdout p ++ "Data validation passed!" :: rest)%list)
        /\ if has_weekend_bill_payment df && has_high_value df
           then fst result = Returned df
                /\ csv_files (snd result)
                   = (csv_files p ++ [(output_path, df)])%list
                /\ exists before,
                     stdout (snd result)
                     = (before
                        ++ [(newline ++ "Dataset saved to: "
                               ++ output_path)%string])%list
           else (exists msg, fst result = Raised (TypeError msg))
                /\ csv_files (snd result) = csv_files p
    end
  else
    fst result = Raised (Exn (ValueError "Seed must be between 0 and 2**32 - 1"))
    /\ stdout (snd result) = stdout p
    /\ csv_files (snd result) = csv_files p.

(** The number of rows of one transaction type. *)
Definition rows_of_type (ty : string) (rs : list Transaction) : nat :=
  length (filter (fun r => (transaction_type r =? ty)%string) rs).

(** Streams of a seed under which two records are drawn: a Bill Payment on
    a Saturday, then a P2P payment of 56,325 on the Web. *)
Definition example_mersenne (seed : Z) (i : nat) : Z :=
  match i with
  | 0%nat => 777600
  | 1%nat => 7205759403792794
  | 12%nat => 900719925474099
  | 13%nat => 8556839291003943
  | _ => 4503599627370496
  end.

Definition example_np_mersenne (seed : Z) (i : nat) : positive * positive :=
  match i with
  | 1%nat => (3, 1)%positive
  | _ => (1, 1)%positive
  end.

Definition example_process : Process :=
  mkProcess ios_recharge_world [] [].

(** ** Basic facts of the monad *)

Lemma bind_ok {A B} (m : M A) (k : A -> M B) w a w1 :
  m w = Ok (a, w1) -> bind m k w = k a w1.
Proof. intros H. unfold bind. now rewrite H. Qed.

Ltac step H := erewrite bind_ok; [ | exact H ]; cbv beta.

Lemma same_tapes_refl w : same_tapes w w.
Proof. repeat split. Qed.

Lemma same_tapes_trans w1 w2 w3 :
  same_tapes w1 w2 -> same_tapes w2 w3 -> same_tapes w1 w3.
Proof.
  intros (a1 & b1 & c1 & d1) (a2 & b2 & c2 & d2).
  repeat split; congruence.
Qed.

(** ** Facts of the library models *)

Lemma Qltb_lt x y : Qltb x y = true <-> (x < y)%Q.
Proof.
  unfold Qltb. rewrite negb_true_iff.
  split; intros H.
  - apply Qnot_le_lt. intros Hle. apply Qle_bool_iff in Hle. congruence.
  - destruct (Qle_bool y x) eqn:E; [ | reflexivity ].
    apply Qle_bool_iff in E. exfalso. exact (Qlt_not_le _ _ H E).
Qed.

Lemma Qltb_ge x y : Qltb x y = false <-> (y <= x)%Q.
Proof.
  unfold Qltb. rewrite negb_false_iff. apply Qle_bool_iff.
Qed.

Lemma uniform_range r : (0 <= random.uniform r /\ random.uniform r < 1)%Q.
Proof.
  unfold random.uniform, Qle, Qlt. simpl.
  pose proof (Z.mod_pos_bound r 9007199254740992 eq_refl). lia.
Qed.

Lemma midpoint_between lo hi :
  (lo < hi)%nat -> (lo <= (lo + hi) / 2 < hi)%nat.
Proof.
  intros Hlt. split.
  - apply Nat.div_le_lower_bound; lia.
  - apply Nat.Div0.div_lt_upper_bound; lia.
Qed.

Lemma bisect_loop_range fuel a x : forall lo hi,
  (lo <= hi)%nat ->
  (lo <= random.bisect_loop fuel a x lo hi <= hi)%nat.
Proof.
  induction fuel as [ | fuel IH ]; intros lo hi Hle; cbn [random.bisect_loop].
  - lia.
  - destruct (Nat.ltb_spec lo hi) as [Hlt | Hge]; [ | lia ].
    pose proof (midpoint_between lo hi Hlt) as Hmid.
    destruct (Qltb x (nth ((lo + hi) / 2) a 0%Q)).
    + pose proof (IH lo ((lo + hi) / 2)%nat (proj1 Hmid)). lia.
    + pose proof (IH (S ((lo + hi) / 2)) hi (proj2 Hmid)). lia.
Qed.

(** The fuel given by [bisect] is enough: more fuel changes nothing. *)
Lemma bisect_loop_fuel a x : forall f1 f2 lo hi,
  (hi - lo <= f1)%nat -> (hi - lo <= f2)%nat ->
  random.bisect_loop f1 a x lo hi = random.bisect_loop f2 a x lo hi.
Proof.
  induction f1 as [ | f1 IH ]; intros f2 lo hi H1 H2.
  - destruct f2; cbn [random.bisect_loop]; [ reflexivity | ].
    destruct (Nat.ltb_spec lo hi); [ lia | reflexivity ].
  - destruct f2; cbn [random.bisect_loop].
    + destruct (Nat.ltb_spec lo hi); [ lia | reflexivity ].
    + destruct (Nat.ltb_spec lo hi) as [Hlt | Hge]; [ | reflexivity ].
      pose proof (midpoint_between lo hi Hlt) as Hmid.
      destruct (Qltb x (nth ((lo + hi) / 2) a 0%Q)); apply IH; lia.
Qed.

Lemma bisect_range a x lo hi :
  (lo <= hi)%nat -> (lo <= random.bisect a x lo hi <= hi)%nat.
Proof. apply bisect_loop_range. Qed.

Lemma getitem_In {A} (l : list A) i :
  (i < length l)%nat -> exists x, getitem l i = Ok x /\ In x l.
Proof.
  intros Hi. unfold getitem.
  destruct (nth_error l i) as [x | ] eqn:E.
  - exists x. split; [ reflexivity | ]. eapply nth_error_In; eassumption.
  - apply nth_error_None in E. lia.
Qed.

Lemma random_spec w :
  random.random w = Ok (random.uniform (mt w (mt_pos w)), tick_mt w).
Proof. reflexivity. Qed.

Lemma choice_spec {A} (seq : list A) w :
  seq <> [] ->
  exists x, In x seq /\ random.choice seq w = Ok (x, tick_mt w).
Proof.
  intros Hne. destruct seq as [ | a seq ]; [ congruence | ].
  assert (Hlen : 0 < Z.of_nat (length (a :: seq))) by (simpl length; lia).
  pose proof (Z.mod_pos_bound (mt w (mt_pos w)) _ Hlen) as Hr.
  destruct (getitem_In (a :: seq)
              (Z.to_nat (mt w (mt_pos w) mod Z.of_nat (length (a :: seq)))))
    as (x & Hx & Hin); [ lia | ].
  exists x. split; [ exact Hin | ].
  unfold random.choice. cbv iota.
  unfold bind, random._randbelow, random.next_raw, bind, ret, lift.
  now rewrite Hx.
Qed.

Lemma choices_draws_one {A} (population : list A) cw total hi w :
  (hi < length population)%nat ->
  exists x, In x population
            /\ random.choices_draws population cw total hi 1 w = Ok ([x], tick_mt w).
Proof.
  intros Hhi.
  pose proof (bisect_range cw (random.uniform (mt w (mt_pos w)) * total)%Q 0 hi
                           (Nat.le_0_l hi)) as Hb.
  destruct (getitem_In population
              (random.bisect cw (random.uniform (mt w (mt_pos w)) * total)%Q 0 hi))
    as (x & Hx & Hin); [ lia | ].
  exists x. split; [ exact Hin | ].
  unfold random.choices_draws.
  step (random_spec w).
  unfold bind, lift, ret. now rewrite Hx.
Qed.

Lemma weighted_choice_spec {A} (options : list A) (weights : list Q) total w :
  length (random.accumulate weights) = length options ->
  getitem_last (random.accumulate weights) = Ok total ->
  Qle_bool total 0 = false ->
  exists x, In x options /\ _weighted_choice options weights w = Ok (x, tick_mt w).
Proof.
  intros Hlen Hlast Hpos.
  assert (Hne : (0 < length options)%nat).
  { rewrite <- Hlen. destruct (random.accumulate weights); [ discriminate | simpl; lia ]. }
  destruct (choices_draws_one options (random.accumulate weights) total
                              (length options - 1) w) as (x & Hin & Hx); [ lia | ].
  exists x. split; [ exact Hin | ].
  unfold _weighted_choice, random.choices.
  rewrite Hlen, Nat.eqb_refl. simpl negb. cbv iota.
  unfold bind at 1.
  unfold bind at 1. unfold lift at 1. rewrite Hlast, Hpos, Hx.
  reflexivity.
Qed.

(** ** Rounding and clipping keep an amount inside its bounds *)

Lemma round_half_even_cases x :
  round_half_even x = Qfloor x
  \/ (round_half_even x = Qfloor x + 1 /\ (1 # 2 <= x - inject_Z (Qfloor x))%Q).
Proof.
  unfold round_half_even.
  destruct (Qltb (x - inject_Z (Qfloor x)) (1 # 2)) eqn:E1; [ now left | ].
  apply Qltb_ge in E1.
  destruct (Qltb (1 # 2) (x - inject_Z (Qfloor x))); [ now right | ].
  destruct (Z.even (Qfloor x)); [ now left | now right ].
Qed.

Lemma round_half_even_lower k y :
  (inject_Z k <= y)%Q -> k <= round_half_even y.
Proof.
  intros H. apply Qfloor_resp_le in H. rewrite Qfloor_Z in H.
  destruct (round_half_even_cases y) as [-> | [-> _]]; lia.
Qed.

Lemma round_half_even_upper k y :
  (y <= inject_Z k)%Q -> round_half_even y <= k.
Proof.
  intros H.
  pose proof (Qfloor_le y) as Hf.
  destruct (round_half_even_cases y) as [-> | [-> Hr]].
  - rewrite Zle_Qle. eapply Qle_trans; eassumption.
  - assert (Hlt : (inject_Z (Qfloor y) < inject_Z k)%Q).
    { apply Qlt_le_trans with y; [ | exact H ].
      apply Qlt_minus_iff. eapply Qlt_le_trans; [ | exact Hr ]. reflexivity. }
    rewrite <- Zlt_Qlt in Hlt. lia.
Qed.

Lemma round2_bounds lo hi x :
  (lo * 100 == inject_Z (Qfloor (lo * 100)))%Q ->
  (hi * 100 == inject_Z (Qfloor (hi * 100)))%Q ->
  (lo <= x)%Q -> (x <= hi)%Q ->
  (lo <= round2 x /\ round2 x <= hi)%Q.
Proof.
  intros Hlo Hhi H1 H2.
  assert (L : Qfloor (lo * 100) <= round_half_even (x * 100)).
  { apply round_half_even_lower. rewrite <- Hlo.
    apply Qmult_le_compat_r; [ exact H1 | discriminate ]. }
  assert (U : round_half_even (x * 100) <= Qfloor (hi * 100)).
  { apply round_half_even_upper. rewrite <- Hhi.
    apply Qmult_le_compat_r; [ exact H2 | discriminate ]. }
  rewrite Zle_Qle in L, U. rewrite <- Hlo in L. rewrite <- Hhi in U.
  unfold round2. revert L U.
  generalize (round_half_even (x * 100)). intros z.
  unfold Qle. simpl. lia.
Qed.

Lemma clip_bounds a lo hi :
  (lo <= hi)%Q -> (lo <= np.clip a lo hi /\ np.clip a lo hi <= hi)%Q.
Proof.
  intros H. unfold np.clip. split.
  - apply Q.min_glb; [ apply Q.le_max_r | exact H ].
  - apply Q.le_min_r.
Qed.

(** The bounds held by [_generate_amount] are ordered and are whole numbers
    of hundredths, whatever the two strings are. *)
Lemma amount_bounds_grid d t :
  (fst (amount_bounds d t) * 100
     == inject_Z (Qfloor (fst (amount_bounds d t) * 100))
   /\ snd (amount_bounds d t) * 100
     == inject_Z (Qfloor (snd (amount_bounds d t) * 100))
   /\ fst (amount_bounds d t) <= snd (amount_bounds d t))%Q.
Proof.
  unfold amount_bounds, AMOUNT_RANGES, dict_get.
  destruct (d =? "Android")%string; [ | destruct (d =? "iOS")%string;
                                        [ | destruct (d =? "Web")%string ] ];
    (destruct (t =? "Recharge")%string;
     [ | destruct (t =? "Bill Payment")%string;
         [ | destruct (t =? "P2P")%string;
             [ | destruct (t =? "P2M")%string ] ] ]);
    (split; [ vm_compute; reflexivity
            | split; [ vm_compute; reflexivity | vm_compute; discriminate ] ]).
Qed.

(** ** The methods of the generator, one by one *)

Lemma generate_amount_spec d t w :
  exists a,
    _generate_amount d t w = Ok (a, tick_np w)
    /\ (fst (amount_bounds d t) <= a /\ a <= snd (amount_bounds d t))%Q.
Proof.
  destruct (amount_bounds_grid d t) as (Glo & Ghi & Gle).
  unfold _generate_amount.
  destruct (amount_bounds d t) as [lo hi]. simpl fst in *. simpl snd in *.
  unfold bind, np.lognormal_of_log, np.next_variate, bind, ret.
  destruct (np_mt w (np_pos w)) as [n den].
  eexists. split; [ reflexivity | ].
  apply round2_bounds; try assumption; apply clip_bounds; assumption.
Qed.

Lemma generate_timestamp_spec w :
  _generate_timestamp 30 w =
    Ok (clock w (clock_pos w) - datetime.timedelta_days 30
        + datetime.timedelta_seconds (mt w (mt_pos w) mod 2592001),
        tick_mt (tick_clock w)).
Proof.
  assert (Hsub : forall a b : Z, a - (a - b) = b) by (intros; lia).
  unfold _generate_timestamp, bind, datetime.now.
  rewrite Hsub. reflexivity.
Qed.

Lemma generate_transaction_id_spec w :
  _generate_transaction_id w =
    Ok ("TXN" ++ upper (prefix_slice 12
                          (uuid.hex (uuid.uuid_of_entropy (urandom w (urandom_pos w))))),
        tick_urandom w).
Proof. reflexivity. Qed.

Lemma determine_failure_status_spec tt wk w :
  _determine_failure_status tt wk w =
    Ok (if Qltb (random.uniform (mt w (mt_pos w))) (failure_rate tt wk)
        then "FAILED" else "SUCCESS",
        tick_mt w).
Proof. reflexivity. Qed.

Lemma determine_fraud_flag_spec amount w :
  exists f, _determine_fraud_flag amount w = Ok (f, tick_mt w) /\ (f = 0 \/ f = 1).
Proof.
  unfold _determine_fraud_flag, bind, random.random, bind, random.next_raw, ret.
  eexists. split; [ reflexivity | ].
  match goal with |- context [if ?b then 1 else 0] => destruct b end; auto.
Qed.

Lemma merchant_categories_nonempty tt :
  dict_get MERCHANT_CATEGORY_BY_TYPE tt MERCHANT_CATEGORIES <> [].
Proof.
  unfold MERCHANT_CATEGORY_BY_TYPE, dict_get.
  destruct (tt =? "P2M")%string; [ discriminate | ].
  destruct (tt =? "Bill Payment")%string; [ discriminate | ].
  destruct (tt =? "Recharge")%string; discriminate.
Qed.

Lemma get_merchant_category_spec tt w :
  exists m,
    _get_merchant_category tt w
      = Ok (m, if (tt =? "P2P")%string then w else tick_mt w)
    /\ if (tt =? "P2P")%string then m = None
       else exists c, m = Some c
                      /\ In c (dict_get MERCHANT_CATEGORY_BY_TYPE tt MERCHANT_CATEGORIES).
Proof.
  unfold _get_merchant_category.
  destruct (tt =? "P2P")%string.
  - exists None. split; reflexivity.
  - destruct (choice_spec _ w (merchant_categories_nonempty tt)) as (c & Hin & E).
    exists (Some c). split.
    + step E. reflexivity.
    + exists c. split; [ reflexivity | exact Hin ].
Qed.

Ltac weighted_choice_at w :=
  eapply (fun total => weighted_choice_spec _ _ total w);
  [ reflexivity | vm_compute; reflexivity | vm_compute; reflexivity ].

Lemma get_receiver_age_group_spec tt w :
  exists a,
    _get_receiver_age_group tt w
      = Ok (a, if (tt =? "P2P")%string then tick_mt w else w)
    /\ if (tt =? "P2P")%string then exists g, a = Some g /\ In g AGE_GROUPS
       else a = None.
Proof.
  unfold _get_receiver_age_group.
  destruct (tt =? "P2P")%string.
  - assert (H : exists x, In x AGE_GROUPS
                          /\ _weighted_choice AGE_GROUPS AGE_GROUP_WEIGHTS w
                             = Ok (x, tick_mt w)) by weighted_choice_at w.
    destruct H as (g & Hin & E).
    exists (Some g). split.
    + step E. reflexivity.
    + exists g. split; [ reflexivity | exact Hin ].
  - exists None. split; reflexivity.
Qed.

(** ** One record *)

Ltac weighted_choice_lemma :=
  intros w; weighted_choice_at w.

Lemma choose_transaction_type : forall w, exists x,
  In x TRANSACTION_TYPES
  /\ _weighted_choice TRANSACTION_TYPES TRANSACTION_TYPE_WEIGHTS w = Ok (x, tick_mt w).
Proof. weighted_choice_lemma. Qed.

Lemma choose_device_type : forall w, exists x,
  In x DEVICE_TYPES
  /\ _weighted_choice DEVICE_TYPES DEVICE_WEIGHTS w = Ok (x, tick_mt w).
Proof. weighted_choice_lemma. Qed.

Lemma choose_age_group : forall w, exists x,
  In x AGE_GROUPS
  /\ _weighted_choice AGE_GROUPS AGE_GROUP_WEIGHTS w = Ok (x, tick_mt w).
Proof. weighted_choice_lemma. Qed.

Lemma choose_state : forall w, exists x,
  In x INDIAN_STATES
  /\ _weighted_choice INDIAN_STATES STATE_WEIGHTS w = Ok (x, tick_mt w).
Proof. weighted_choice_lemma. Qed.

Lemma choose_bank : forall w, exists x,
  In x BANKS /\ _weighted_choice BANKS BANK_WEIGHTS w = Ok (x, tick_mt w).
Proof. weighted_choice_lemma. Qed.

Lemma choose_network_type : forall w, exists x,
  In x NETWORK_TYPES
  /\ _weighted_choice NETWORK_TYPES NETWORK_WEIGHTS w = Ok (x, tick_mt w).
Proof. weighted_choice_lemma. Qed.

Ltac choose lemma x Hin E w :=
  destruct (lemma w) as [x [Hin E]]; step E.

Lemma generate_single_transaction_spec w :
  exists t w',
    generate_single_transaction w = Ok (t, w')
    /\ same_tapes w w' /\ generated w t.
Proof.
  unfold generate_single_transaction.
  step (generate_timestamp_spec w).
  set (ts := clock w (clock_pos w) - datetime.timedelta_days 30
             + datetime.timedelta_seconds (mt w (mt_pos w) mod 2592001)).
  set (w1 := tick_mt (tick_clock w)).
  choose choose_transaction_type ty Htt E1 w1. set (w2 := tick_mt w1).
  choose choose_device_type dev Hdev E2 w2. set (w3 := tick_mt w2).
  cbv zeta.
  destruct (generate_amount_spec dev ty w3) as (amt & E3 & Hamt). step E3.
  set (w4 := tick_np w3).
  step (generate_transaction_id_spec w4). set (w5 := tick_urandom w4).
  destruct (get_merchant_category_spec ty w5) as (m & E5 & Hm). step E5.
  set (w6 := if (ty =? "P2P")%string then w5 else tick_mt w5) in *.
  step (determine_failure_status_spec
          ty (d_is_weekend (_calculate_derived_fields ts) =? 1) w6).
  set (w7 := tick_mt w6).
  choose choose_age_group sag Hsag E7 w7. set (w8 := tick_mt w7).
  destruct (get_receiver_age_group_spec ty w8) as (rag & E8 & Hr). step E8.
  set (w9 := if (ty =? "P2P")%string then tick_mt w8 else w8) in *.
  choose choose_state st Hst E9 w9. set (w10 := tick_mt w9).
  choose choose_bank sb Hsb E10 w10. set (w11 := tick_mt w10).
  choose choose_bank rb Hrb E11 w11. set (w12 := tick_mt w11).
  choose choose_network_type nt Hnt E12 w12. set (w13 := tick_mt w12).
  destruct (determine_fraud_flag_spec amt w13) as (ff & E13 & _). step E13.
  unfold ret. eexists. eexists. split; [ reflexivity | ]. split.
  - subst w13 w12 w11 w10 w9 w8 w7 w6 w5 w4 w3 w2 w1.
    destruct (ty =? "P2P")%string; repeat split.
  - constructor; cbn [transaction_id timestamp transaction_type merchant_category
                      amount_inr transaction_status sender_age_group
                      receiver_age_group device_type hour_of_day day_of_week
                      is_weekend]; try assumption; try reflexivity.
    subst w6 w5 w4 w3 w2 w1 ts.
    destruct (ty =? "P2P")%string; reflexivity.
Qed.

(** ** A batch of records, and the table *)

Lemma generate_records_spec n : forall w,
  exists ts w',
    generate_records n w = Ok (ts, w')
    /\ length ts = n /\ same_tapes w w'
    /\ Forall (fun t => exists ws, same_tapes w ws /\ generated ws t) ts.
Proof.
  induction n as [ | n IH ]; intros w.
  - exists [], w. repeat split. constructor.
  - destruct (generate_single_transaction_spec w) as (t & w1 & E1 & T1 & G1).
    destruct (IH w1) as (ts & w2 & E2 & L2 & T2 & F2).
    exists (t :: ts), w2.
    cbn [generate_records]. step E1. step E2.
    split; [ reflexivity | ].
    split; [ simpl; congruence | ].
    split; [ eapply same_tapes_trans; eassumption | ].
    constructor.
    + exists w. split; [ apply same_tapes_refl | exact G1 ].
    + eapply Forall_impl; [ | exact F2 ].
      intros r (ws & Tws & Gws). exists ws.
      split; [ eapply same_tapes_trans; eassumption | exact Gws ].
Qed.

Lemma insert_by_timestamp_perm r l :
  Permutation (pd.insert_by_timestamp r l) (r :: l).
Proof.
  induction l as [ | x l IH ]; simpl.
  - apply Permutation_refl.
  - destruct (timestamp r <? timestamp x).
    + apply Permutation_refl.
    + eapply Permutation_trans; [ apply perm_skip, IH | apply perm_swap ].
Qed.

Lemma sort_by_timestamp_perm l : Permutation (pd.sort_by_timestamp l) l.
Proof.
  induction l as [ | x l IH ]; simpl.
  - apply Permutation_refl.
  - eapply Permutation_trans; [ apply insert_by_timestamp_perm | ].
    apply perm_skip, IH.
Qed.

Lemma sort_values_timestamp_table rs :
  pd.sort_values_timestamp (pd.mkDataFrame COLUMNS rs)
  = Ok (pd.mkDataFrame COLUMNS (pd.sort_by_timestamp rs)).
Proof. reflexivity. Qed.

(** What [generate_data] does on every input: without a positive row count
    the frame has no column and the sort raises; otherwise the table holds
    [num_rows] generated records. *)
Lemma generate_data_spec num_rows w :
  match generate_data num_rows w with
  | Ok (df, w') =>
      0 < num_rows /\ pd.columns df = COLUMNS
      /\ length (pd.rows df) = Z.to_nat num_rows
      /\ Forall (fun t => exists ws, same_tapes w ws /\ generated ws t) (pd.rows df)
  | Raise e => num_rows <= 0 /\ e = KeyError "timestamp"
  end.
Proof.
  unfold generate_data.
  destruct (generate_records_spec (Z.to_nat num_rows) w)
    as (ts & w' & E & L & _ & F).
  step E.
  destruct ts as [ | t ts ].
  - simpl. split; [ simpl in L; lia | reflexivity ].
  - unfold lift, pd.DataFrame_of_records.
    rewrite sort_values_timestamp_table. cbn [pd.columns pd.rows].
    pose proof (sort_by_timestamp_perm (t :: ts)) as P.
    split; [ simpl in L; lia | ].
    split; [ reflexivity | ].
    split.
    + rewrite (Permutation_length P). exact L.
    + eapply Permutation_Forall; [ apply Permutation_sym, P | exact F ].
Qed.

Lemma generated_rows (P : Transaction -> Prop) :
  (forall w t, generated w t -> P t) -> every_generated_row P.
Proof.
  intros H num_rows w.
  pose proof (generate_data_spec num_rows w) as S.
  destruct (generate_data num_rows w) as [[df w'] | e].
  - destruct S as (Hn & _ & _ & F). split; [ exact Hn | ].
    eapply Forall_impl; [ | exact F ].
    intros t (ws & _ & G). eapply H; eassumption.
  - apply S.
Qed.

(** ** Facts shared by the statements about rows *)

Lemma transaction_type_cases s :
  In s TRANSACTION_TYPES ->
  s = "P2P" \/ s = "P2M" \/ s = "Bill Payment" \/ s = "Recharge".
Proof.
  intros [E | [E | [E | [E | []]]]]; symmetry in E; auto.
Qed.

Lemma device_type_cases s :
  In s DEVICE_TYPES -> s = "Android" \/ s = "iOS" \/ s = "Web".
Proof.
  intros [E | [E | [E | []]]]; symmetry in E; auto.
Qed.

Lemma weekday_range ts : 0 <= datetime.weekday ts < 7.
Proof. unfold datetime.weekday. apply Z.mod_pos_bound. reflexivity. Qed.

(** [weekday() >= 5] is the same as a day named Saturday or Sunday. *)
Lemma weekday_ge_5_on_weekend ts :
  (5 <=? datetime.weekday ts) = on_weekend ts.
Proof.
  unfold on_weekend, datetime.strftime_A.
  pose proof (weekday_range ts) as R.
  assert (C : datetime.weekday ts = 0 \/ datetime.weekday ts = 1
              \/ datetime.weekday ts = 2 \/ datetime.weekday ts = 3
              \/ datetime.weekday ts = 4 \/ datetime.weekday ts = 5
              \/ datetime.weekday ts = 6) by lia.
  destruct C as [E | [E | [E | [E | [E | [E | E]]]]]]; rewrite E; reflexivity.
Qed.

Lemma generated_weekend_flag w t :
  generated w t -> (is_weekend t =? 1) = on_weekend (timestamp t).
Proof.
  intros G. rewrite (gen_weekend w t G).
  unfold _calculate_derived_fields. cbn [d_is_weekend].
  rewrite weekday_ge_5_on_weekend.
  destruct (on_weekend (timestamp t)); reflexivity.
Qed.

(** ** The properties of the specification *)

(** C1. Nullability duality: in every generated table, for any row count
    and any world (so any seed), a row is P2P iff its merchant_category is
    null, and iff its receiver_age_group is not null.  The two getters
    decide presence from the transaction type alone, whatever the state of
    the random streams: they always return, with a null merchant category
    exactly for P2P and a non-null receiver age group exactly for P2P. *)
Theorem C1_nullability_duality :
  every_generated_row nullability_duality
  /\ (forall tt w, exists m w',
         _get_merchant_category tt w = Ok (m, w') /\ (m = None <-> tt = "P2P"))
  /\ (forall tt w, exists a w',
         _get_receiver_age_group tt w = Ok (a, w') /\ (a <> None <-> tt = "P2P")).
Proof.
  split; [ | split ].
  - apply generated_rows. intros w t G.
    pose proof (gen_merchant w t G) as Hm.
    pose proof (gen_receiver w t G) as Hr.
    unfold nullability_duality.
    destruct (String.eqb_spec (transaction_type t) "P2P") as [E | N].
    + destruct Hr as (a & Ha & _). rewrite Hm, Ha.
      repeat split; auto; discriminate.
    + destruct Hm as (c & Hc & _). rewrite Hc, Hr.
      repeat split; intros H; try contradiction; try discriminate;
        exfalso; apply H; reflexivity.
  - intros tt w.
    destruct (get_merchant_category_spec tt w) as (m & E & Hm).
    exists m. eexists. split; [ exact E | ].
    destruct (String.eqb_spec tt "P2P") as [Ett | N].
    + subst m. tauto.
    + destruct Hm as (c & -> & _). split; [ discriminate | contradiction ].
  - intros tt w.
    destruct (get_receiver_age_group_spec tt w) as (a & E & Ha).
    exists a. eexists. split; [ exact E | ].
    destruct (String.eqb_spec tt "P2P") as [Ett | N].
    + destruct Ha as (g & -> & _). split; [ auto | discriminate ].
    + subst a. split; [ intros H; exfalso; apply H; reflexivity | contradiction ].
Qed.

(** C9. Merchant-category restriction: in every generated table, a Bill
    Payment or Recharge row has merchant_category exactly Utilities, and a
    P2M row has one of Food, Grocery, Fuel, Entertainment, never
    Utilities. *)
Theorem C9_merchant_category_by_type :
  every_generated_row merchant_restriction.
Proof.
  apply generated_rows. intros w t G.
  pose proof (gen_merchant w t G) as Hm.
  unfold merchant_restriction. split.
  - intros [E | E]; rewrite E in Hm; cbn in Hm;
      destruct Hm as (c & Hc & [<- | []]); exact Hc.
  - intros E. rewrite E in Hm. cbn in Hm.
    destruct Hm as (c & Hc & Hin). exists c.
    split; [ exact Hc | ]. split; [ exact Hin | ].
    destruct Hin as [<- | [<- | [<- | [<- | []]]]]; discriminate.
Qed.

(** C5. Derived-field consistency: in every generated table, the stored
    hour_of_day is the hour of the row's timestamp, the stored day_of_week
    is the name of its weekday, and the stored is_weekend is 1 iff that
    day is Saturday or Sunday, else 0. *)
Theorem C5_derived_fields_consistent :
  every_generated_row derived_fields_consistent.
Proof.
  apply generated_rows. intros w t G.
  unfold derived_fields_consistent.
  rewrite (gen_hour w t G), (gen_day w t G), (gen_weekend w t G).
  unfold _calculate_derived_fields.
  cbn [d_hour_of_day d_day_of_week d_is_weekend].
  rewrite weekday_ge_5_on_weekend. repeat split.
Qed.

(** On the device and transaction types of the generator, the bounds held
    by [_generate_amount] are the clipped range. *)
Lemma amount_bounds_clipped d t :
  In d DEVICE_TYPES -> In t TRANSACTION_TYPES ->
  (fst (amount_bounds d t) == fst (clipped_range d t)
   /\ snd (amount_bounds d t) == snd (clipped_range d t))%Q.
Proof.
  intros Hd Ht.
  destruct (device_type_cases d Hd) as [-> | [-> | ->]];
    destruct (transaction_type_cases t Ht) as [-> | [-> | [-> | ->]]];
    split; vm_compute; reflexivity.
Qed.

Lemma generated_in_clipped_range w t :
  generated w t -> clipped_range_containment t.
Proof.
  intros G.
  destruct (amount_bounds_clipped _ _ (gen_device w t G) (gen_type w t G))
    as (Hlo & Hhi).
  destruct (gen_amount w t G) as (Alo & Ahi).
  unfold clipped_range_containment, within.
  rewrite <- Hlo, <- Hhi. split; assumption.
Qed.

Lemma ios_recharge_table :
  generate_data 1 ios_recharge_world
  = Ok (table [ios_recharge_row], after_one_record ios_recharge_world).
Proof. vm_compute. reflexivity. Qed.

Lemma web_recharge_table :
  generate_data 1 web_recharge_world
  = Ok (table [web_recharge_row], after_one_record web_recharge_world).
Proof. vm_compute. reflexivity. Qed.

Lemma rerun_table :
  generate_data 1 rerun_world
  = Ok (table [rerun_row], after_one_record rerun_world).
Proof. vm_compute. reflexivity. Qed.

(** C3, as stated, fails: the generator produces an iOS row (a Recharge)
    whose amount, 30.15, is below 50. *)
Lemma C3_counterexample :
  generate_data 1 ios_recharge_world
    = Ok (table [ios_recharge_row], after_one_record ios_recharge_world)
  /\ device_type ios_recharge_row = "iOS"
  /\ (amount_inr ios_recharge_row < 50)%Q
  /\ ~ every_generated_row spec_ios_bounds.
Proof.
  split; [ exact ios_recharge_table | ].
  split; [ reflexivity | ].
  split; [ reflexivity | ].
  intros H. specialize (H 1 ios_recharge_world).
  rewrite ios_recharge_table in H. destruct H as (_ & F).
  inversion F as [ | r rs Hrow _ ]; subst.
  destruct (Hrow eq_refl) as (Hlo & _).
  apply Hlo. reflexivity.
Qed.

(** C3, amended. In every generated table, the amount of an iOS row is
    never below the floor of its transaction type (10 for Recharge, 20 for
    P2M, 100 for Bill Payment, the device floor 50 for P2P) and never above
    the ceiling of its transaction type (2,000 for Recharge, 30,000 for
    P2M, 45,000 for Bill Payment and P2P). *)
Theorem C3_ios_bounds :
  every_generated_row ios_bounds.
Proof.
  apply generated_rows. intros w t G Hdev.
  destruct (generated_in_clipped_range w t G) as (Alo & Ahi).
  rewrite Hdev in Alo, Ahi.
  destruct (transaction_type_cases _ (gen_type w t G)) as [E | [E | [E | E]]];
    rewrite E in *; split;
    (eapply Qle_trans; [ | exact Alo ]) || (eapply Qle_trans; [ exact Ahi | ]);
    vm_compute; discriminate.
Qed.

(** C4, as stated, fails: the generator produces a Web row (a Recharge)
    whose amount, 50.25, is below the floor 100 of the range that the
    specification describes for its device and type. *)
Lemma C4_counterexample :
  generate_data 1 web_recharge_world
    = Ok (table [web_recharge_row], after_one_record web_recharge_world)
  /\ (fst (spec_range "Web" "Recharge") == 100)%Q
  /\ (amount_inr web_recharge_row < fst (spec_range "Web" "Recharge"))%Q
  /\ ~ every_generated_row spec_range_containment.
Proof.
  split; [ exact web_recharge_table | ].
  split; [ reflexivity | ].
  split; [ reflexivity | ].
  intros H. specialize (H 1 web_recharge_world).
  rewrite web_recharge_table in H. destruct H as (_ & F).
  inversion F as [ | r rs Hrow _ ]; subst.
  destruct Hrow as (Hlo & _).
  apply Hlo. reflexivity.
Qed.

(** C4, amended. In every generated table, amount_inr lies within the
    range obtained from the device bounds (Android (10, 25000), iOS
    (50, 45000), Web (100, 75000)) as follows: Recharge sets the floor to
    10 and caps at 2,000; Bill Payment sets the floor to 100 and caps at
    50,000; P2M sets the floor to 20 and caps at 30,000; P2P keeps the
    device bounds unchanged. *)
Theorem C4_range_containment :
  every_generated_row clipped_range_containment.
Proof.
  apply generated_rows. exact generated_in_clipped_range.
Qed.

(** C2. With the same seed, two runs of [generate_data] do not give the same
    table: [rerun_world] reads the same seeded streams as
    [ios_recharge_world], from the same positions, yet the one row of each
    table differs in transaction_id (drawn from the operating system by
    [uuid4]) and in timestamp (computed from [datetime.now()]). *)
Theorem C2_same_seed_tables_differ :
  mt rerun_world = mt ios_recharge_world
  /\ mt_pos rerun_world = mt_pos ios_recharge_world
  /\ np_mt rerun_world = np_mt ios_recharge_world
  /\ np_pos rerun_world = np_pos ios_recharge_world
  /\ generate_data 1 ios_recharge_world
     = Ok (table [ios_recharge_row], after_one_record ios_recharge_world)
  /\ generate_data 1 rerun_world
     = Ok (table [rerun_row], after_one_record rerun_world)
  /\ transaction_id ios_recharge_row <> transaction_id rerun_row
  /\ timestamp ios_recharge_row <> timestamp rerun_row
  /\ table [ios_recharge_row] <> table [rerun_row].
Proof.
  do 4 (split; [ reflexivity | ]).
  split; [ exact ios_recharge_table | ].
  split; [ exact rerun_table | ].
  split; [ discriminate | ].
  split; [ discriminate | ].
  discriminate.
Qed.

(** The share of the 2^53 equally likely values of a uniform variate that
    falls below each of the two failure rates. *)
Lemma failure_rate_thresholds r :
  ((random.uniform r < 20 # 100)%Q <-> r mod 9007199254740992 < 1801439850948199)
  /\ ((random.uniform r < 5 # 100)%Q <-> r mod 9007199254740992 < 450359962737050).
Proof.
  unfold random.uniform, Qlt. cbn [Qnum Qden].
  generalize (r mod 9007199254740992). intros z. lia.
Qed.

Lemma bernoulli_status_of_draw u p :
  bernoulli_status u p (if Qltb u p then "FAILED" else "SUCCESS").
Proof.
  unfold bernoulli_status.
  destruct (Qltb u p) eqn:E.
  - left. split; [ reflexivity | now apply Qltb_lt ].
  - right. split; [ reflexivity | now apply Qltb_ge ].
Qed.

Lemma drawn_records (P : World -> Transaction -> World -> Prop) :
  (forall wi t w', generate_single_transaction wi = Ok (t, w') -> P wi t w') ->
  forall n w records wn,
    generate_records n w = Ok (records, wn) ->
    Forall (fun t => exists wi w', drawn_in w n wi t w' /\ P wi t w') records.
Proof.
  intros HP. induction n as [ | n IH ]; intros w records wn E.
  - cbn [generate_records] in E. injection E as <- _. constructor.
  - destruct (generate_single_transaction_spec w) as (t0 & w1 & E0 & _).
    destruct (generate_records_spec n w1) as (ts & w2 & E1 & _).
    cbn [generate_records] in E. revert E. step E0. step E1.
    unfold ret. intros E. injection E as <- _.
    constructor.
    + exists w, w1. split; [ | apply HP, E0 ].
      exists 0%nat, []. split; [ lia | ]. split; [ reflexivity | exact E0 ].
    + eapply Forall_impl; [ | exact (IH w1 ts w2 E1) ].
      intros t (wi & w' & (i & earlier & Hi & Ei & Et) & Ht).
      exists wi, w'. split; [ | exact Ht ].
      exists (S i), (t0 :: earlier). split; [ lia | ]. split; [ | exact Et ].
      cbn [generate_records]. step E0. step Ei. reflexivity.
Qed.

(** The rows of a generated table are the records drawn. *)
Lemma drawn_rows (P : World -> Transaction -> World -> Prop) :
  (forall wi t w', generate_single_transaction wi = Ok (t, w') -> P wi t w') ->
  forall num_rows w,
    match generate_data num_rows w with
    | Ok (df, _) =>
        0 < num_rows
        /\ Forall (fun t => exists wi w',
                             drawn_in w (Z.to_nat num_rows) wi t w' /\ P wi t w')
                  (pd.rows df)
    | Raise _ => num_rows <= 0
    end.
Proof.
  intros HP num_rows w.
  pose proof (generate_data_spec num_rows w) as S.
  unfold generate_data in *.
  destruct (generate_records_spec (Z.to_nat num_rows) w) as (ts & w' & E & _).
  pose proof (drawn_records P HP _ _ _ _ E) as D.
  revert S. step E. destruct ts as [ | t ts ]; [ intros S; apply S | ].
  unfold lift, pd.DataFrame_of_records.
  rewrite sort_values_timestamp_table. cbn [pd.rows].
  intros (Hn & _). split; [ exact Hn | ].
  eapply Permutation_Forall;
    [ apply Permutation_sym, sort_by_timestamp_perm | exact D ].
Qed.

(** One record: the calls before the status, and the draw of the status. *)
Lemma status_draw_of_record w :
  exists t w' ws,
    generate_single_transaction w = Ok (t, w')
    /\ generated w t
    /\ drawn_before_status w
       = Ok ((timestamp t, transaction_type t, device_type t, amount_inr t,
              transaction_id t, merchant_category t), ws)
    /\ transaction_status t
       = if Qltb (random.uniform (mt ws (mt_pos ws)))
                 (failure_rate (transaction_type t) (is_weekend t =? 1))
         then "FAILED" else "SUCCESS".
Proof.
  destruct (generate_single_transaction_spec w) as (t & w' & E & _ & G).
  exists t, w'.
  pose proof (generate_timestamp_spec w) as E0.
  set (ts := clock w (clock_pos w) - datetime.timedelta_days 30
             + datetime.timedelta_seconds (mt w (mt_pos w) mod 2592001)) in *.
  set (w1 := tick_mt (tick_clock w)) in *.
  destruct (choose_transaction_type w1) as (ty & _ & E1). set (w2 := tick_mt w1) in *.
  destruct (choose_device_type w2) as (dev & _ & E2). set (w3 := tick_mt w2) in *.
  destruct (generate_amount_spec dev ty w3) as (amt & E3 & _).
  set (w4 := tick_np w3) in *.
  pose proof (generate_transaction_id_spec w4) as E4.
  set (w5 := tick_urandom w4) in *.
  destruct (get_merchant_category_spec ty w5) as (m & E5 & _).
  set (w6 := if (ty =? "P2P")%string then w5 else tick_mt w5) in *.
  exists w6.
  split; [ exact E | ]. split; [ exact G | ].
  assert (B : drawn_before_status w
              = Ok ((ts, ty, dev, amt,
                     "TXN" ++ upper (prefix_slice 12
                       (uuid.hex (uuid.uuid_of_entropy
                                    (urandom w4 (urandom_pos w4))))),
                     m), w6)).
  { unfold drawn_before_status.
    step E0. step E1. step E2. step E3. step E4. step E5. reflexivity. }
  revert E. unfold generate_single_transaction.
  step E0. step E1. step E2. cbv zeta. step E3. step E4. step E5.
  step (determine_failure_status_spec
          ty (d_is_weekend (_calculate_derived_fields ts) =? 1) w6).
  set (w7 := tick_mt w6).
  choose choose_age_group sag Hsag E7 w7. set (w8 := tick_mt w7).
  destruct (get_receiver_age_group_spec ty w8) as (rag & E8 & _). step E8.
  set (w9 := if (ty =? "P2P")%string then tick_mt w8 else w8) in *.
  choose choose_state st Hst E9 w9. set (w10 := tick_mt w9).
  choose choose_bank sb Hsb E10 w10. set (w11 := tick_mt w10).
  choose choose_bank rb Hrb E11 w11. set (w12 := tick_mt w11).
  choose choose_network_type nt Hnt E12 w12. set (w13 := tick_mt w12).
  destruct (determine_fraud_flag_spec amt w13) as (ff & E13 & _). step E13.
  unfold ret. intros E. injection E as <- _.
  cbn [timestamp transaction_type device_type amount_inr transaction_id
       merchant_category transaction_status is_weekend].
  split; [ exact B | reflexivity ].
Qed.

(** C6. Conditional failure sampling.  [_determine_failure_status] consumes
    exactly one uniform variate u of [0, 1) and returns FAILED when u is
    below the failure probability and SUCCESS otherwise, the probability
    being 20% exactly when the type is Bill Payment and the weekend flag is
    set, and 5% in every other case.  Every record that
    [generate_single_transaction] builds has its status decided by a single
    such draw: the variate that [random.random()] returns in the world
    reached by the calls of that record that precede the status, with the
    20% probability exactly when the record is a Bill Payment whose
    timestamp falls on Saturday or Sunday, and 5% in every other case.  In
    every generated table, each row is such a record, with the status of
    its own draw. *)
Theorem C6_conditional_failure_sampling :
  (forall tt wk w,
      let u := random.uniform (mt w (mt_pos w)) in
      let p := if (tt =? "Bill Payment")%string && wk then 20 # 100 else 5 # 100 in
      (0 <= u /\ u < 1)%Q
      /\ exists status,
           _determine_failure_status tt wk w = Ok (status, tick_mt w)
           /\ bernoulli_status u p status)
  /\ (forall w,
         exists t w' ws u,
           generate_single_transaction w = Ok (t, w')
           /\ drawn_before_status w
              = Ok ((timestamp t, transaction_type t, device_type t, amount_inr t,
                     transaction_id t, merchant_category t), ws)
           /\ random.random ws = Ok (u, tick_mt ws)
           /\ bernoulli_status u (spec_failure_probability t)
                                 (transaction_status t))
  /\ (forall num_rows w,
         match generate_data num_rows w with
         | Ok (df, _) =>
             0 < num_rows
             /\ Forall (status_sampled w (Z.to_nat num_rows)) (pd.rows df)
         | Raise _ => num_rows <= 0
         end).
Proof.
  assert (HP : forall wi t w',
             generate_single_transaction wi = Ok (t, w') ->
             exists ws u,
               drawn_before_status wi
               = Ok ((timestamp t, transaction_type t, device_type t,
                      amount_inr t, transaction_id t, merchant_category t), ws)
               /\ random.random ws = Ok (u, tick_mt ws)
               /\ bernoulli_status u (spec_failure_probability t)
                                     (transaction_status t)).
  { intros wi t w' E.
    destruct (status_draw_of_record wi) as (t0 & w0 & ws & E0 & G & B & S).
    rewrite E0 in E. injection E as <- <-.
    exists ws, (random.uniform (mt ws (mt_pos ws))).
    split; [ exact B | ]. split; [ reflexivity | ].
    rewrite S. unfold spec_failure_probability.
    rewrite <- (generated_weekend_flag wi t0 G).
    apply bernoulli_status_of_draw. }
  split; [ | split ].
  - intros tt wk w u p. split; [ apply uniform_range | ].
    eexists. split; [ apply determine_failure_status_spec | ].
    apply bernoulli_status_of_draw.
  - intros w.
    destruct (generate_single_transaction_spec w) as (t & w' & E & _).
    destruct (HP w t w' E) as (ws & u & H).
    exists t, w', ws, u. split; [ exact E | exact H ].
  - intros num_rows w.
    pose proof (drawn_rows
      (fun wi t w' =>
         exists ws u,
           drawn_before_status wi
           = Ok ((timestamp t, transaction_type t, device_type t, amount_inr t,
                  transaction_id t, merchant_category t), ws)
           /\ random.random ws = Ok (u, tick_mt ws)
           /\ bernoulli_status u (spec_failure_probability t)
                                 (transaction_status t))) as D.
    specialize (D HP num_rows w).
    destruct (generate_data num_rows w) as [[df wn] | e]; [ | exact D ].
    destruct D as (Hn & F). split; [ exact Hn | ].
    eapply Forall_impl; [ | exact F ].
    intros t (wi & w' & Dr & ws & u & B & U & S).
    exists wi, w', ws, u. auto.
Qed.

(** A table of one record has one row, the record drawn from the world of
    the call. *)
Lemma drawn_in_single w wi t w' :
  drawn_in w 1 wi t w' -> generate_single_transaction w = Ok (t, w').
Proof.
  intros (i & earlier & Hi & Ei & Et).
  assert (i = 0%nat) by lia. subst i.
  cbn [generate_records] in Ei. injection Ei as _ <-. exact Et.
Qed.

(** The draw is pinned: in the table of the single record drawn from
    [ios_recharge_world], whose variate for the status is 0.3, the row has
    the status SUCCESS, and the same row with the status FAILED is not a
    row whose status was sampled. *)
Example status_draw_is_pinned :
  status_sampled ios_recharge_world 1 ios_recharge_row
  /\ ~ status_sampled ios_recharge_world 1 (with_status "FAILED" ios_recharge_row).
Proof.
  split.
  - exists ios_recharge_world, (after_one_record ios_recharge_world).
    eexists. eexists.
    split.
    { exists 0%nat, []. split; [ lia | ]. split; [ reflexivity | ].
      vm_compute. reflexivity. }
    split; [ vm_compute; reflexivity | ].
    split; [ reflexivity | ].
    right. split; [ reflexivity | ]. vm_compute. discriminate.
  - intros (wi & w' & ws & u & D & _).
    apply drawn_in_single in D.
    assert (E : generate_single_transaction ios_recharge_world
                = Ok (ios_recharge_row, after_one_record ios_recharge_world))
      by (vm_compute; reflexivity).
    rewrite E in D. injection D. clear D E. intros. discriminate.
Qed.

(** ** The validator *)

Lemma require_column_table rs name :
  existsb (String.eqb name) COLUMNS = true ->
  pd.require_column (table rs) name = Ok tt.
Proof. intros H. unfold pd.require_column, table. cbn [pd.columns]. now rewrite H. Qed.

Lemma require_group_column_table rs name :
  existsb (String.eqb name) COLUMNS = true ->
  pd.require_group_column (table rs) name = Ok tt.
Proof.
  intros H. unfold pd.require_group_column, table. cbn [pd.columns]. now rewrite H.
Qed.

Lemma append_if_any_report errors selection message :
  append_if_any errors selection message
  = (errors ++ report message (length selection))%list.
Proof.
  unfold append_if_any, report.
  destruct (length selection); simpl; [ now rewrite app_nil_r | reflexivity ].
Qed.

Lemma validate_data_table rs :
  validate_data (table rs)
  = Ok (report msg_p2p_with_merchant (length (p2p_with_merchant rs))
        ++ report msg_p2p_without_receiver (length (p2p_without_receiver rs))
        ++ report msg_non_p2p_with_receiver (length (non_p2p_with_receiver rs))
        ++ report msg_non_p2p_without_merchant
                  (length (non_p2p_without_merchant rs)))%list.
Proof.
  unfold validate_data.
  rewrite !require_column_table by reflexivity.
  unfold rbind. rewrite !append_if_any_report.
  cbn [pd.rows table app]. now rewrite <- !app_assoc.
Qed.

Lemma length_filter_zero {A} (f : A -> bool) l :
  length (filter f l) = 0%nat <-> forall x, In x l -> f x = false.
Proof.
  induction l as [ | a l IH ]; simpl.
  - split; [ intros _ x [] | reflexivity ].
  - destruct (f a) eqn:E; simpl.
    + split; [ discriminate | ].
      intros H. specialize (H a (or_introl eq_refl)). congruence.
    + rewrite IH. split.
      * intros H x [<- | Hx]; auto.
      * intros H x Hx. apply H. now right.
Qed.

Lemma isin_non_p2p_types r :
  isin (transaction_type r) non_p2p_types = true <-> listed_non_p2p r.
Proof.
  unfold isin, non_p2p_types, listed_non_p2p. cbn [existsb].
  rewrite !orb_true_iff, !String.eqb_eq. intuition discriminate.
Qed.

Lemma no_p2p_with_merchant rs :
  length (p2p_with_merchant rs) = 0%nat <-> rule_p2p_merchant_null rs.
Proof.
  unfold p2p_with_merchant, rule_p2p_merchant_null. rewrite length_filter_zero.
  split; intros H r Hr.
  - intros E. specialize (H r Hr). rewrite E in H. cbn in H.
    destruct (merchant_category r); [ discriminate | reflexivity ].
  - destruct (String.eqb_spec (transaction_type r) "P2P") as [E | N];
      [ | reflexivity ].
    rewrite (H r Hr E). reflexivity.
Qed.

Lemma no_p2p_without_receiver rs :
  length (p2p_without_receiver rs) = 0%nat <-> rule_p2p_receiver_present rs.
Proof.
  unfold p2p_without_receiver, rule_p2p_receiver_present.
  rewrite length_filter_zero.
  split; intros H r Hr.
  - intros E. specialize (H r Hr). rewrite E in H. cbn in H.
    destruct (receiver_age_group r); discriminate.
  - destruct (String.eqb_spec (transaction_type r) "P2P") as [E | N];
      [ | reflexivity ].
    specialize (H r Hr E).
    destruct (receiver_age_group r); [ reflexivity | contradiction ].
Qed.

Lemma no_non_p2p_with_receiver rs :
  length (non_p2p_with_receiver rs) = 0%nat <-> rule_listed_receiver_null rs.
Proof.
  unfold non_p2p_with_receiver, rule_listed_receiver_null.
  rewrite length_filter_zero.
  split; intros H r Hr.
  - intros L. apply isin_non_p2p_types in L.
    specialize (H r Hr). rewrite L in H. cbn in H.
    destruct (receiver_age_group r); [ discriminate | reflexivity ].
  - destruct (isin (transaction_type r) non_p2p_types) eqn:L; [ | reflexivity ].
    apply isin_non_p2p_types in L. rewrite (H r Hr L). reflexivity.
Qed.

Lemma no_non_p2p_without_merchant rs :
  length (non_p2p_without_merchant rs) = 0%nat <-> rule_listed_merchant_present rs.
Proof.
  unfold non_p2p_without_merchant, rule_listed_merchant_present.
  rewrite length_filter_zero.
  split; intros H r Hr.
  - intros L. apply isin_non_p2p_types in L.
    specialize (H r Hr). rewrite L in H. cbn in H.
    destruct (merchant_category r); discriminate.
  - destruct (isin (transaction_type r) non_p2p_types) eqn:L; [ | reflexivity ].
    apply isin_non_p2p_types in L. specialize (H r Hr L).
    destruct (merchant_category r); [ reflexivity | contradiction ].
Qed.

Lemma report_nil message n : report message n = [] <-> n = 0%nat.
Proof. destruct n; simpl; split; congruence. Qed.

Lemma report_length message n : (length (report message n) <= 1)%nat.
Proof. destruct n; simpl; lia. Qed.

Lemma report_In message n : n <> 0%nat -> In (message n) (report message n).
Proof. destruct n; simpl; [ congruence | auto ]. Qed.

Lemma listed_iff_not_p2p r :
  In (transaction_type r) TRANSACTION_TYPES ->
  (listed_non_p2p r <-> transaction_type r <> "P2P").
Proof.
  intros H. unfold listed_non_p2p.
  destruct (transaction_type_cases _ H) as [E | [E | [E | E]]]; rewrite E;
    split; intros H'; try discriminate; auto.
  - destruct H' as [D | [D | D]]; discriminate.
  - contradiction.
Qed.

(** On a table whose transaction types are those of the generator, the two
    readings of "non-P2P" give the same rules. *)
Lemma listed_rules_on_schema_types rs :
  Forall (fun r => In (transaction_type r) TRANSACTION_TYPES) rs ->
  (rule_listed_receiver_null rs <-> rule_non_p2p_receiver_null rs)
  /\ (rule_listed_merchant_present rs <-> rule_non_p2p_merchant_present rs).
Proof.
  intros F. rewrite Forall_forall in F.
  unfold rule_listed_receiver_null, rule_non_p2p_receiver_null,
    rule_listed_merchant_present, rule_non_p2p_merchant_present.
  split; split; intros H r Hr Hty; apply (H r Hr);
    apply (listed_iff_not_p2p r (F r Hr)); exact Hty.
Qed.

(** What [validate_data] returns on any table with the columns of the
    schema: in order, one message for each of its four selections that is
    not empty.  The two selections on non-P2P rows take the rows whose type
    is listed in [non_p2p_types]. *)
Lemma validate_data_reports rs :
  exists errors n1 n2 n3 n4,
    validate_data (table rs) = Ok errors
    /\ errors = (report msg_p2p_with_merchant n1
                 ++ report msg_p2p_without_receiver n2
                 ++ report msg_non_p2p_with_receiver n3
                 ++ report msg_non_p2p_without_merchant n4)%list
    /\ (n1 = 0%nat <-> rule_p2p_merchant_null rs)
    /\ (n2 = 0%nat <-> rule_p2p_receiver_present rs)
    /\ (n3 = 0%nat <-> rule_listed_receiver_null rs)
    /\ (n4 = 0%nat <-> rule_listed_merchant_present rs).
Proof.
  eexists.
  exists (length (p2p_with_merchant rs)), (length (p2p_without_receiver rs)),
         (length (non_p2p_with_receiver rs)),
         (length (non_p2p_without_merchant rs)).
  split; [ apply validate_data_table | ].
  split; [ reflexivity | ].
  split; [ apply no_p2p_with_merchant | ].
  split; [ apply no_p2p_without_receiver | ].
  split; [ apply no_non_p2p_with_receiver | apply no_non_p2p_without_merchant ].
Qed.

(** A row whose transaction type is not one of the schema is left out by
    the two selections on non-P2P rows: the validator reports nothing on
    [refund_row], which the summary's check on non-P2P rows, made with
    [!= 'P2P'], does flag. *)
Example row_off_the_schema :
  ~ schema_types [refund_row]
  /\ validate_data (table [refund_row]) = Ok []
  /\ (exists s, get_data_summary (table [refund_row]) = Ok s
                /\ non_p2p_null_receiver_age_check s = false).
Proof.
  split.
  - intros H. apply Forall_inv in H. cbn in H.
    repeat (destruct H as [H | H]; [ discriminate | ]). exact H.
  - split; [ reflexivity | ]. eexists. split; reflexivity.
Qed.

(** C7. Validator completeness and independence.  For every table of the
    schema (its transaction types are the four of the enumeration),
    [validate_data] returns the list made, in order, of one message for
    each nullability rule that some row breaks: P2P rows have a null
    merchant_category; P2P rows have a non-null receiver_age_group; non-P2P
    rows have a null receiver_age_group; non-P2P rows have a non-null
    merchant_category.  The list is empty iff the table satisfies the four
    rules, and, the rules being checked independently of one another, the
    message of every broken rule is in it whatever the other rules do. *)
Theorem C7_validator_rules : forall rs,
  schema_types rs ->
  exists errors n1 n2 n3 n4,
    validate_data (table rs) = Ok errors
    /\ errors = (report msg_p2p_with_merchant n1
                 ++ report msg_p2p_without_receiver n2
                 ++ report msg_non_p2p_with_receiver n3
                 ++ report msg_non_p2p_without_merchant n4)%list
    /\ (n1 = 0%nat <-> rule_p2p_merchant_null rs)
    /\ (n2 = 0%nat <-> rule_p2p_receiver_present rs)
    /\ (n3 = 0%nat <-> rule_non_p2p_receiver_null rs)
    /\ (n4 = 0%nat <-> rule_non_p2p_merchant_present rs)
    /\ (errors = [] <-> satisfies_nullability_rules rs)
    /\ (~ rule_p2p_merchant_null rs -> In (msg_p2p_with_merchant n1) errors)
    /\ (~ rule_p2p_receiver_present rs -> In (msg_p2p_without_receiver n2) errors)
    /\ (~ rule_non_p2p_receiver_null rs
        -> In (msg_non_p2p_with_receiver n3) errors)
    /\ (~ rule_non_p2p_merchant_present rs
        -> In (msg_non_p2p_without_merchant n4) errors).
Proof.
  intros rs F.
  destruct (validate_data_reports rs)
    as (errors & n1 & n2 & n3 & n4 & E & -> & H1 & H2 & H3 & H4).
  destruct (listed_rules_on_schema_types rs F) as (L3 & L4).
  rewrite L3 in H3. rewrite L4 in H4.
  exists (report msg_p2p_with_merchant n1
          ++ report msg_p2p_without_receiver n2
          ++ report msg_non_p2p_with_receiver n3
          ++ report msg_non_p2p_without_merchant n4)%list, n1, n2, n3, n4.
  split; [ exact E | ]. split; [ reflexivity | ].
  split; [ exact H1 | ]. split; [ exact H2 | ].
  split; [ exact H3 | ]. split; [ exact H4 | ].
  split.
  { unfold satisfies_nullability_rules. rewrite <- H1, <- H2, <- H3, <- H4.
    split.
    - intros H.
      apply app_eq_nil in H. destruct H as (K1 & H).
      apply app_eq_nil in H. destruct H as (K2 & H).
      apply app_eq_nil in H. destruct H as (K3 & K4).
      rewrite report_nil in K1, K2, K3, K4. auto.
    - intros (K1 & K2 & K3 & K4). rewrite K1, K2, K3, K4. reflexivity. }
  split; [ intros H; rewrite <- H1 in H;
           rewrite !in_app_iff; left; now apply report_In | ].
  split; [ intros H; rewrite <- H2 in H;
           rewrite !in_app_iff; right; left; now apply report_In | ].
  split; [ intros H; rewrite <- H3 in H;
           rewrite !in_app_iff; right; right; left; now apply report_In | ].
  intros H; rewrite <- H4 in H.
  rewrite !in_app_iff; right; right; right; now apply report_In.
Qed.

(** The table of two rows, a P2P row that breaks both rules on P2P rows
    and a Recharge row in order: both messages are returned. *)
Lemma C7_witness :
  schema_types [p2p_bad_row; ios_recharge_row]
  /\ exists errors n1 n2 n3 n4,
       validate_data (table [p2p_bad_row; ios_recharge_row]) = Ok errors
       /\ errors = (report msg_p2p_with_merchant n1
                    ++ report msg_p2p_without_receiver n2
                    ++ report msg_non_p2p_with_receiver n3
                    ++ report msg_non_p2p_without_merchant n4)%list
       /\ (n1 = 0%nat <-> rule_p2p_merchant_null [p2p_bad_row; ios_recharge_row])
       /\ (n2 = 0%nat
           <-> rule_p2p_receiver_present [p2p_bad_row; ios_recharge_row])
       /\ (n3 = 0%nat
           <-> rule_non_p2p_receiver_null [p2p_bad_row; ios_recharge_row])
       /\ (n4 = 0%nat
           <-> rule_non_p2p_merchant_present [p2p_bad_row; ios_recharge_row])
       /\ (errors = []
           <-> satisfies_nullability_rules [p2p_bad_row; ios_recharge_row])
       /\ (~ rule_p2p_merchant_null [p2p_bad_row; ios_recharge_row]
           -> In (msg_p2p_with_merchant n1) errors)
       /\ (~ rule_p2p_receiver_present [p2p_bad_row; ios_recharge_row]
           -> In (msg_p2p_without_receiver n2) errors)
       /\ (~ rule_non_p2p_receiver_null [p2p_bad_row; ios_recharge_row]
           -> In (msg_non_p2p_with_receiver n3) errors)
       /\ (~ rule_non_p2p_merchant_present [p2p_bad_row; ios_recharge_row]
           -> In (msg_non_p2p_without_merchant n4) errors).
Proof.
  assert (F : schema_types [p2p_bad_row; ios_recharge_row]).
  { unfold schema_types, TRANSACTION_TYPES.
    constructor; [ simpl; auto | ].
    constructor; [ simpl; auto 6 | constructor ]. }
  split; [ exact F | ].
  exact (C7_validator_rules [p2p_bad_row; ios_recharge_row] F).
Defined.

(** C10. Bounded validator output: for every table, whatever the number of
    offending rows, [validate_data] returns at most 4 messages, and each
    of them is the message of one rule carrying the number (at least 1) of
    all the rows that break that rule. *)
Theorem C10_validator_output_bounded : forall rs,
  exists errors,
    validate_data (table rs) = Ok errors
    /\ (length errors <= 4)%nat
    /\ Forall (fun m =>
                 (m = msg_p2p_with_merchant (length (p2p_with_merchant rs))
                  /\ (0 < length (p2p_with_merchant rs))%nat)
                 \/ (m = msg_p2p_without_receiver (length (p2p_without_receiver rs))
                     /\ (0 < length (p2p_without_receiver rs))%nat)
                 \/ (m = msg_non_p2p_with_receiver (length (non_p2p_with_receiver rs))
                     /\ (0 < length (non_p2p_with_receiver rs))%nat)
                 \/ (m = msg_non_p2p_without_merchant
                           (length (non_p2p_without_merchant rs))
                     /\ (0 < length (non_p2p_without_merchant rs))%nat))
              errors.
Proof.
  intros rs. eexists. split; [ apply validate_data_table | ]. split.
  - rewrite !length_app.
    pose proof (report_length msg_p2p_with_merchant
                              (length (p2p_with_merchant rs))).
    pose proof (report_length msg_p2p_without_receiver
                              (length (p2p_without_receiver rs))).
    pose proof (report_length msg_non_p2p_with_receiver
                              (length (non_p2p_with_receiver rs))).
    pose proof (report_length msg_non_p2p_without_merchant
                              (length (non_p2p_without_merchant rs))).
    lia.
  - repeat rewrite Forall_app.
    repeat split;
      match goal with
      | |- Forall _ (report _ ?n) =>
          destruct n eqn:E; cbn [report]; constructor; [ | constructor ]
      end.
    + left. split; [ reflexivity | lia ].
    + right; left. split; [ reflexivity | lia ].
    + right; right; left. split; [ reflexivity | lia ].
    + right; right; right. split; [ reflexivity | lia ].
Qed.

(** Three offending rows give one message per broken rule, each with the
    count 3. *)
Example validate_data_aggregates :
  validate_data (table [p2p_bad_row; p2p_bad_row; p2p_bad_row])
  = Ok ["Rule A violated: 3 P2P transactions have non-null merchant_category";
        "Rule A violated: 3 P2P transactions have null receiver_age_group"].
Proof. reflexivity. Qed.

(** The summary of an empty table that has the columns of the schema: it
    is computed, and its four rates are undefined. *)
Lemma summary_of_empty_table :
  exists s, get_data_summary (table []) = Ok s /\ all_rates_undefined s.
Proof.
  eexists. split; [ reflexivity | ].
  unfold all_rates_undefined, rate_undefined. cbn. auto.
Qed.

(** C8. The boundary N = 0.  [generate_data(0)] makes no check of
    [num_rows]: it draws no record, builds a frame from the empty list,
    which has no column, and [sort_values('timestamp')] raises
    KeyError('timestamp'), as it does on every frame without that column.
    No table is returned, empty or not, so no summary is computed; yet
    [get_data_summary] is defined on the empty table of the schema, where
    it reports every rate as undefined. *)
Theorem C8_zero_rows : forall w,
  generate_records (Z.to_nat 0) w = Ok ([], w)
  /\ pd.columns (pd.DataFrame_of_records []) = []
  /\ (forall df,
         existsb (String.eqb "timestamp") (pd.columns df) = false ->
         pd.sort_values_timestamp df = Raise (KeyError "timestamp"))
  /\ generate_data 0 w = Raise (KeyError "timestamp")
  /\ ~ empty_table_with_undefined_rates 0 w
  /\ (exists s, get_data_summary (table []) = Ok s /\ all_rates_undefined s).
Proof.
  intros w.
  assert (E : generate_data 0 w = Raise (KeyError "timestamp")) by reflexivity.
  split; [ reflexivity | ]. split; [ reflexivity | ].
  split.
  { intros df H. unfold pd.sort_values_timestamp, pd.require_column.
    rewrite H. reflexivity. }
  split; [ exact E | ].
  split; [ | exact summary_of_empty_table ].
  intros (df & w' & s & E' & _). rewrite E in E'. discriminate.
Qed.

(** ** What the seed does not fix *)

Lemma generate_data_one w :
  exists t w', generate_data 1 w = Ok (table [t], w') /\ generated w t.
Proof.
  destruct (generate_single_transaction_spec w) as (t & w' & E & _ & G).
  exists t, w'. split; [ | exact G ].
  unfold generate_data, bind. change (Z.to_nat 1) with 1%nat.
  cbn [generate_records]. unfold bind. rewrite E. reflexivity.
Qed.

(** Whatever the seeded streams are, two runs that read the clock at
    different instants give tables with different timestamps. *)
Lemma same_seed_timestamps_differ w1 w2 :
  mt w1 = mt w2 -> mt_pos w1 = mt_pos w2 ->
  clock w1 (clock_pos w1) <> clock w2 (clock_pos w2) ->
  exists t1 t2 w1' w2',
    generate_data 1 w1 = Ok (table [t1], w1')
    /\ generate_data 1 w2 = Ok (table [t2], w2')
    /\ timestamp t1 <> timestamp t2.
Proof.
  intros Hmt Hpos Hclock.
  destruct (generate_data_one w1) as (t1 & w1' & E1 & G1).
  destruct (generate_data_one w2) as (t2 & w2' & E2 & G2).
  exists t1, t2, w1', w2'. split; [ exact E1 | ]. split; [ exact E2 | ].
  rewrite (gen_timestamp w1 t1 G1), (gen_timestamp w2 t2 G2), Hmt, Hpos.
  intros H. apply Hclock. lia.
Qed.

(** ** What the seed does fix *)

Lemma related_ret {A B} (R : A -> B -> Prop) a b :
  R a b -> related R (ret a) (ret b).
Proof. intros H w1 w2 S. unfold ret. auto. Qed.

Lemma related_raise {A B} (R : A -> B -> Prop) e :
  related R (raise e) (raise e).
Proof. intros w1 w2 S. reflexivity. Qed.

Lemma related_bind {A B A' B'} (R : A -> B -> Prop) (S : A' -> B' -> Prop)
      m1 m2 k1 k2 :
  related R m1 m2 ->
  (forall a b, R a b -> related S (k1 a) (k2 b)) ->
  related S (bind m1 k1) (bind m2 k2).
Proof.
  intros Hm Hk w1 w2 Hw. specialize (Hm w1 w2 Hw). unfold bind.
  destruct (m1 w1) as [[a1 w1'] | e1], (m2 w2) as [[a2 w2'] | e2];
    try contradiction; [ | exact Hm ].
  destruct Hm as (Hr & Hw'). exact (Hk a1 a2 Hr w1' w2' Hw').
Qed.

Lemma related_bind_eq {A A' B'} (S : A' -> B' -> Prop) (m : M A) k1 k2 :
  related eq m m ->
  (forall a, related S (k1 a) (k2 a)) ->
  related S (bind m k1) (bind m k2).
Proof.
  intros Hm Hk. eapply related_bind; [ exact Hm | ].
  intros a b <-. apply Hk.
Qed.

Lemma related_weaken {A B} (R R' : A -> B -> Prop) m1 m2 :
  (forall a b, R a b -> R' a b) -> related R m1 m2 -> related R' m1 m2.
Proof.
  intros HR Hm w1 w2 Hw. specialize (Hm w1 w2 Hw).
  destruct (m1 w1) as [[a1 w1'] | e1], (m2 w2) as [[a2 w2'] | e2];
    try contradiction; [ | exact Hm ].
  destruct Hm as (Hr & Hw'). auto.
Qed.

Lemma related_lift {A} (r : result A) : related eq (lift r) (lift r).
Proof. intros w1 w2 Hw. unfold lift. destruct r; auto. Qed.

Lemma related_next_raw : related eq random.next_raw random.next_raw.
Proof.
  intros w1 w2 (H1 & H2 & H3 & H4). unfold random.next_raw.
  split; [ now rewrite H1, H2 | ].
  unfold seed_eq. cbn. repeat split; congruence.
Qed.

Lemma related_next_variate : related eq np.next_variate np.next_variate.
Proof.
  intros w1 w2 (H1 & H2 & H3 & H4). unfold np.next_variate.
  rewrite H3, H4. destruct (np_mt w2 (np_pos w2)) as [n d].
  split; [ reflexivity | ].
  unfold seed_eq. cbn. repeat split; congruence.
Qed.

Lemma related_now : related unrelated datetime.now datetime.now.
Proof.
  intros w1 w2 (H1 & H2 & H3 & H4). unfold datetime.now.
  split; [ exact I | ]. unfold seed_eq. cbn. auto.
Qed.

Lemma related_next_entropy : related unrelated uuid.next_entropy uuid.next_entropy.
Proof.
  intros w1 w2 (H1 & H2 & H3 & H4). unfold uuid.next_entropy.
  split; [ exact I | ]. unfold seed_eq. cbn. auto.
Qed.

Create HintDb seeded.
#[local] Hint Resolve related_ret related_raise related_lift related_next_raw
  related_next_variate related_now related_next_entropy : seeded.
#[local] Hint Extern 2 (related _ (bind _ _) (bind _ _)) =>
  (apply related_bind_eq; [ | intro ]) : seeded.

Lemma related_random : related eq random.random random.random.
Proof. unfold random.random. auto with seeded. Qed.

Lemma related_randbelow n : related eq (random._randbelow n) (random._randbelow n).
Proof. unfold random._randbelow. auto with seeded. Qed.

#[local] Hint Resolve related_random related_randbelow : seeded.

Lemma related_randint a b : related eq (random.randint a b) (random.randint a b).
Proof.
  unfold random.randint. destruct (0 <? b + 1 - a); auto with seeded.
Qed.

Lemma related_choice {A} (seq : list A) :
  related eq (random.choice seq) (random.choice seq).
Proof. unfold random.choice. destruct seq; auto with seeded. Qed.

Lemma related_choices_draws {A} (population : list A) cw total hi k :
  related eq (random.choices_draws population cw total hi k)
             (random.choices_draws population cw total hi k).
Proof.
  induction k as [ | k IH ]; cbn [random.choices_draws]; auto with seeded.
Qed.

#[local] Hint Resolve related_randint related_choice related_choices_draws : seeded.

Lemma related_choices {A} (population : list A) weights k :
  related eq (random.choices population weights k)
             (random.choices population weights k).
Proof.
  unfold random.choices.
  destruct (negb (length (random.accumulate weights) =? length population)%nat);
    [ auto with seeded | ].
  apply related_bind_eq; [ auto with seeded | ].
  intros total. destruct (Qle_bool total 0); auto with seeded.
Qed.

#[local] Hint Resolve related_choices : seeded.

Lemma related_weighted_choice {A} (options : list A) weights :
  related eq (_weighted_choice options weights) (_weighted_choice options weights).
Proof. unfold _weighted_choice. auto with seeded. Qed.

Lemma related_generate_amount d t :
  related eq (_generate_amount d t) (_generate_amount d t).
Proof.
  unfold _generate_amount. destruct (amount_bounds d t) as [lo hi].
  unfold np.lognormal_of_log. auto 6 with seeded.
Qed.

Lemma related_get_merchant_category t :
  related eq (_get_merchant_category t) (_get_merchant_category t).
Proof.
  unfold _get_merchant_category. destruct (t =? "P2P")%string; auto with seeded.
Qed.

#[local] Hint Resolve related_weighted_choice related_generate_amount
  related_get_merchant_category : seeded.

Lemma related_get_receiver_age_group t :
  related eq (_get_receiver_age_group t) (_get_receiver_age_group t).
Proof.
  unfold _get_receiver_age_group. destruct (t =? "P2P")%string; auto with seeded.
Qed.

Lemma related_determine_fraud_flag a :
  related eq (_determine_fraud_flag a) (_determine_fraud_flag a).
Proof. unfold _determine_fraud_flag. auto with seeded. Qed.

(** The three computations whose results the seed does not fix; they leave
    the seeded streams where the other run leaves them. *)
Lemma related_generate_timestamp d :
  related unrelated (_generate_timestamp d) (_generate_timestamp d).
Proof.
  unfold _generate_timestamp.
  apply (related_bind unrelated unrelated); [ apply related_now | ].
  intros e1 e2 _.
  apply (related_bind eq unrelated); [ | intros; apply related_ret; exact I ].
  assert (E : forall e : Z, e - (e - datetime.timedelta_days d)
                            = datetime.timedelta_days d) by (intros; lia).
  rewrite !E. apply related_randint.
Qed.

Lemma related_generate_transaction_id :
  related unrelated _generate_transaction_id _generate_transaction_id.
Proof.
  unfold _generate_transaction_id, uuid.uuid4.
  apply (related_bind unrelated unrelated);
    [ | intros; apply related_ret; exact I ].
  apply (related_bind unrelated unrelated); [ apply related_next_entropy | ].
  intros; apply related_ret; exact I.
Qed.

Lemma related_determine_failure_status t wk1 wk2 :
  related unrelated (_determine_failure_status t wk1)
                    (_determine_failure_status t wk2).
Proof.
  unfold _determine_failure_status.
  apply (related_bind eq unrelated); [ apply related_random | ].
  intros; apply related_ret; exact I.
Qed.

#[local] Hint Resolve related_get_receiver_age_group related_determine_fraud_flag
  : seeded.

(** Two runs with the same seed draw records that agree on every field
    fixed by the seeded streams, whatever the clock and the operating
    system's entropy are. *)
Lemma related_generate_single_transaction :
  related seed_fields_eq generate_single_transaction generate_single_transaction.
Proof.
  unfold generate_single_transaction.
  eapply related_bind; [ apply related_generate_timestamp | ].
  intros ts1 ts2 _.
  apply related_bind_eq; [ auto with seeded | intros ty ].
  apply related_bind_eq; [ auto with seeded | intros dev ].
  cbv zeta.
  apply related_bind_eq; [ auto with seeded | intros amt ].
  eapply related_bind; [ apply related_generate_transaction_id | ].
  intros id1 id2 _.
  apply related_bind_eq; [ auto with seeded | intros mc ].
  eapply related_bind; [ apply related_determine_failure_status | ].
  intros st1 st2 _.
  apply related_bind_eq; [ auto with seeded | intros sag ].
  apply related_bind_eq; [ auto with seeded | intros rag ].
  apply related_bind_eq; [ auto with seeded | intros sst ].
  apply related_bind_eq; [ auto with seeded | intros sb ].
  apply related_bind_eq; [ auto with seeded | intros rb ].
  apply related_bind_eq; [ auto with seeded | intros nt ].
  apply related_bind_eq; [ auto with seeded | intros ff ].
  apply related_ret. unfold seed_fields_eq. cbn. repeat split.
Qed.

(** The same for the whole batch, record by record in the order of
    generation (the sort by timestamp may then order the two batches
    differently). *)
Lemma related_generate_records n :
  related (Forall2 seed_fields_eq) (generate_records n) (generate_records n).
Proof.
  induction n as [ | n IH ]; cbn [generate_records].
  - apply related_ret. constructor.
  - eapply related_bind; [ apply related_generate_single_transaction | ].
    intros t1 t2 Ht.
    eapply related_bind; [ exact IH | ].
    intros l1 l2 Hl. apply related_ret. constructor; assumption.
Qed.

(** ** More about one record and about the table *)

Lemma determine_fraud_flag_exact amount w :
  _determine_fraud_flag amount w =
    Ok (if Qltb (random.uniform (mt w (mt_pos w)))
                (if Qltb HIGH_VALUE_THRESHOLD amount then HIGH_VALUE_FRAUD_RATE
                 else BASE_FRAUD_RATE)
        then 1 else 0,
        tick_mt w).
Proof. reflexivity. Qed.

Lemma generate_amount_grid d t w :
  exists a k,
    _generate_amount d t w = Ok (a, tick_np w) /\ a = Qmake k 100.
Proof.
  unfold _generate_amount.
  destruct (amount_bounds d t) as [lo hi].
  unfold bind, np.lognormal_of_log, np.next_variate, bind, ret.
  destruct (np_mt w (np_pos w)) as [n den].
  eexists. eexists. split; reflexivity.
Qed.

Lemma generate_single_transaction_more w :
  exists t,
    generate_single_transaction w = Ok (t, after_one_record w)
    /\ generated_more w t.
Proof.
  unfold generate_single_transaction.
  step (generate_timestamp_spec w).
  set (w1 := tick_mt (tick_clock w)).
  choose choose_transaction_type ty Hty E1 w1. set (w2 := tick_mt w1).
  choose choose_device_type dev Hdev E2 w2. set (w3 := tick_mt w2).
  cbv zeta.
  destruct (generate_amount_grid dev ty w3) as (amt & k & E3 & Hamt). step E3.
  set (w4 := tick_np w3).
  step (generate_transaction_id_spec w4). set (w5 := tick_urandom w4).
  destruct (get_merchant_category_spec ty w5) as (m & E5 & Hm). step E5.
  set (w6 := if (ty =? "P2P")%string then w5 else tick_mt w5) in *.
  match goal with
  | |- context [_determine_failure_status ty ?wk] =>
      step (determine_failure_status_spec ty wk w6)
  end.
  set (w7 := tick_mt w6).
  choose choose_age_group sag Hsag E7 w7. set (w8 := tick_mt w7).
  destruct (get_receiver_age_group_spec ty w8) as (rag & E8 & Hr). step E8.
  set (w9 := if (ty =? "P2P")%string then tick_mt w8 else w8) in *.
  choose choose_state st Hst E9 w9. set (w10 := tick_mt w9).
  choose choose_bank sb Hsb E10 w10. set (w11 := tick_mt w10).
  choose choose_bank rb Hrb E11 w11. set (w12 := tick_mt w11).
  choose choose_network_type nt Hnt E12 w12. set (w13 := tick_mt w12).
  step (determine_fraud_flag_exact amt w13).
  unfold ret. eexists. split.
  - f_equal. f_equal.
    subst w13 w12 w11 w10 w9 w8 w7 w6 w5 w4 w3 w2 w1.
    destruct (ty =? "P2P")%string; reflexivity.
  - constructor; cbn [sender_age_group sender_state sender_bank receiver_bank
                      network_type fraud_flag amount_inr]; try assumption.
    { exists k. exact Hamt. }
    subst w13 w12 w11 w10 w9 w8 w7 w6 w5 w4 w3 w2 w1.
    destruct (ty =? "P2P")%string; reflexivity.
Qed.

Lemma generate_single_transaction_full w :
  exists t,
    generate_single_transaction w = Ok (t, after_one_record w)
    /\ generated w t /\ generated_more w t.
Proof.
  destruct (generate_single_transaction_more w) as (t & E & M).
  destruct (generate_single_transaction_spec w) as (t' & w' & E' & _ & G).
  rewrite E in E'. injection E' as <- _.
  exists t. auto.
Qed.

Lemma same_tapes_after_one_record w : same_tapes w (after_one_record w).
Proof. repeat split. Qed.

Lemma after_records_succ n w :
  after_records n (after_one_record w) = after_records (S n) w.
Proof.
  unfold after_records, after_one_record. cbn [mt mt_pos np_mt np_pos clock
    clock_pos urandom urandom_pos].
  f_equal; lia.
Qed.

Lemma after_records_zero w : after_records 0 w = w.
Proof. destruct w. reflexivity. Qed.

Lemma generate_records_full n : forall w,
  exists ts,
    generate_records n w = Ok (ts, after_records n w)
    /\ length ts = n /\ Forall (fully_generated w) ts.
Proof.
  induction n as [ | n IH ]; intros w.
  - exists []. rewrite after_records_zero. repeat split. constructor.
  - destruct (generate_single_transaction_full w) as (t & E1 & G & Mo).
    destruct (IH (after_one_record w)) as (ts & E2 & L & F).
    exists (t :: ts). cbn [generate_records]. step E1. step E2.
    rewrite after_records_succ.
    split; [ reflexivity | ]. split; [ simpl; congruence | ].
    constructor.
    + exists w. split; [ apply same_tapes_refl | auto ].
    + eapply Forall_impl; [ | exact F ].
      intros r (ws & T & Gr & Mr). exists ws.
      split; [ | auto ].
      eapply same_tapes_trans; [ apply same_tapes_after_one_record | exact T ].
Qed.

Lemma generate_data_full num_rows w :
  match generate_data num_rows w with
  | Ok (df, w') =>
      0 < num_rows
      /\ exists records,
           generate_records (Z.to_nat num_rows) w = Ok (records, w')
           /\ w' = after_records (Z.to_nat num_rows) w
           /\ length records = Z.to_nat num_rows
           /\ df = table (pd.sort_by_timestamp records)
           /\ Forall (fully_generated w) records
  | Raise e => num_rows <= 0 /\ e = KeyError "timestamp"
  end.
Proof.
  unfold generate_data.
  destruct (generate_records_full (Z.to_nat num_rows) w) as (ts & E & L & F).
  step E.
  destruct ts as [ | t ts ].
  - simpl. split; [ simpl in L; lia | reflexivity ].
  - unfold lift, pd.DataFrame_of_records.
    rewrite sort_values_timestamp_table.
    split; [ simpl in L; lia | ].
    exists (t :: ts). repeat split; auto.
Qed.

Lemma fully_generated_rows (P : World -> Transaction -> Prop) :
  (forall w t, fully_generated w t -> P w t) -> every_generated_row_of P.
Proof.
  intros H num_rows w.
  pose proof (generate_data_full num_rows w) as S.
  destruct (generate_data num_rows w) as [[df w'] | e]; [ | apply S ].
  destruct S as (Hn & records & _ & _ & _ & -> & F).
  split; [ exact Hn | ]. cbn [pd.rows table].
  eapply Permutation_Forall; [ apply Permutation_sym, sort_by_timestamp_perm | ].
  eapply Forall_impl; [ | exact F ]. intros t. apply H.
Qed.

Lemma insert_by_timestamp_ascending r l :
  ascending l -> ascending (pd.insert_by_timestamp r l).
Proof.
  induction l as [ | x l IH ]; intros A; cbn [pd.insert_by_timestamp].
  - simpl. auto.
  - destruct A as (Hx & Al).
    destruct (Z.ltb_spec (timestamp r) (timestamp x)) as [Hlt | Hge].
    + cbn [ascending]. split; [ | split; assumption ].
      constructor; [ lia | ].
      eapply Forall_impl; [ | exact Hx ]. intros y Hy. simpl in Hy. lia.
    + cbn [ascending]. split; [ | apply IH, Al ].
      eapply Permutation_Forall;
        [ apply Permutation_sym, insert_by_timestamp_perm | ].
      constructor; assumption.
Qed.

Lemma sort_by_timestamp_ascending l : ascending (pd.sort_by_timestamp l).
Proof.
  induction l as [ | x l IH ]; cbn [pd.sort_by_timestamp].
  - exact I.
  - apply insert_by_timestamp_ascending, IH.
Qed.

(** X1. For a positive row count, [generate_data] returns a table with the
    seventeen columns of the schema and exactly [num_rows] rows, which are
    the records drawn, rearranged in ascending order of timestamp; for a
    row count of zero or less it raises KeyError('timestamp'). *)
Theorem X1_table_shape_and_order : forall num_rows w,
  match generate_data num_rows w with
  | Ok (df, w') =>
      0 < num_rows
      /\ pd.columns df = COLUMNS /\ length (pd.columns df) = 17%nat
      /\ length (pd.rows df) = Z.to_nat num_rows
      /\ ascending (pd.rows df)
      /\ exists records,
           generate_records (Z.to_nat num_rows) w = Ok (records, w')
           /\ Permutation (pd.rows df) records
  | Raise e => num_rows <= 0 /\ e = KeyError "timestamp"
  end.
Proof.
  intros num_rows w.
  pose proof (generate_data_full num_rows w) as S.
  destruct (generate_data num_rows w) as [[df w'] | e]; [ | exact S ].
  destruct S as (Hn & records & E & _ & L & -> & _).
  cbn [pd.rows pd.columns table].
  split; [ exact Hn | ]. split; [ reflexivity | ]. split; [ reflexivity | ].
  split; [ rewrite (Permutation_length (sort_by_timestamp_perm records)); exact L | ].
  split; [ apply sort_by_timestamp_ascending | ].
  exists records. split; [ exact E | apply sort_by_timestamp_perm ].
Qed.

(** X2. Every record makes the same number of calls to each source,
    whatever its transaction type: eleven calls to the [random] module (a
    P2P record draws a receiver age group where the others draw a merchant
    category), one call of [np.random.lognormal], one reading of the clock
    and one read of the operating system's entropy.  The generation of a
    table of N rows therefore makes 11 N, N, N and N calls, and nothing
    else is read. *)
Theorem X2_draws_per_record :
  (forall w, exists t, generate_single_transaction w = Ok (t, after_one_record w))
  /\ (forall num_rows w,
         match generate_data num_rows w with
         | Ok (_, w') =>
             mt_pos w' = (11 * Z.to_nat num_rows + mt_pos w)%nat
             /\ np_pos w' = (Z.to_nat num_rows + np_pos w)%nat
             /\ clock_pos w' = (Z.to_nat num_rows + clock_pos w)%nat
             /\ urandom_pos w' = (Z.to_nat num_rows + urandom_pos w)%nat
             /\ same_tapes w w'
         | Raise _ => num_rows <= 0
         end).
Proof.
  split.
  - intros w. destruct (generate_single_transaction_more w) as (t & E & _).
    exists t. exact E.
  - intros num_rows w.
    pose proof (generate_data_full num_rows w) as S.
    destruct (generate_data num_rows w) as [[df w'] | e]; [ | apply S ].
    destruct S as (_ & records & _ & -> & _).
    unfold after_records. cbn. repeat split.
Qed.

(** X3. In every generated table, each timestamp is a whole number of
    seconds, between 0 and 2,592,000, after the instant thirty days before
    a reading of the clock: it lies in the thirty days that end at that
    reading. *)
Theorem X3_timestamp_window :
  every_generated_row_of within_thirty_days_of.
Proof.
  apply fully_generated_rows.
  intros w t (ws & (_ & _ & Hc & _) & G & _).
  exists (clock_pos ws), (mt ws (mt_pos ws) mod 2592001).
  pose proof (Z.mod_pos_bound (mt ws (mt_pos ws)) 2592001 eq_refl) as B.
  rewrite (gen_timestamp ws t G), Hc.
  unfold datetime.timedelta_days, datetime.timedelta_seconds.
  repeat split; lia.
Qed.

Lemma derived_fields_cases ts :
  0 <= datetime.hour ts <= 23
  /\ In (datetime.strftime_A ts) datetime.day_names
  /\ ((if 5 <=? datetime.weekday ts then 1 else 0) = 1
      <-> datetime.strftime_A ts = "Saturday" \/ datetime.strftime_A ts = "Sunday").
Proof.
  split.
  - unfold datetime.hour.
    pose proof (Z.mod_pos_bound (ts / 3600000000) 24 eq_refl). lia.
  - unfold datetime.strftime_A.
    pose proof (weekday_range ts) as R.
    assert (C : datetime.weekday ts = 0 \/ datetime.weekday ts = 1
                \/ datetime.weekday ts = 2 \/ datetime.weekday ts = 3
                \/ datetime.weekday ts = 4 \/ datetime.weekday ts = 5
                \/ datetime.weekday ts = 6) by lia.
    destruct C as [E | [E | [E | [E | [E | [E | E]]]]]]; rewrite E;
      (split; [ cbn; tauto | ]);
      cbn; split; intros H; try discriminate; auto;
      destruct H as [H | H]; discriminate.
Qed.

(** X4. In every generated table, each field of each row takes one of the
    values of its table: the four transaction types, three devices, three
    networks, five age groups, five banks, ten states, SUCCESS or FAILED,
    a fraud flag and a weekend flag of 0 or 1, an hour between 0 and 23, an
    English day name; and the weekend flag is 1 exactly on rows whose day
    is Saturday or Sunday. *)
Theorem X4_field_domains :
  every_generated_row field_domains.
Proof.
  intros num_rows w.
  pose proof (fully_generated_rows (fun _ => field_domains)) as H.
  apply H. clear. intros w t (ws & _ & G & Mo).
  destruct (derived_fields_cases (timestamp t)) as (Hh & Hd & Hw).
  unfold field_domains.
  split; [ exact (gen_type ws t G) | ].
  split; [ exact (gen_device ws t G) | ].
  split; [ exact (gm_network ws t Mo) | ].
  split; [ exact (gm_sender_age ws t Mo) | ].
  split; [ exact (gm_sender_bank ws t Mo) | ].
  split; [ exact (gm_receiver_bank ws t Mo) | ].
  split; [ exact (gm_state ws t Mo) | ].
  split.
  { rewrite (gen_status ws t G). cbv zeta.
    match goal with |- context [if ?b then "FAILED" else _] => destruct b end;
      cbn; auto. }
  split.
  { rewrite (gm_fraud ws t Mo). cbv zeta.
    match goal with |- In (if ?b then 1 else 0) _ => destruct b end; cbn; auto. }
  rewrite (gen_weekend ws t G), (gen_hour ws t G), (gen_day ws t G).
  unfold _calculate_derived_fields.
  cbn [d_hour_of_day d_day_of_week d_is_weekend].
  split.
  { destruct (5 <=? datetime.weekday (timestamp t)); cbn; auto. }
  split; [ exact Hh | ]. split; [ exact Hd | exact Hw ].
Qed.

Lemma Qltb_threshold a : Qltb HIGH_VALUE_THRESHOLD a = Qltb 50000 a.
Proof.
  unfold Qltb. f_equal. apply Qleb_comp; reflexivity.
Qed.

(** X5. In every generated table, each amount is a whole number of
    hundredths between 10 and 75,000, and an amount above 50,000 (the
    high-value threshold of the fraud rule) occurs only on a P2P row made
    on the Web. *)
Theorem X5_amount_shape :
  every_generated_row amount_shape.
Proof.
  intros num_rows w.
  apply (fully_generated_rows (fun _ => amount_shape)). clear.
  intros w t (ws & _ & G & Mo).
  destruct (gen_amount ws t G) as (Alo & Ahi).
  destruct (gm_amount_grid ws t Mo) as (k & Hk).
  unfold amount_shape.
  destruct (device_type_cases _ (gen_device ws t G)) as [Ed | [Ed | Ed]];
    destruct (transaction_type_cases _ (gen_type ws t G))
      as [Et | [Et | [Et | Et]]];
    rewrite Ed, Et in *;
    (split;
     [ split;
       [ eapply Qle_trans; [ | exact Alo ]; vm_compute; discriminate
       | eapply Qle_trans; [ exact Ahi | ]; vm_compute; discriminate ]
     | split;
       [ exists k; rewrite Hk; reflexivity
       | intros H;
         (split; reflexivity)
         || (exfalso; pose proof (Qlt_le_trans _ _ _ H Ahi) as C;
             vm_compute in C; discriminate) ] ]).
Qed.

Lemma bernoulli_flag_of_draw u p :
  bernoulli_flag u p (if Qltb u p then 1 else 0).
Proof.
  unfold bernoulli_flag.
  destruct (Qltb u p) eqn:E.
  - left. split; [ reflexivity | now apply Qltb_lt ].
  - right. split; [ reflexivity | now apply Qltb_ge ].
Qed.

(** X6. Conditional fraud sampling: every record that
    [generate_single_transaction] builds has its fraud flag decided by a
    single draw, the last call that the record makes: the flag is 1 when
    the variate that this [random.random()] returns is below the fraud
    probability and 0 otherwise, the probability being 10% when the amount
    of the record exceeds 50,000 and 2% otherwise.  In every generated
    table, each row is such a record, with the flag of its own draw. *)
Theorem X6_fraud_flag_sampling :
  (forall w,
      exists t w' ws u,
        generate_single_transaction w = Ok (t, w')
        /\ random.random ws = Ok (u, w')
        /\ bernoulli_flag u (fraud_probability t) (fraud_flag t))
  /\ (forall num_rows w,
         match generate_data num_rows w with
         | Ok (df, _) =>
             0 < num_rows
             /\ Forall (fraud_flag_sampled w (Z.to_nat num_rows)) (pd.rows df)
         | Raise _ => num_rows <= 0
         end).
Proof.
  assert (HP : forall wi t w',
             generate_single_transaction wi = Ok (t, w') ->
             exists ws u,
               random.random ws = Ok (u, w')
               /\ bernoulli_flag u (fraud_probability t) (fraud_flag t)).
  { intros wi t w' E.
    destruct (generate_single_transaction_more wi) as (t0 & E0 & Mo).
    rewrite E0 in E. injection E as <- <-.
    exists (mkWorld (mt wi) (10 + mt_pos wi) (np_mt wi) (1 + np_pos wi)
                    (clock wi) (1 + clock_pos wi)
                    (urandom wi) (1 + urandom_pos wi)),
           (random.uniform (mt wi (10 + mt_pos wi)%nat)).
    split; [ reflexivity | ].
    rewrite (gm_fraud wi t0 Mo). cbv zeta.
    unfold fraud_probability. rewrite Qltb_threshold.
    apply bernoulli_flag_of_draw. }
  split.
  { intros w.
    destruct (generate_single_transaction_spec w) as (t & w' & E & _).
    destruct (HP w t w' E) as (ws & u & H).
    exists t, w', ws, u. split; [ exact E | exact H ]. }
  intros num_rows w.
  pose proof (drawn_rows
    (fun wi t w' =>
       exists ws u,
         random.random ws = Ok (u, w')
         /\ bernoulli_flag u (fraud_probability t) (fraud_flag t))) as D.
  specialize (D HP num_rows w).
  destruct (generate_data num_rows w) as [[df wn] | e]; [ | exact D ].
  destruct D as (Hn & F). split; [ exact Hn | ].
  eapply Forall_impl; [ | exact F ].
  intros t (wi & w' & Dr & ws & u & U & S).
  exists wi, w', ws, u. auto.
Qed.

(** The draw is pinned: the row of the same table has the fraud flag 0,
    its variate being 0.5, and the same row with the flag 1 is not a row
    whose flag was sampled. *)
Example fraud_draw_is_pinned :
  fraud_flag_sampled ios_recharge_world 1 ios_recharge_row
  /\ ~ fraud_flag_sampled ios_recharge_world 1 (with_fraud_flag 1 ios_recharge_row).
Proof.
  split.
  - exists ios_recharge_world, (after_one_record ios_recharge_world).
    exists (mkWorld (mt ios_recharge_world) 10 (np_mt ios_recharge_world) 1
                    (clock ios_recharge_world) 1 (urandom ios_recharge_world) 1).
    eexists.
    split.
    { exists 0%nat, []. split; [ lia | ]. split; [ reflexivity | ].
      vm_compute. reflexivity. }
    split; [ reflexivity | ].
    right. split; [ reflexivity | ]. vm_compute. discriminate.
  - intros (wi & w' & ws & u & D & _).
    apply drawn_in_single in D.
    assert (E : generate_single_transaction ios_recharge_world
                = Ok (ios_recharge_row, after_one_record ios_recharge_world))
      by (vm_compute; reflexivity).
    rewrite E in D. injection D. clear D E. intros. discriminate.
Qed.

Lemma generated_rules rs :
  Forall (fun t => exists ws, generated ws t) rs ->
  rule_p2p_merchant_null rs /\ rule_p2p_receiver_present rs
  /\ rule_non_p2p_receiver_null rs /\ rule_non_p2p_merchant_present rs
  /\ Forall (fun r => In (transaction_type r) TRANSACTION_TYPES) rs.
Proof.
  intros F. rewrite Forall_forall in F.
  repeat split.
  - intros r Hr E. destruct (F r Hr) as (ws & G).
    pose proof (gen_merchant ws r G) as Hm. rewrite E in Hm. exact Hm.
  - intros r Hr E. destruct (F r Hr) as (ws & G).
    pose proof (gen_receiver ws r G) as H. rewrite E in H.
    destruct H as (a & -> & _). discriminate.
  - intros r Hr N. destruct (F r Hr) as (ws & G).
    pose proof (gen_receiver ws r G) as H.
    destruct (String.eqb_spec (transaction_type r) "P2P"); [ contradiction | exact H ].
  - intros r Hr N. destruct (F r Hr) as (ws & G).
    pose proof (gen_merchant ws r G) as H.
    destruct (String.eqb_spec (transaction_type r) "P2P"); [ contradiction | ].
    destruct H as (c & -> & _). discriminate.
  - apply Forall_forall. intros r Hr. destruct (F r Hr) as (ws & G).
    exact (gen_type ws r G).
Qed.

Lemma generated_table_rows num_rows w df w' :
  generate_data num_rows w = Ok (df, w') ->
  df = table (pd.rows df)
  /\ length (pd.rows df) = Z.to_nat num_rows /\ 0 < num_rows
  /\ Forall (fun t => exists ws, generated ws t) (pd.rows df).
Proof.
  intros E. pose proof (generate_data_spec num_rows w) as S. rewrite E in S.
  destruct S as (Hn & Hc & L & F).
  split; [ destruct df as [cols rs]; cbn in *; subst cols; reflexivity | ].
  split; [ exact L | ]. split; [ exact Hn | ].
  eapply Forall_impl; [ | exact F ]. intros t (ws & _ & G). eauto.
Qed.

Lemma generated_table_validates num_rows w df w' :
  generate_data num_rows w = Ok (df, w') -> validate_data df = Ok [].
Proof.
  intros E.
  destruct (generated_table_rows _ _ _ _ E) as (Hdf & _ & _ & F).
  destruct (generated_rules _ F) as (R1 & R2 & R3 & R4 & Ty).
  destruct (listed_rules_on_schema_types _ Ty) as (L3 & L4).
  rewrite Hdf, validate_data_table.
  apply no_p2p_with_merchant in R1. apply no_p2p_without_receiver in R2.
  apply L3, no_non_p2p_with_receiver in R3.
  apply L4, no_non_p2p_without_merchant in R4.
  rewrite R1, R2, R3, R4. reflexivity.
Qed.

(** X7. Every table that [generate_data] returns passes its own validator:
    [validate_data] reports no violation, for any row count and any world.  *)
Theorem X7_generated_tables_validate : forall num_rows w,
  match generate_data num_rows w with
  | Ok (df, _) => validate_data df = Ok []
  | Raise _ => num_rows <= 0
  end.
Proof.
  intros num_rows w.
  pose proof (generate_data_spec num_rows w) as S.
  destruct (generate_data num_rows w) as [[df w'] | e] eqn:E; [ | apply S ].
  eapply generated_table_validates. exact E.
Qed.

(** ** The summary *)

Lemma mean_nil_iff l : mean l = NaN <-> l = [].
Proof. destruct l; simpl; split; congruence. Qed.

Lemma mean_not_none l : mean l <> PyNone.
Proof. destruct l; simpl; discriminate. Qed.

Lemma Qsum_unit_interval l :
  Forall unit_interval l ->
  (0 <= Qsum l /\ Qsum l <= inject_Z (Z.of_nat (length l)))%Q.
Proof.
  induction 1 as [ | q l (Hq0 & Hq1) _ (IH0 & IH1) ]; cbn [Qsum fold_right length].
  - split; apply Qle_refl.
  - fold (Qsum l). split.
    + rewrite <- (Qplus_0_r 0). apply Qplus_le_compat; assumption.
    + rewrite Nat2Z.inj_succ. unfold Z.succ. rewrite inject_Z_plus.
      rewrite Qplus_comm. apply Qplus_le_compat; assumption.
Qed.

Lemma mean_unit_interval l :
  l <> [] -> Forall unit_interval l -> is_rate (mean l).
Proof.
  intros Hne F. destruct (Qsum_unit_interval l F) as (S0 & S1).
  destruct l as [ | a l ]; [ congruence | ].
  set (xs := a :: l) in *.
  assert (Hpos : (0 < inject_Z (Z.of_nat (length xs)))%Q).
  { change 0%Q with (inject_Z 0). rewrite <- Zlt_Qlt. subst xs. simpl length. lia. }
  exists (Qsum xs / inject_Z (Z.of_nat (length xs)))%Q.
  split; [ reflexivity | ]. split.
  - apply Qle_shift_div_l; [ exact Hpos | ]. rewrite Qmult_0_l. exact S0.
  - apply Qle_shift_div_r; [ exact Hpos | ]. rewrite Qmult_1_l. exact S1.
Qed.

Lemma failed_flags_unit_interval rs :
  Forall unit_interval (map (fun r => Q_of_bool (is_failed r)) rs).
Proof.
  apply Forall_forall. intros q Hq. apply in_map_iff in Hq.
  destruct Hq as (r & <- & _). unfold unit_interval, Q_of_bool.
  destruct (is_failed r); split; discriminate.
Qed.

Lemma filter_nil_iff {A} (f : A -> bool) l :
  filter f l = [] <-> forall x, In x l -> f x = false.
Proof.
  rewrite <- length_filter_zero. destruct (filter f l); simpl; split;
    congruence.
Qed.

Lemma get_data_summary_table rs :
  exists s,
    get_data_summary (table rs) = Ok s
    /\ total_records s = length rs
    /\ overall_failure_rate s = mean (map (fun r => Q_of_bool (is_failed r)) rs)
    /\ fraud_flag_rate s = mean (map (fun r => inject_Z (fraud_flag r)) rs)
    /\ weekend_billpay_failure_rate s =
         (let slice := filter (fun r => (transaction_type r =? "Bill Payment")%string
                                        && (is_weekend r =? 1)) rs in
          match slice with
          | [] => PyNone
          | _ => mean (map (fun r => Q_of_bool (is_failed r)) slice)
          end)
    /\ high_value_fraud_rate s =
         (let slice := filter (fun r => Qltb HIGH_VALUE_THRESHOLD (amount_inr r)) rs in
          match slice with
          | [] => PyNone
          | _ => mean (map (fun r => inject_Z (fraud_flag r)) slice)
          end)
    /\ p2p_null_merchant_check s =
         forallb (fun r => isna (merchant_category r))
                 (filter (fun r => (transaction_type r =? "P2P")%string) rs)
    /\ non_p2p_null_receiver_age_check s =
         forallb (fun r => isna (receiver_age_group r))
                 (filter (fun r => negb (transaction_type r =? "P2P")%string) rs).
Proof.
  unfold get_data_summary.
  rewrite !require_column_table, require_group_column_table by reflexivity.
  cbn [rbind pd.rows table].
  eexists. split; [ reflexivity | ].
  cbn [total_records overall_failure_rate fraud_flag_rate
       weekend_billpay_failure_rate high_value_fraud_rate
       p2p_null_merchant_check non_p2p_null_receiver_age_check].
  repeat split.
  - destruct (filter _ rs); reflexivity.
  - destruct (filter _ rs); reflexivity.
Qed.

Lemma p2p_null_merchant_check_iff rs :
  forallb (fun r => isna (merchant_category r))
          (filter (fun r => (transaction_type r =? "P2P")%string) rs) = true
  <-> rule_p2p_merchant_null rs.
Proof.
  rewrite forallb_forall. unfold rule_p2p_merchant_null. split.
  - intros H r Hr Ety.
    assert (Hf : In r (filter (fun r => (transaction_type r =? "P2P")%string) rs)).
    { apply filter_In. split; [ exact Hr | now apply String.eqb_eq ]. }
    specialize (H r Hf). destruct (merchant_category r); [ discriminate | reflexivity ].
  - intros H r Hr. apply filter_In in Hr. destruct Hr as (Hr & Ety).
    apply String.eqb_eq in Ety. rewrite (H r Hr Ety). reflexivity.
Qed.

Lemma non_p2p_null_receiver_check_iff rs :
  forallb (fun r => isna (receiver_age_group r))
          (filter (fun r => negb (transaction_type r =? "P2P")%string) rs) = true
  <-> rule_non_p2p_receiver_null rs.
Proof.
  rewrite forallb_forall. unfold rule_non_p2p_receiver_null. split.
  - intros H r Hr Nty.
    assert (Hf : In r (filter
               (fun r => negb (transaction_type r =? "P2P")%string) rs)).
    { apply filter_In. split; [ exact Hr | ].
      apply negb_true_iff. now apply String.eqb_neq. }
    specialize (H r Hf).
    destruct (receiver_age_group r); [ discriminate | reflexivity ].
  - intros H r Hr. apply filter_In in Hr. destruct Hr as (Hr & Nty).
    apply negb_true_iff, String.eqb_neq in Nty. rewrite (H r Hr Nty).
    reflexivity.
Qed.

(** X8. For every table with the columns of the schema, [get_data_summary]
    returns a report whose total is the number of rows; the overall failure
    rate is NaN on the empty table and a number between 0 and 1 otherwise;
    the weekend Bill Payment failure rate is None exactly when no row is a
    Bill Payment with the weekend flag set, and a number between 0 and 1
    otherwise; the high-value fraud rate is None exactly when no amount
    exceeds 50,000; the two rule checks are True exactly when P2P rows have
    no merchant category, and rows of any other type no receiver age
    group. *)
Theorem X8_summary_of_a_table : forall rs,
  exists s,
    get_data_summary (table rs) = Ok s
    /\ total_records s = length rs
    /\ (overall_failure_rate s = NaN <-> rs = [])
    /\ (rs <> [] -> is_rate (overall_failure_rate s))
    /\ (weekend_billpay_failure_rate s = PyNone
        <-> forall r, In r rs -> ~ weekend_bill_payment r)
    /\ (weekend_billpay_failure_rate s <> PyNone
        -> is_rate (weekend_billpay_failure_rate s))
    /\ (high_value_fraud_rate s = PyNone <-> forall r, In r rs -> ~ high_value r)
    /\ (p2p_null_merchant_check s = true <-> rule_p2p_merchant_null rs)
    /\ (non_p2p_null_receiver_age_check s = true <-> rule_non_p2p_receiver_null rs).
Proof.
  intros rs.
  destruct (get_data_summary_table rs)
    as (s & E & Ht & Ho & _ & Hw & Hh & Hp & Hn).
  exists s. split; [ exact E | ]. split; [ exact Ht | ].
  rewrite Ho, Hw, Hh, Hp, Hn. clear E Ht Ho Hw Hh Hp Hn s. cbv zeta.
  split.
  { rewrite mean_nil_iff. destruct rs; simpl; split; congruence. }
  split.
  { intros Hne. apply mean_unit_interval.
    - destruct rs; [ congruence | discriminate ].
    - apply failed_flags_unit_interval. }
  assert (Wslice : forall r,
             (transaction_type r =? "Bill Payment")%string && (is_weekend r =? 1)
             = false <-> ~ weekend_bill_payment r).
  { intros r. unfold weekend_bill_payment.
    rewrite andb_false_iff, String.eqb_neq, Z.eqb_neq. split.
    - intros [H | H] (A & B); contradiction.
    - intros H.
      destruct (string_dec (transaction_type r) "Bill Payment") as [A | A];
        [ right; intros B; apply H; auto | left; exact A ]. }
  split.
  {
    destruct (filter _ rs) as [ | x xs ] eqn:F.
    - split; [ intros _ | reflexivity ].
      intros r Hr. apply Wslice. revert r Hr. now apply filter_nil_iff.
    - split; [ intros H; exfalso; exact (mean_not_none _ H) | ].
      intros H. exfalso.
      assert (Hx : In x (x :: xs)) by now left.
      rewrite <- F in Hx. apply filter_In in Hx. destruct Hx as (Hin & Hb).
      apply (H x Hin). apply andb_true_iff in Hb. destruct Hb as (Hb1 & Hb2).
      apply String.eqb_eq in Hb1. apply Z.eqb_eq in Hb2. split; assumption. }
  split.
  {
    destruct (filter _ rs) as [ | x xs ]; [ intros H; congruence | ].
    intros _. apply mean_unit_interval; [ discriminate | ].
    apply failed_flags_unit_interval. }
  split.
  {
    destruct (filter _ rs) as [ | x xs ] eqn:F.
    - split; [ intros _ | reflexivity ].
      intros r Hr Hv. unfold high_value in Hv.
      pose proof (proj1 (filter_nil_iff _ _) F r Hr) as Hb. cbv beta in Hb.
      rewrite Qltb_threshold in Hb. apply Qltb_ge in Hb.
      exact (Qlt_not_le _ _ Hv Hb).
    - split; [ intros H; exfalso; exact (mean_not_none _ H) | ].
      intros H. exfalso.
      assert (Hx : In x (x :: xs)) by now left.
      rewrite <- F in Hx. apply filter_In in Hx. destruct Hx as (Hin & Hb).
      rewrite Qltb_threshold in Hb. apply Qltb_lt in Hb.
      exact (H x Hin Hb). }
  split; [ apply p2p_null_merchant_check_iff | apply non_p2p_null_receiver_check_iff ].
Qed.

Lemma fraud_flags_unit_interval w rs :
  Forall (fully_generated w) rs ->
  Forall unit_interval (map (fun r => inject_Z (fraud_flag r)) rs).
Proof.
  intros F. apply Forall_forall. intros q Hq. apply in_map_iff in Hq.
  destruct Hq as (r & <- & Hr). rewrite Forall_forall in F.
  destruct (F r Hr) as (ws & _ & _ & Mo).
  rewrite (gm_fraud ws r Mo). cbv zeta. unfold unit_interval.
  match goal with |- context [if ?b then 1 else 0] => destruct b end;
    split; discriminate.
Qed.

(** X9. On every generated table [get_data_summary] returns a report: its
    total is the row count asked for, its two rule checks are True, its
    overall failure rate and fraud rate are numbers between 0 and 1, and
    its high-value fraud rate is None or a number between 0 and 1. *)
Theorem X9_summary_of_generated_tables : forall num_rows w,
  match generate_data num_rows w with
  | Ok (df, _) =>
      exists s,
        get_data_summary df = Ok s
        /\ Z.of_nat (total_records s) = num_rows
        /\ p2p_null_merchant_check s = true
        /\ non_p2p_null_receiver_age_check s = true
        /\ is_rate (overall_failure_rate s)
        /\ is_rate (fraud_flag_rate s)
        /\ (high_value_fraud_rate s = PyNone \/ is_rate (high_value_fraud_rate s))
  | Raise _ => num_rows <= 0
  end.
Proof.
  intros num_rows w.
  pose proof (generate_data_full num_rows w) as S.
  destruct (generate_data num_rows w) as [[df w'] | e]; [ | apply S ].
  destruct S as (Hn & records & _ & _ & L & -> & F).
  set (rs := pd.sort_by_timestamp records).
  assert (P : Permutation rs records) by apply sort_by_timestamp_perm.
  assert (Frs : Forall (fully_generated w) rs)
    by (eapply Permutation_Forall; [ apply Permutation_sym, P | exact F ]).
  assert (Hne : rs <> []).
  { intros E. apply Permutation_length in P. rewrite E in P. simpl in P. lia. }
  assert (G : Forall (fun t => exists ws, generated ws t) rs).
  { eapply Forall_impl; [ | exact Frs ]. intros t (ws & _ & Gt & _). eauto. }
  destruct (generated_rules rs G) as (R1 & _ & R3 & _ & _).
  destruct (get_data_summary_table rs)
    as (s & E & Ht & Ho & Hf & _ & Hh & Hp & Hq).
  exists s. split; [ exact E | ].
  split; [ rewrite Ht, (Permutation_length P), L; lia | ].
  split; [ rewrite Hp; now apply p2p_null_merchant_check_iff | ].
  split; [ rewrite Hq; now apply non_p2p_null_receiver_check_iff | ].
  split.
  { rewrite Ho. apply mean_unit_interval; [ | apply failed_flags_unit_interval ].
    destruct rs; [ congruence | discriminate ]. }
  split.
  { rewrite Hf. apply mean_unit_interval;
      [ | eapply fraud_flags_unit_interval; exact Frs ].
    destruct rs; [ congruence | discriminate ]. }
  rewrite Hh. cbv zeta.
  destruct (filter _ rs) as [ | x xs ] eqn:Fi; [ now left | right ].
  apply mean_unit_interval; [ discriminate | ].
  apply (fraud_flags_unit_interval w). rewrite <- Fi.
  apply Forall_forall. intros r Hr. apply filter_In in Hr.
  rewrite Forall_forall in Frs. apply Frs, Hr.
Qed.

(** X10. Missing columns: [validate_data] raises KeyError for the first of
    transaction_type, merchant_category and receiver_age_group that the
    frame lacks, and returns a list when it has all three;
    [get_data_summary] raises KeyError for the first missing one of the
    nine columns it reads, and returns a report when it has them all.  The
    key of the error is the name of the column, except for amount_inr,
    which is selected from a group-by and gives
    KeyError('Column not found: amount_inr').  On the frame built from no
    record both raise. *)
Theorem X10_missing_columns : forall df,
  match first_missing df validate_columns with
  | Some c => validate_data df = Raise (KeyError c)
  | None => exists errors, validate_data df = Ok errors
  end
  /\ match first_missing df summary_columns with
     | Some c => get_data_summary df = Raise (summary_key_error c)
     | None => exists s, get_data_summary df = Ok s
     end
  /\ validate_data (pd.DataFrame_of_records []) = Raise (KeyError "transaction_type")
  /\ get_data_summary (pd.DataFrame_of_records []) = Raise (KeyError "timestamp").
Proof.
  intros df. split; [ | split; [ | split; reflexivity ] ].
  - unfold first_missing, validate_columns, validate_data, pd.require_column.
    cbn [find].
    repeat match goal with
           | |- context [existsb (String.eqb ?c) (pd.columns df)] =>
               destruct (existsb (String.eqb c) (pd.columns df));
               cbn [negb rbind]; try reflexivity
           end.
    eexists. reflexivity.
  - unfold first_missing, summary_columns, get_data_summary, pd.require_column,
      pd.require_group_column.
    cbn [find].
    repeat match goal with
           | |- context [existsb (String.eqb ?c) (pd.columns df)] =>
               destruct (existsb (String.eqb c) (pd.columns df));
               cbn [negb rbind]; try reflexivity
           end.
    eexists. reflexivity.
Qed.

(** ** Weighted choice *)

Lemma nondecreasing_nth a :
  nondecreasing a = true ->
  forall i j, (i <= j < length a)%nat -> (nth i a 0 <= nth j a 0)%Q.
Proof.
  induction a as [ | x a IH ]; intros H i j Hij; [ simpl in Hij; lia | ].
  assert (Ha : nondecreasing a = true).
  { destruct a; [ reflexivity | ]. cbn [nondecreasing] in H.
    apply andb_true_iff in H. apply H. }
  destruct j as [ | j ].
  - replace i with 0%nat by lia. apply Qle_refl.
  - destruct i as [ | i ].
    + cbn [nth]. destruct a as [ | y a ]; [ simpl in Hij; lia | ].
      cbn [nondecreasing] in H. apply andb_true_iff in H. destruct H as (Hxy & _).
      apply Qle_bool_iff in Hxy.
      eapply Qle_trans; [ exact Hxy | ].
      apply (IH Ha 0%nat j). simpl in Hij |- *. lia.
    + cbn [nth]. apply (IH Ha). simpl in Hij. lia.
Qed.

Lemma bisect_loop_correct a x :
  nondecreasing a = true ->
  forall fuel lo hi,
    (hi - lo <= fuel)%nat -> (lo <= hi <= length a)%nat ->
    let r := random.bisect_loop fuel a x lo hi in
    (lo <= r <= hi)%nat
    /\ (forall i, (lo <= i < r)%nat -> (nth i a 0 <= x)%Q)
    /\ (forall i, (r <= i < hi)%nat -> (x < nth i a 0)%Q).
Proof.
  intros Hs. induction fuel as [ | fuel IH ]; intros lo hi Hf Hb;
    cbn [random.bisect_loop].
  - repeat split; intros; lia.
  - destruct (Nat.ltb_spec lo hi) as [Hlt | Hge];
      [ | repeat split; intros; lia ].
    pose proof (midpoint_between lo hi Hlt) as Hmid.
    set (mid := ((lo + hi) / 2)%nat) in *.
    destruct (Qltb x (nth mid a 0%Q)) eqn:E.
    + apply Qltb_lt in E.
      destruct (IH lo mid) as (R & L & U); [ lia | lia | ].
      split; [ lia | ]. split; [ exact L | ].
      intros i Hi. destruct (Nat.lt_ge_cases i mid) as [Hi' | Hi'].
      * apply U. lia.
      * eapply Qlt_le_trans; [ exact E | ].
        apply nondecreasing_nth; [ exact Hs | lia ].
    + apply Qltb_ge in E.
      destruct (IH (S mid) hi) as (R & L & U); [ lia | lia | ].
      split; [ lia | ]. split; [ | exact U ].
      intros i Hi. destruct (Nat.le_gt_cases i mid) as [Hi' | Hi'].
      * eapply Qle_trans; [ | exact E ].
        apply nondecreasing_nth; [ exact Hs | lia ].
      * apply L. lia.
Qed.

Lemma accumulate_from_length acc l :
  length (random.accumulate_from acc l) = length l.
Proof.
  revert acc. induction l as [ | x l IH ]; intros acc; simpl; [ | rewrite IH ];
    reflexivity.
Qed.

Lemma accumulate_length l : length (random.accumulate l) = length l.
Proof. destruct l; simpl; [ | rewrite accumulate_from_length ]; reflexivity. Qed.

Lemma accumulate_from_nondecreasing l : forall acc,
  all_positive l = true ->
  nondecreasing (acc :: random.accumulate_from acc l) = true.
Proof.
  induction l as [ | x l IH ]; intros acc H; [ reflexivity | ].
  cbn [all_positive forallb] in H. apply andb_true_iff in H.
  destruct H as (Hx & Hl). apply Qltb_lt in Hx.
  cbn [random.accumulate_from nondecreasing]. apply andb_true_iff. split.
  - apply Qle_bool_iff. rewrite <- (Qplus_0_r acc) at 1.
    apply Qplus_le_compat; [ apply Qle_refl | apply Qlt_le_weak, Hx ].
  - apply IH, Hl.
Qed.

Lemma accumulate_nondecreasing l :
  all_positive l = true -> nondecreasing (random.accumulate l) = true.
Proof.
  destruct l as [ | x l ]; [ reflexivity | ]. intros H.
  cbn [all_positive forallb] in H. apply andb_true_iff in H.
  apply accumulate_from_nondecreasing, H.
Qed.

Lemma accumulate_first_positive l :
  all_positive l = true -> l <> [] -> (0 < nth 0 (random.accumulate l) 0)%Q.
Proof.
  destruct l as [ | x l ]; [ congruence | ]. intros H _.
  cbn [all_positive forallb] in H. apply andb_true_iff in H.
  destruct H as (Hx & _). apply Qltb_lt in Hx. exact Hx.
Qed.

Lemma weighted_choice_chosen {A} (options : list A) (weights : list Q) w :
  length weights = length options ->
  all_positive weights = true ->
  (0 < length options)%nat ->
  exists x,
    _weighted_choice options weights w = Ok (x, tick_mt w)
    /\ chosen_by_weight options weights (random.uniform (mt w (mt_pos w))) x.
Proof.
  intros Hlen Hpos Hne.
  set (cum := random.accumulate weights).
  set (n := length options).
  set (total := nth (n - 1) cum 0%Q).
  set (u := random.uniform (mt w (mt_pos w))).
  assert (Hcl : length cum = n) by (subst cum; rewrite accumulate_length; exact Hlen).
  assert (Hs : nondecreasing cum = true) by (apply accumulate_nondecreasing, Hpos).
  assert (Hwne : weights <> []) by (destruct weights; [ simpl in Hlen; lia | discriminate ]).
  assert (Htot : (0 < total)%Q).
  { eapply Qlt_le_trans; [ apply accumulate_first_positive; eassumption | ].
    apply nondecreasing_nth; [ exact Hs | lia ]. }
  assert (Hlast : getitem_last cum = Ok total).
  { unfold getitem_last, getitem. rewrite Hcl.
    rewrite (nth_error_nth' cum 0%Q) by lia. reflexivity. }
  destruct (uniform_range (mt w (mt_pos w))) as (U0 & U1). fold u in U0, U1.
  destruct (bisect_loop_correct cum (u * total)%Q Hs (n - 1 - 0) 0 (n - 1))
    as (R & L & U); [ lia | lia | ].
  fold (random.bisect cum (u * total)%Q 0 (n - 1)) in R, L, U.
  set (i := random.bisect cum (u * total)%Q 0 (n - 1)) in *.
  destruct (nth_error options i) as [x | ] eqn:Ex;
    [ | apply nth_error_None in Ex; lia ].
  exists x. split.
  - unfold _weighted_choice, random.choices. fold cum. fold n.
    rewrite Hcl, Nat.eqb_refl. cbn [negb].
    unfold bind at 1. unfold bind at 1. unfold lift at 1. rewrite Hlast.
    assert (Hq : Qle_bool total 0 = false).
    { destruct (Qle_bool total 0) eqn:Eq; [ | reflexivity ].
      apply Qle_bool_iff in Eq. exfalso. exact (Qlt_not_le _ _ Htot Eq). }
    rewrite Hq. cbn [random.choices_draws].
    unfold bind, random.random, bind, random.next_raw, ret, lift, getitem.
    fold u. fold i. rewrite Ex. reflexivity.
  - unfold chosen_by_weight. fold cum. fold n. fold total.
    exists i. split; [ lia | ]. split; [ exact Ex | ]. split.
    + destruct i as [ | j ] eqn:Ei; cbn [weight_before].
      * rewrite <- (Qmult_0_l total).
        apply Qmult_le_compat_r; [ exact U0 | apply Qlt_le_weak, Htot ].
      * apply L. lia.
    + destruct (Nat.lt_ge_cases i (n - 1)) as [Hi | Hi].
      * apply U. lia.
      * replace i with (n - 1)%nat by lia. fold total.
        rewrite <- (Qmult_1_l total) at 2.
        apply Qmult_lt_compat_r; [ exact Htot | exact U1 ].
Qed.





(** X12. The weights of the two main tables as intervals of the uniform
    variate u that [_weighted_choice] consumes: the transaction type is P2P
    for u < 0.35, P2M for 0.35 <= u < 0.70, Bill Payment for
    0.70 <= u < 0.90 and Recharge from 0.90 on; the device is Android for
    u < 0.60, iOS for 0.60 <= u < 0.90 and Web from 0.90 on. *)
Theorem X12_type_and_device_intervals : forall w,
  let u := random.uniform (mt w (mt_pos w)) in
  (exists ty,
      _weighted_choice TRANSACTION_TYPES TRANSACTION_TYPE_WEIGHTS w
        = Ok (ty, tick_mt w)
      /\ transaction_type_of_variate u ty)
  /\ (exists dev,
         _weighted_choice DEVICE_TYPES DEVICE_WEIGHTS w = Ok (dev, tick_mt w)
         /\ device_type_of_variate u dev).
Proof.
  intros w u. split.
  - destruct (weighted_choice_chosen TRANSACTION_TYPES TRANSACTION_TYPE_WEIGHTS w)
      as (ty & E & i & Hi & Hx & Lo & Up);
      [ reflexivity | reflexivity | simpl; lia | ].
    exists ty. split; [ exact E | ]. fold u in Lo, Up.
    assert (T : (nth (length TRANSACTION_TYPES - 1)
                     (random.accumulate TRANSACTION_TYPE_WEIGHTS) 0 == 1)%Q)
      by reflexivity.
    rewrite T, Qmult_1_r in Lo, Up.
    unfold transaction_type_of_variate.
    destruct i as [ | [ | [ | [ | i ] ] ] ];
      [ | | | | simpl in Hi; lia ];
      injection Hx as <-; cbn [weight_before nth] in Lo, Up.
    + left. split; [ | reflexivity ].
      eapply Qlt_le_trans; [ exact Up | vm_compute; discriminate ].
    + right; left. split; [ | split; [ | reflexivity ] ].
      * eapply Qle_trans; [ | exact Lo ]. vm_compute; discriminate.
      * eapply Qlt_le_trans; [ exact Up | vm_compute; discriminate ].
    + right; right; left. split; [ | split; [ | reflexivity ] ].
      * eapply Qle_trans; [ | exact Lo ]. vm_compute; discriminate.
      * eapply Qlt_le_trans; [ exact Up | vm_compute; discriminate ].
    + right; right; right. split; [ | reflexivity ].
      eapply Qle_trans; [ | exact Lo ]. vm_compute; discriminate.
  - destruct (weighted_choice_chosen DEVICE_TYPES DEVICE_WEIGHTS w)
      as (dev & E & i & Hi & Hx & Lo & Up);
      [ reflexivity | reflexivity | simpl; lia | ].
    exists dev. split; [ exact E | ]. fold u in Lo, Up.
    assert (T : (nth (length DEVICE_TYPES - 1)
                     (random.accumulate DEVICE_WEIGHTS) 0 == 1)%Q)
      by reflexivity.
    rewrite T, Qmult_1_r in Lo, Up.
    unfold device_type_of_variate.
    destruct i as [ | [ | [ | i ] ] ];
      [ | | | simpl in Hi; lia ];
      injection Hx as <-; cbn [weight_before nth] in Lo, Up.
    + left. split; [ | reflexivity ].
      eapply Qlt_le_trans; [ exact Up | vm_compute; discriminate ].
    + right; left. split; [ | split; [ | reflexivity ] ].
      * eapply Qle_trans; [ | exact Lo ]. vm_compute; discriminate.
      * eapply Qlt_le_trans; [ exact Up | vm_compute; discriminate ].
    + right; right. split; [ | reflexivity ].
      eapply Qle_trans; [ | exact Lo ]. vm_compute; discriminate.
Qed.

(** ** Transaction identifiers *)

Lemma string_forall_app p s1 s2 :
  string_forall p (s1 ++ s2) = string_forall p s1 && string_forall p s2.
Proof.
  induction s1 as [ | c s1 IH ]; cbn [append string_forall];
    [ reflexivity | ].
  rewrite IH. apply andb_assoc.
Qed.

Lemma string_length_app s1 s2 :
  String.length (s1 ++ s2) = (String.length s1 + String.length s2)%nat.
Proof. induction s1 as [ | c s1 IH ]; simpl; [ | rewrite IH ]; reflexivity. Qed.

Lemma hex_digit_upper d : is_upper_hex (upper_ascii (uuid.hex_digit d)) = true.
Proof.
  unfold uuid.hex_digit. generalize (Z.to_nat d). intros n.
  do 16 (destruct n as [ | n ]; [ reflexivity | ]).
  destruct n; reflexivity.
Qed.

Lemma hex_digits_length n : forall v, String.length (uuid.hex_digits n v) = n.
Proof.
  induction n as [ | n IH ]; intros v; cbn [uuid.hex_digits]; [ reflexivity | ].
  rewrite string_length_app, IH. simpl. lia.
Qed.

Lemma hex_digits_upper n : forall v,
  string_forall (fun c => is_upper_hex (upper_ascii c)) (uuid.hex_digits n v) = true.
Proof.
  induction n as [ | n IH ]; intros v; cbn [uuid.hex_digits]; [ reflexivity | ].
  rewrite string_forall_app, IH. cbn [string_forall].
  rewrite hex_digit_upper. reflexivity.
Qed.

Lemma upper_forall p s :
  string_forall (fun c => p (upper_ascii c)) s = string_forall p (upper s).
Proof. induction s as [ | c s IH ]; simpl; [ | rewrite IH ]; reflexivity. Qed.

Lemma upper_length s : String.length (upper s) = String.length s.
Proof. induction s as [ | c s IH ]; simpl; [ | rewrite IH ]; reflexivity. Qed.

Lemma prefix_slice_app n s1 s2 :
  (n <= String.length s1)%nat -> prefix_slice n (s1 ++ s2) = prefix_slice n s1.
Proof.
  revert s1. induction n as [ | n IH ]; intros s1 H.
  - destruct s1; destruct s2; reflexivity.
  - destruct s1 as [ | c s1 ]; [ simpl in H; lia | ].
    cbn [append prefix_slice]. rewrite IH; [ reflexivity | simpl in H; lia ].
Qed.

Lemma prefix_slice_all s : prefix_slice (String.length s) s = s.
Proof. induction s as [ | c s IH ]; simpl; [ | rewrite IH ]; reflexivity. Qed.

(** The first [n] of [n + m] hexadecimal digits are the digits of the
    number without its [m] lowest digits. *)
Lemma prefix_of_hex_digits n m : forall v,
  prefix_slice n (uuid.hex_digits (n + m) v) = uuid.hex_digits n (v / 16 ^ Z.of_nat m).
Proof.
  induction m as [ | m IH ]; intros v.
  - rewrite Nat.add_0_r, Z.div_1_r.
    rewrite <- (hex_digits_length n v) at 1. apply prefix_slice_all.
  - rewrite Nat.add_succ_r. cbn [uuid.hex_digits].
    rewrite prefix_slice_app by (rewrite hex_digits_length; lia).
    rewrite IH, Z.div_div by (try apply Z.pow_pos_nonneg; lia).
    rewrite Nat2Z.inj_succ, Z.pow_succ_r by lia. reflexivity.
Qed.

(** The version and variant bits that [uuid4] overwrites lie below the 48
    highest bits. *)
Lemma uuid_high_bits e :
  uuid.uuid_of_entropy e / 2 ^ 80 = (e mod 2 ^ 128) / 2 ^ 80.
Proof.
  unfold uuid.uuid_of_entropy. cbv zeta.
  rewrite <- !Z.shiftr_div_pow2 by lia.
  rewrite Z.shiftr_lor, Z.shiftr_ldiff, Z.shiftr_lor, Z.shiftr_ldiff.
  change (Z.shiftr (Z.shiftl 4 76) 80) with 0.
  change (Z.shiftr (Z.shiftl 61440 64) 80) with 0.
  change (Z.shiftr (Z.shiftl 32768 48) 80) with 0.
  change (Z.shiftr (Z.shiftl 49152 48) 80) with 0.
  now rewrite !Z.lor_0_r, !Z.ldiff_0_r.
Qed.

Lemma generated_id_high_bits e :
  "TXN" ++ upper (prefix_slice 12 (uuid.hex (uuid.uuid_of_entropy e)))
  = id_of_high_bits e.
Proof.
  unfold id_of_high_bits, uuid.hex.
  change 32%nat with (12 + 20)%nat.
  rewrite prefix_of_hex_digits.
  change (16 ^ Z.of_nat 20) with (2 ^ 80).
  now rewrite uuid_high_bits.
Qed.

(** X13. In every generated table, each transaction_id is the text TXN
    followed by exactly twelve upper-case hexadecimal digits (fifteen
    characters). *)
Theorem X13_transaction_id_format :
  every_generated_row well_formed_id.
Proof.
  apply generated_rows. intros w t G.
  unfold well_formed_id. rewrite (gen_id w t G), generated_id_high_bits.
  unfold id_of_high_bits.
  set (v := (urandom w (urandom_pos w) mod 2 ^ 128) / 2 ^ 80).
  exists (upper (uuid.hex_digits 12 v)).
  split; [ reflexivity | ].
  split; [ now rewrite upper_length, hex_digits_length | ].
  split; [ rewrite <- upper_forall; apply hex_digits_upper | ].
  rewrite string_length_app, upper_length, hex_digits_length. reflexivity.
Qed.


(** ** The command *)

Lemma mean_value l : l <> [] -> exists q, mean l = Value q.
Proof. destruct l; [ congruence | ]. intros _. eexists. reflexivity. Qed.

Lemma print_averages_returns items : forall p,
  Forall (fun it : string * stat => snd it <> PyNone) items ->
  exists lines,
    print_averages items p
    = (Returned tt, mkProcess (world p) (stdout p ++ lines)%list (csv_files p)).
Proof.
  induction items as [ | [device avg] items IH ]; intros p F.
  - exists []. destruct p. cbn. now rewrite app_nil_r.
  - inversion F as [ | x l Havg Hrest ]; subst. cbn [snd] in Havg.
    cbn [print_averages].
    destruct avg as [q | | ]; [ | | congruence ];
      cbn [format_amount]; unfold io_bind at 1; cbn [io_ret];
      unfold io_bind at 1; cbn [print];
      match goal with
      | |- context [print_averages items ?p1] =>
          destruct (IH p1 Hrest) as (lines & E); rewrite E
      end;
      cbn [world stdout csv_files]; rewrite <- app_assoc;
      eexists; reflexivity.
Qed.

Lemma existsb_filter {A} (f : A -> bool) l :
  existsb f l = match filter f l with [] => false | _ => true end.
Proof.
  induction l as [ | x l IH ]; [ reflexivity | ].
  cbn [existsb filter]. destruct (f x); [ reflexivity | exact IH ].
Qed.

Lemma In_insert_by_key {V} (item x : string * V) l :
  In x (insert_by_key item l) -> x = item \/ In x l.
Proof.
  induction l as [ | y l IH ]; cbn [insert_by_key].
  - intros [<- | []]. now left.
  - destruct (String.leb (fst item) (fst y)).
    + intros [<- | H]; [ now left | now right ].
    + intros [<- | H]; [ right; now left | ].
      destruct (IH H) as [-> | H']; [ now left | right; now right ].
Qed.

Lemma In_sorted_by_key {V} (x : string * V) l :
  In x (sorted_by_key l) -> In x l.
Proof.
  induction l as [ | y l IH ]; cbn [sorted_by_key fold_right]; [ auto | ].
  intros H. apply In_insert_by_key in H. destruct H as [-> | H];
    [ now left | right; apply IH, H ].
Qed.

Lemma summary_averages rs s :
  get_data_summary (table rs) = Ok s ->
  Forall (fun it : string * stat => snd it <> PyNone)
         (sorted_by_key (avg_amount_by_device s)).
Proof.
  unfold get_data_summary.
  rewrite !require_column_table, require_group_column_table by reflexivity.
  cbn [rbind]. intros E. injection E as <-. cbn [avg_amount_by_device].
  apply Forall_forall. intros it Hit. apply In_sorted_by_key in Hit.
  apply in_map_iff in Hit. destruct Hit as (d & <- & _). cbn [snd].
  apply mean_not_none.
Qed.

Lemma init_valid_seed mersenne np_mersenne seed p :
  valid_np_seed seed = true ->
  __init__ mersenne np_mersenne (Some seed) p
  = (Returned tt, seeded mersenne np_mersenne seed p).
Proof.
  intros H. unfold __init__, io_bind, random_seed, np_random_seed.
  cbn [world stdout csv_files mt mt_pos np_mt np_pos clock clock_pos urandom
       urandom_pos].
  rewrite H. reflexivity.
Qed.

Lemma init_invalid_seed mersenne np_mersenne seed p :
  valid_np_seed seed = false ->
  __init__ mersenne np_mersenne (Some seed) p
  = (Raised (Exn (ValueError "Seed must be between 0 and 2**32 - 1")),
     mkProcess (mkWorld (mersenne seed) 0 (np_mt (world p)) (np_pos (world p))
                        (clock (world p)) (clock_pos (world p))
                        (urandom (world p)) (urandom_pos (world p)))
               (stdout p) (csv_files p)).
Proof.
  intros H. unfold __init__, io_bind, random_seed, np_random_seed.
  cbn [world stdout csv_files mt mt_pos np_mt np_pos clock clock_pos urandom
       urandom_pos].
  rewrite H. reflexivity.
Qed.

Lemma generate_and_save_dataset_outcome :
  forall mersenne np_mersenne output_path num_rows seed p,
    command_outcome mersenne np_mersenne output_path num_rows seed p.
Proof.
  intros mersenne np_mersenne output_path num_rows seed p.
  unfold command_outcome. cbv zeta.
  set (start := seeded mersenne np_mersenne seed p).
  set (result := generate_and_save_dataset mersenne np_mersenne output_path
                   num_rows seed p).
  pose proof (generate_data_full num_rows (world start)) as S.
  assert (R : result = generate_and_save_dataset mersenne np_mersenne
                         output_path num_rows seed p) by reflexivity.
  clearbody result.
  unfold generate_and_save_dataset in R.
  unfold io_bind at 1 in R.
  destruct (valid_np_seed seed) eqn:Hseed.
  2:{ rewrite (init_invalid_seed mersenne np_mersenne seed p Hseed) in R.
      subst result. repeat split. }
  rewrite (init_valid_seed mersenne np_mersenne seed p Hseed) in R.
  fold start in R.
  unfold io_bind at 1 in R. unfold run at 1 in R.
  destruct (generate_data num_rows (world start)) as [[df w'] | e] eqn:E.
  2:{ destruct S as (Hn & ->). split; [ exact Hn | exact R ]. }
  destruct S as (Hn & records & _ & _ & L & Hdf & F).
  split; [ exact Hn | ].
  pose proof (generated_table_validates _ _ _ _ E) as V.
  unfold io_bind at 1 in R. unfold of_result at 1 in R. rewrite V in R.
  unfold io_bind at 1 in R. cbn [print] in R.
  set (rs := pd.sort_by_timestamp records) in *.
  assert (P : Permutation rs records) by apply sort_by_timestamp_perm.
  assert (Hne : rs <> []).
  { intros E0. apply Permutation_length in P. rewrite E0 in P. simpl in P. lia. }
  destruct (get_data_summary_table rs)
    as (s & Es & Ht & Ho & Hf & Hw & Hh & _ & _).
  pose proof (summary_averages rs s Es) as Avg.
  rewrite <- Hdf in Es.
  unfold io_bind at 1 in R. unfold of_result at 1 in R. rewrite Es in R.
  destruct (mean_value (map (fun r => Q_of_bool (is_failed r)) rs)) as (q1 & Q1).
  { destruct rs; [ congruence | discriminate ]. }
  destruct (mean_value (map (fun r => inject_Z (fraud_flag r)) rs)) as (q2 & Q2).
  { destruct rs; [ congruence | discriminate ]. }
  rewrite Q1 in Ho. rewrite Q2 in Hf.
  do 3 (unfold io_bind at 1 in R; cbn [print] in R).
  unfold io_bind at 1 in R. rewrite Ho in R. cbn [format_percent io_ret] in R.
  unfold io_bind at 1 in R; cbn [print] in R.
  unfold io_bind at 1 in R. rewrite Hf in R. cbn [format_percent io_ret] in R.
  unfold io_bind at 1 in R; cbn [print] in R.
  unfold has_weekend_bill_payment, has_high_value.
  rewrite !existsb_filter. rewrite Hdf. cbn [pd.rows table].
  cbv zeta in Hw, Hh.
  unfold io_bind at 1 in R. rewrite Hw in R.
  cbn [world stdout csv_files] in R.
  destruct (filter _ rs) as [ | x xs ] eqn:Fw in R, Hw |- *.
  { cbn [format_percent] in R. subst result.
    cbn [fst snd world stdout csv_files andb].
    split; [ reflexivity | ]. split; [ | split; [ eexists | ]; reflexivity ].
    subst start. cbn [stdout seeded]. rewrite <- !app_assoc. cbn [app].
    eexists. reflexivity. }
  destruct (mean_value (map (fun r => Q_of_bool (is_failed r)) (x :: xs)))
    as (q3 & Q3); [ discriminate | ].
  rewrite Q3 in R. cbn [format_percent io_ret] in R.
  unfold io_bind at 1 in R; cbn [print] in R.
  unfold io_bind at 1 in R. rewrite Hh in R.
  cbn [world stdout csv_files] in R.
  destruct (filter (fun r => Qltb HIGH_VALUE_THRESHOLD (amount_inr r)) rs)
    as [ | y ys ] eqn:Fh in R, Hh |- *.
  { cbn [format_percent] in R. subst result.
    cbn [fst snd world stdout csv_files andb].
    split; [ reflexivity | ]. split; [ | split; [ eexists | ]; reflexivity ].
    subst start. cbn [stdout seeded]. rewrite <- !app_assoc. cbn [app].
    eexists. reflexivity. }
  destruct (mean_value (map (fun r => inject_Z (fraud_flag r)) (y :: ys)))
    as (q4 & Q4); [ discriminate | ].
  rewrite Q4 in R. cbn [format_percent io_ret] in R.
  do 2 (unfold io_bind at 1 in R; cbn [print] in R).
  unfold io_bind at 1 in R.
  match type of R with
  | context [print_averages ?items ?p1] =>
      destruct (print_averages_returns items p1 Avg) as (lines & Ea);
      rewrite Ea in R
  end.
  cbn [world stdout csv_files] in R.
  unfold io_bind at 1 in R; cbn [to_csv] in R.
  unfold io_bind at 1 in R; cbn [print io_ret] in R.
  cbn [world stdout csv_files] in R.
  subst result. cbn [fst snd world stdout csv_files andb].
  split; [ reflexivity | ]. split.
  { subst start. cbn [stdout seeded]. rewrite <- !app_assoc. cbn [app].
    eexists. reflexivity. }
  split; [ rewrite Hdf; reflexivity | ].
  split; [ rewrite Hdf; reflexivity | ].
  eexists. reflexivity.
Qed.

(** X15. The command [generate_and_save_dataset].  With a seed outside 0 to
    2**32 - 1 the constructor raises ValueError (from [np.random.seed]):
    nothing is printed and no file is written.  With a seed in that range:
    for a row count of zero or less it raises KeyError('timestamp') before
    printing or writing anything; for a positive row count it first prints
    that validation passed; then, if the table has both a Bill Payment row
    on a weekend and a row above 50,000, it writes the table once to the
    output path, prints where it was saved and returns the table; if either
    kind of row is missing, formatting the rate of the empty slice raises
    TypeError and no file is written. *)
Theorem X15_command_outcome :
  forall mersenne np_mersenne output_path num_rows seed p,
    command_outcome mersenne np_mersenne output_path num_rows seed p.
Proof. exact generate_and_save_dataset_outcome. Qed.

Lemma bill_payment_not_high_value w t :
  generated w t -> transaction_type t = "Bill Payment" ->
  Qltb HIGH_VALUE_THRESHOLD (amount_inr t) = false.
Proof.
  intros G E. apply Qltb_ge.
  destruct (generated_in_clipped_range w t G) as (_ & Hhi).
  rewrite E in Hhi. eapply Qle_trans; [ exact Hhi | ].
  destruct (device_type_cases _ (gen_device w t G)) as [-> | [-> | ->]];
    vm_compute; discriminate.
Qed.

(** X16. With a single row the command never succeeds: whatever the seed
    and the world, [generate_and_save_dataset] with num_rows = 1 raises and
    writes no file.  With a seed that [np.random.seed] accepts (0 to
    2**32 - 1) the exception is TypeError, because one row cannot be both a
    weekend Bill Payment and above 50,000; with any other seed it is the
    ValueError of the constructor. *)
Theorem X16_single_row_command_raises :
  forall mersenne np_mersenne output_path seed p,
    let result :=
      generate_and_save_dataset mersenne np_mersenne output_path 1 seed p in
    (if valid_np_seed seed
     then exists msg, fst result = Raised (TypeError msg)
     else fst result
          = Raised (Exn (ValueError "Seed must be between 0 and 2**32 - 1")))
    /\ csv_files (snd result) = csv_files p.
Proof.
  intros mersenne np_mersenne output_path seed p result.
  pose proof (generate_and_save_dataset_outcome mersenne np_mersenne
                output_path 1 seed p) as O.
  unfold command_outcome in O. cbv zeta in O. fold result in O.
  destruct (valid_np_seed seed); [ | split; apply O ].
  destruct (generate_data_one (world (seeded mersenne np_mersenne seed p)))
    as (t & w' & E & G).
  rewrite E in O. destruct O as (_ & _ & _ & O).
  assert (C : has_weekend_bill_payment (table [t]) && has_high_value (table [t])
              = false).
  { unfold has_weekend_bill_payment, has_high_value.
    cbn [pd.rows table existsb]. rewrite !orb_false_r.
    destruct (String.eqb_spec (transaction_type t) "Bill Payment") as [Ety | N];
      [ | reflexivity ].
    rewrite (bill_payment_not_high_value _ _ G Ety). apply andb_false_r. }
  rewrite C in O. exact O.
Qed.

(** X17. Two generators built with the same seed draw records that agree,
    one by one in the order of generation, on every field that comes from
    the seeded streams (transaction type, merchant category, amount, the
    two age groups, state, the two banks, device, network and fraud flag),
    whatever the clock and the operating system's entropy are in the two
    runs. *)
Theorem X17_same_seed_same_seeded_fields :
  forall (mersenne : Z -> nat -> Z)
         (np_mersenne : Z -> nat -> positive * positive)
         (seed : Z) (n : nat) (wa wb : World),
  exists l1 l2 w1 w2,
    generate_records n (reseeded (mersenne seed) (np_mersenne seed) wa)
      = Ok (l1, w1)
    /\ generate_records n (reseeded (mersenne seed) (np_mersenne seed) wb)
       = Ok (l2, w2)
    /\ Forall2 seed_fields_eq l1 l2.
Proof.
  intros mersenne np_mersenne seed n wa wb.
  pose proof (related_generate_records n
                (reseeded (mersenne seed) (np_mersenne seed) wa)
                (reseeded (mersenne seed) (np_mersenne seed) wb)) as R.
  destruct (generate_records_spec n
              (reseeded (mersenne seed) (np_mersenne seed) wa))
    as (l1 & w1 & E1 & _).
  destruct (generate_records_spec n
              (reseeded (mersenne seed) (np_mersenne seed) wb))
    as (l2 & w2 & E2 & _).
  rewrite E1, E2 in R.
  exists l1, l2, w1, w2. split; [ exact E1 | ]. split; [ exact E2 | ].
  apply R. repeat split.
Qed.

(** ** Date range and counts of the summary *)

Lemma summary_descriptive_fields rs s :
  get_data_summary (table rs) = Ok s ->
  date_range s = (series_min (map timestamp rs), series_max (map timestamp rs))
  /\ transaction_type_distribution s = value_counts (map transaction_type rs).
Proof.
  unfold get_data_summary.
  rewrite !require_column_table, require_group_column_table by reflexivity.
  cbn [rbind]. intros E. injection E as <-. split; reflexivity.
Qed.

Lemma fold_left_min l : forall x,
  fold_left Z.min l x <= x
  /\ (forall y, In y l -> fold_left Z.min l x <= y)
  /\ (fold_left Z.min l x = x \/ In (fold_left Z.min l x) l).
Proof.
  induction l as [ | a l IH ]; intros x; cbn [fold_left].
  - split; [ lia | ]. split; [ intros y [] | now left ].
  - destruct (IH (Z.min x a)) as (H1 & H2 & H3).
    split; [ lia | ]. split.
    + intros y [<- | Hy]; [ lia | apply H2, Hy ].
    + destruct H3 as [H3 | H3]; [ | right; now right ].
      rewrite H3. destruct (Z.min_spec x a) as [(_ & ->) | (_ & ->)];
        [ now left | right; now left ].
Qed.

Lemma fold_left_max l : forall x,
  x <= fold_left Z.max l x
  /\ (forall y, In y l -> y <= fold_left Z.max l x)
  /\ (fold_left Z.max l x = x \/ In (fold_left Z.max l x) l).
Proof.
  induction l as [ | a l IH ]; intros x; cbn [fold_left].
  - split; [ lia | ]. split; [ intros y [] | now left ].
  - destruct (IH (Z.max x a)) as (H1 & H2 & H3).
    split; [ lia | ]. split.
    + intros y [<- | Hy]; [ lia | apply H2, Hy ].
    + destruct H3 as [H3 | H3]; [ | right; now right ].
      rewrite H3. destruct (Z.max_spec x a) as [(_ & ->) | (_ & ->)];
        [ right; now left | now left ].
Qed.

(** X18. The date range of the summary: on a table without rows both ends
    are NaT; otherwise the start is the earliest timestamp of the table and
    the end the latest, each the timestamp of some row, with every row in
    between. *)
Theorem X18_summary_date_range : forall rs,
  exists s,
    get_data_summary (table rs) = Ok s
    /\ match rs with
       | [] => date_range s = (None, None)
       | _ =>
           exists first last,
             date_range s = (Some first, Some last)
             /\ In first (map timestamp rs) /\ In last (map timestamp rs)
             /\ forall r, In r rs -> first <= timestamp r <= last
       end.
Proof.
  intros rs. destruct (get_data_summary_table rs) as (s & E & _).
  exists s. split; [ exact E | ].
  destruct (summary_descriptive_fields rs s E) as (D & _). rewrite D.
  destruct rs as [ | r0 rs ]; [ reflexivity | ].
  cbn [map series_min series_max].
  destruct (fold_left_min (map timestamp rs) (timestamp r0)) as (A1 & A2 & A3).
  destruct (fold_left_max (map timestamp rs) (timestamp r0)) as (B1 & B2 & B3).
  eexists. eexists. split; [ reflexivity | ].
  split; [ destruct A3 as [-> | H]; [ now left | now right ] | ].
  split; [ destruct B3 as [-> | H]; [ now left | now right ] | ].
  intros r [<- | Hr]; [ lia | ].
  split; [ apply A2 | apply B2 ]; apply in_map, Hr.
Qed.

Lemma count_occ_cons_sum x l vs :
  NoDup vs ->
  list_sum (map (fun v => count_occ string_dec (x :: l) v) vs)
  = (list_sum (map (fun v => count_occ string_dec l v) vs)
     + (if in_dec string_dec x vs then 1 else 0))%nat.
Proof.
  induction 1 as [ | v vs Hv Hnd IH ]; [ reflexivity | ].
  rewrite !map_cons. unfold list_sum in *. cbn [fold_right]. rewrite IH.
  cbn [count_occ].
  destruct (string_dec x v) as [<- | N].
  - destruct (in_dec string_dec x (x :: vs)) as [_ | C];
      [ | exfalso; apply C; now left ].
    destruct (in_dec string_dec x vs) as [C | _]; [ contradiction | lia ].
  - destruct (in_dec string_dec x (v :: vs)) as [[C | I] | C'].
    + congruence.
    + destruct (in_dec string_dec x vs); [ lia | contradiction ].
    + destruct (in_dec string_dec x vs) as [I | _]; [ | lia ].
      exfalso. apply C'. now right.
Qed.

Lemma value_counts_sum l :
  list_sum (map snd (value_counts l)) = length l.
Proof.
  unfold value_counts, distinct. rewrite map_map. cbn [snd].
  induction l as [ | x l IH ]; [ reflexivity | ].
  cbn [nodup]. destruct (in_dec string_dec x l) as [I | N].
  - rewrite count_occ_cons_sum by apply NoDup_nodup. rewrite IH.
    destruct (in_dec string_dec x (nodup string_dec l)) as [_ | C];
      [ simpl; lia | exfalso; apply C; now apply nodup_In ].
  - rewrite map_cons.
    change (list_sum (?a :: ?r)) with (a + list_sum r)%nat.
    rewrite count_occ_cons_sum by apply NoDup_nodup. rewrite IH.
    destruct (in_dec string_dec x (nodup string_dec l)) as [C | _];
      [ exfalso; apply N; now apply nodup_In in C | ].
    cbn [count_occ]. destruct (string_dec x x); [ | congruence ].
    rewrite (proj1 (count_occ_not_In string_dec l x) N). simpl. lia.
Qed.

Lemma count_occ_map_type ty rs :
  count_occ string_dec (map transaction_type rs) ty = rows_of_type ty rs.
Proof.
  unfold rows_of_type. induction rs as [ | r rs IH ]; [ reflexivity | ].
  cbn [map count_occ filter].
  destruct (string_dec (transaction_type r) ty) as [E | N].
  - rewrite (proj2 (String.eqb_eq _ _) E). simpl. now rewrite IH.
  - rewrite (proj2 (String.eqb_neq _ _) N). exact IH.
Qed.

(** X19. The per-type counts of the summary: each transaction type that
    occurs in the table is listed exactly once, with the number of rows of
    that type; a type that does not occur is not listed; and the counts
    add up to the total number of records. *)
Theorem X19_summary_type_counts : forall rs,
  exists s,
    get_data_summary (table rs) = Ok s
    /\ NoDup (map fst (transaction_type_distribution s))
    /\ (forall ty n,
           In (ty, n) (transaction_type_distribution s)
           <-> (n = rows_of_type ty rs /\ (0 < n)%nat))
    /\ list_sum (map snd (transaction_type_distribution s)) = total_records s.
Proof.
  intros rs. destruct (get_data_summary_table rs) as (s & E & Ht & _).
  exists s. split; [ exact E | ].
  destruct (summary_descriptive_fields rs s E) as (_ & D). rewrite D, Ht.
  split; [ | split ].
  - unfold value_counts, distinct. rewrite map_map. cbn [fst].
    rewrite map_id. apply NoDup_nodup.
  - intros ty n. unfold value_counts, distinct. rewrite in_map_iff. split.
    + intros (v & Hv & Hin). injection Hv as <- <-.
      apply nodup_In in Hin. rewrite <- count_occ_map_type.
      split; [ reflexivity | ]. now apply count_occ_In.
    + intros (-> & Hpos). exists ty. rewrite count_occ_map_type.
      split; [ reflexivity | ].
      apply nodup_In. apply (count_occ_In string_dec).
      rewrite count_occ_map_type. exact Hpos.
  - rewrite value_counts_sum. apply length_map.
Qed.

(** ** Lookups with a default *)

(** X20. The two lookups of [_generate_amount] fall back instead of
    failing: for any device and transaction type, known or not, it returns
    an amount between 10 and 75,000; a device outside the table gets the
    range of Android, so at most 25,000; a transaction type outside the
    four keeps the bounds of the device. *)
Theorem X20_amount_fallbacks : forall d t w,
  exists a,
    _generate_amount d t w = Ok (a, tick_np w)
    /\ (10 <= a /\ a <= 75000)%Q
    /\ (~ In d DEVICE_TYPES -> (a <= 25000)%Q)
    /\ (~ In t TRANSACTION_TYPES ->
        within (dict_get AMOUNT_RANGES d (10.0, 25000.0)%Q) a).
Proof.
  intros d t w.
  destruct (generate_amount_spec d t w) as (a & E & Hlo & Hhi).
  exists a. split; [ exact E | ].
  revert Hlo Hhi. unfold amount_bounds, AMOUNT_RANGES, dict_get, within.
  destruct (String.eqb_spec d "Android") as [Ed1 | Nd1];
    [ | destruct (String.eqb_spec d "iOS") as [Ed2 | Nd2];
        [ | destruct (String.eqb_spec d "Web") as [Ed3 | Nd3] ] ];
    (destruct (String.eqb_spec t "Recharge") as [Et1 | Nt1];
     [ | destruct (String.eqb_spec t "Bill Payment") as [Et2 | Nt2];
         [ | destruct (String.eqb_spec t "P2P") as [Et3 | Nt3];
             [ | destruct (String.eqb_spec t "P2M") as [Et4 | Nt4] ] ] ]);
    cbn [fst snd]; intros Hlo Hhi;
    (split;
     [ split;
       [ eapply Qle_trans; [ | exact Hlo ]; vm_compute; discriminate
       | eapply Qle_trans; [ exact Hhi | ]; vm_compute; discriminate ]
     | split;
       [ intros Hd;
         first [ eapply Qle_trans; [ exact Hhi | ]; vm_compute; discriminate
               | exfalso; apply Hd; subst d; unfold DEVICE_TYPES; simpl;
                 auto 8 ]
       | intros Ht;
         first [ split; assumption
               | exfalso; apply Ht; subst t; unfold TRANSACTION_TYPES; simpl;
                 auto 8 ] ] ]).
Qed.

(** The command can succeed: under [example_mersenne], two rows are enough
    for it to write the table and return. *)
Example command_can_succeed :
  let result :=
    generate_and_save_dataset example_mersenne example_np_mersenne
                              "data/transactions.csv" 2 42 example_process in
  (exists df, fst result = Returned df
              /\ csv_files (snd result) = [("data/transactions.csv", df)]
              /\ length (pd.rows df) = 2%nat)
  /\ stdout (snd result)
     = ["Data validation passed!";
        newline ++ "Dataset Summary:";
        "  Total records: 2";
        "  Date range: 2025-10-11 to 2025-10-29";
        "  Overall failure rate: 0.0%";
        "  Overall fraud flag rate: 0.0%";
        "  Weekend Bill Payment failure rate: 0.0%";
        "  High-value (>50k) fraud rate: 0.0%";
        newline ++ "  Avg Amount by Device:";
        "    Android: INR 6,275.00";
        "    Web: INR 56,325.00";
        newline ++ "Dataset saved to: data/transactions.csv"].
Proof.
  cbv zeta. split.
  - eexists. split; [ vm_compute; reflexivity | ].
    split; vm_compute; reflexivity.
  - vm_compute. reflexivity.
Qed.
